(** * git_incremental_deploy: a shallow embedding of the deployment script

    The script [src/git_incremental_deploy.py] locks a list of target
    directories, checks the commit recorded in each of them, copies the
    changed (or all) files and records the deployed commit.  This file
    embeds the script as functions in a state-and-exception monad over an
    explicit world (local file system, per-object attributes, remote FTP
    state, standard output and a log of calls) and states the properties of
    the specification about it.

    What lies outside the script is a parameter of the embedding: the
    [ftplib] session operations ([FtpLib]) and the GitPython objects
    ([GitLib]).  The local file system is modelled by its files and its
    directories. *)

From Stdlib Require Import Ascii String.
From stdpp Require Import base option list gmap strings.

Open Scope string_scope.
Open Scope list_scope.

(** ** Python strings *)

Module PyStr.

Definition nl : ascii := "010"%char.
Definition slash : ascii := "/"%char.

(** [s[:-1]] *)
Fixpoint drop_last (s : string) : string :=
  match s with
  | EmptyString => EmptyString
  | String c s' =>
      match s' with
      | EmptyString => EmptyString
      | String _ _ => String c (drop_last s')
      end
  end.

(** [s[0]], which raises [IndexError] on the empty string *)
Definition first_char (s : string) : option string :=
  match s with
  | EmptyString => None
  | String c _ => Some (String c EmptyString)
  end.

(** [s[1:]] *)
Definition tail (s : string) : string :=
  match s with
  | EmptyString => EmptyString
  | String _ s' => s'
  end.

Definition upper_char (c : ascii) : ascii :=
  let n := nat_of_ascii c in
  if (97 <=? n)%nat && (n <=? 122)%nat then ascii_of_nat (n - 32) else c.

(** [s.upper()] *)
Fixpoint upper (s : string) : string :=
  match s with
  | EmptyString => EmptyString
  | String c s' => String (upper_char c) (upper s')
  end.

(** [s.split("\n")] *)
Fixpoint split_nl (s : string) : list string :=
  match s with
  | EmptyString => [EmptyString]
  | String c s' =>
      if Ascii.eqb c nl then EmptyString :: split_nl s'
      else match split_nl s' with
           | x :: xs => String c x :: xs
           | [] => [String c EmptyString]
           end
  end.

Definition startswith_slash (s : string) : bool :=
  match s with
  | String c _ => Ascii.eqb c slash
  | EmptyString => false
  end.

Fixpoint endswith_slash (s : string) : bool :=
  match s with
  | EmptyString => false
  | String c EmptyString => Ascii.eqb c slash
  | String _ s' => endswith_slash s'
  end.

(** [(s[:i], s[i:])] for [i = s.rfind('/') + 1] *)
Fixpoint rsplit_slash (s : string) : string * string :=
  match s with
  | EmptyString => (EmptyString, EmptyString)
  | String c s' =>
      match rsplit_slash s' with
      | (EmptyString, t) =>
          if Ascii.eqb c slash then (String c EmptyString, s')
          else (EmptyString, String c t)
      | (h, t) => (String c h, t)
      end
  end.

Fixpoint all_slash (s : string) : bool :=
  match s with
  | EmptyString => true
  | String c s' => Ascii.eqb c slash && all_slash s'
  end.

(** [s.rstrip('/')] *)
Fixpoint rstrip_slash (s : string) : string :=
  match s with
  | EmptyString => EmptyString
  | String c s' =>
      match rstrip_slash s' with
      | EmptyString => if Ascii.eqb c slash then EmptyString else String c EmptyString
      | r => String c r
      end
  end.

End PyStr.

(** ** [os.path] (posixpath) *)

Module OsPath.
Import PyStr.

(** [os.path.join(a, b)] with two arguments *)
Definition join (a b : string) : string :=
  if startswith_slash b then b
  else if String.eqb a "" || endswith_slash a then a +:+ b
  else a +:+ "/" +:+ b.

(** [os.path.dirname(p)] *)
Definition dirname (p : string) : string :=
  let head := fst (rsplit_slash p) in
  if negb (String.eqb head "") && negb (all_slash head)
  then rstrip_slash head else head.

(** [os.path.basename(p)] *)
Definition basename (p : string) : string := snd (rsplit_slash p).

End OsPath.

(** ** Python values, exceptions and the two libraries *)

(** The exception classes the script raises, catches or lets through.
    [except IOError] catches [IOError] alone ([socket.error] is one in
    Python 2); [except Exception] catches everything but [SystemExit],
    which is what [exit()] raises. *)
Inductive Exn :=
  | IOError (msg : string)
  | OSError
  | AttributeError (msg : string)
  | IndexError
  | LibError (msg : string)      (* ftplib.error_perm, git errors, ... *)
  | PyException (msg : string)   (* raise Exception(msg) *)
  | SystemExit.

Definition is_IOError (e : Exn) : bool :=
  match e with IOError _ => true | _ => false end.

Definition is_Exception (e : Exn) : bool :=
  match e with SystemExit => false | _ => true end.

(** [e.message]: the text an exception was made with.  It is empty for an
    exception made with no argument ([exit()]) and for the errors of the
    operating system, which are made with an error number and a text. *)
Definition exn_message (e : Exn) : string :=
  match e with
  | IOError m | AttributeError m | LibError m | PyException m => m
  | IndexError => "string index out of range"
  | OSError | SystemExit => ""
  end.

Inductive Outcome (A : Type) :=
  | Val (a : A)
  | Exc (e : Exn).
Arguments Val {A} a.
Arguments Exc {A} e.

Record Commit := MkCommit { hexsha : string }.

(** The objects the script tests with [is None], [__class__ is ...] and
    truthiness.  [PyOther] is any other object, with its truth value and
    its [hexsha] attribute when it has one. *)
Inductive PyObj :=
  | PyNone
  | PyBool (b : bool)
  | PyRepo (repo_path : string)
  | PyCommit (c : Commit)
  | PyOther (truthy : bool) (hex : option string).

Definition py_truthy (o : PyObj) : bool :=
  match o with
  | PyNone => false
  | PyBool b => b
  | PyRepo _ | PyCommit _ => true
  | PyOther t _ => t
  end.

Definition class_is_Repo (o : PyObj) : bool :=
  match o with PyRepo _ => true | _ => false end.

Definition class_is_Commit (o : PyObj) : bool :=
  match o with PyCommit _ => true | _ => false end.

Definition is_None (o : PyObj) : bool :=
  match o with PyNone => true | _ => false end.

(** the name of the class of an object, as an error message gives it *)
Definition py_class_name (o : PyObj) : string :=
  match o with
  | PyNone => "NoneType"
  | PyBool _ => "bool"
  | PyRepo _ => "Repo"
  | PyCommit _ => "Commit"
  | PyOther _ _ => "object"
  end.

(** the message of the AttributeError for a missing attribute of an object *)
Definition no_attribute (o : PyObj) (name : string) : string :=
  "'" +:+ py_class_name o +:+ "' object has no attribute '" +:+ name +:+ "'".

(** the same for an instance of [Directory], a classic class *)
Definition no_instance_attribute (name : string) : string :=
  "Directory instance has no attribute '" +:+ name +:+ "'".

(** [o.hexsha] *)
Definition py_hexsha (o : PyObj) : Outcome string :=
  match o with
  | PyCommit c => Val (hexsha c)
  | PyOther _ (Some h) => Val h
  | _ => Exc (AttributeError (no_attribute o "hexsha"))
  end.

(** [x and y] *)
Definition py_and (x y : PyObj) : PyObj := if py_truthy x then y else x.

(** One entry of [commit.diff(other)], with the attributes the script reads. *)
Record DiffItem := MkDiffItem {
  deleted_file : bool;
  rename_from : option string;
  rename_to : option string;
  a_path : string }.

Definition str_truthy (o : option string) : bool :=
  match o with
  | Some s => negb (String.eqb s "")
  | None => false
  end.

(** GitPython, as far as the script calls it.  The repository is only read.
    [git_ls_tree] is the listing of the files of a commit; the script never
    asks for it. *)
Record GitLib := MkGitLib {
  git_Repo : string -> Outcome PyObj;               (* Repo(path) *)
  git_commit : PyObj -> string -> Outcome PyObj;    (* repo.commit(rev) *)
  git_head_commit : PyObj -> Outcome PyObj;         (* repo.head.commit *)
  git_diff : PyObj -> PyObj -> Outcome (list DiffItem);  (* a.diff(b) *)
  git_ls_files : string -> Outcome string;          (* Git(path).ls_files() *)
  git_ls_tree : Commit -> list string }.

Definition Handle := nat.

(** [ftplib.FTP], as far as the script calls it, over a remote state [R]
    (servers and sessions).  Every call may raise. *)
Record FtpLib (R : Type) := MkFtpLib {
  ftp_FTP : string -> option (string * string) -> R -> Outcome Handle * R;
  ftp_login : Handle -> R -> Outcome unit * R;
  ftp_cwd : Handle -> string -> R -> Outcome unit * R;
  ftp_mlsd : Handle -> R -> Outcome (list string) * R;
  ftp_storbinary : Handle -> string -> string -> R -> Outcome unit * R;
  ftp_mkd : Handle -> string -> R -> Outcome unit * R;
  ftp_rename : Handle -> string -> string -> R -> Outcome unit * R;
  ftp_delete : Handle -> string -> R -> Outcome unit * R;
  ftp_quit : Handle -> R -> Outcome unit * R }.
Arguments ftp_FTP {R} _ _ _ _.
Arguments ftp_login {R} _ _ _.
Arguments ftp_cwd {R} _ _ _ _.
Arguments ftp_mlsd {R} _ _ _.
Arguments ftp_storbinary {R} _ _ _ _ _.
Arguments ftp_mkd {R} _ _ _ _.
Arguments ftp_rename {R} _ _ _ _ _.
Arguments ftp_delete {R} _ _ _ _.
Arguments ftp_quit {R} _ _ _.

(** ** Targets and configuration *)

Record Auth := MkAuth {
  host : option string;
  user : option string;
  password : option string }.

(** A [Directory] object: its identity and the attributes that never change
    after [__init__].  [self.commit], [self.handle] and [self.buffer] are
    mutable and live in the world, keyed by [oid]. *)
Record Directory := MkDirectory {
  oid : nat;
  path : string;
  connection_mode : option string;
  auth : option Auth }.

(** [Directory.__init__(path, connection_mode, auth)] *)
Definition Directory_init (o : nat) (p : string) (mode : option string)
    (a : option Auth) : Directory :=
  {| oid := o; path := p;
     connection_mode := PyStr.upper <$> mode;
     auth := match mode with Some _ => a | None => None end |}.

Record Config := MkConfig {
  cfg_path : string;
  cfg_dirs : list Directory }.

(** The parsed JSON of the configuration file: [None] is a missing key. *)
Record JTarget := MkJTarget {
  jt_path : option string;
  jt_mode : option string;
  jt_auth : option Auth }.

Record JConfig := MkJConfig {
  j_path : option string;
  j_targets : option (list JTarget) }.

(** [",".join(l)] *)
Fixpoint join_comma (l : list string) : string :=
  match l with
  | [] => ""
  | [x] => x
  | x :: l' => x +:+ "," +:+ join_comma l'
  end.

(** [Config_Details.__init__] once [json.load] has returned: one
    [Directory] per target entry that has a path, in order; the object
    identity is the position of the entry. *)
Definition Config_Details (j : JConfig) : Outcome Config :=
  let errors1 : list string := match j_path j with Some _ => [] | None => ["path is missing"] end in
  let ds : list Directory := match j_targets j with
            | Some ts =>
                omap (fun '(i, t) =>
                        match jt_path t with
                        | Some p => Some (Directory_init i p (jt_mode t) (jt_auth t))
                        | None => None
                        end) (imap pair ts)
            | None => []
            end in
  let errors2 : list string := match j_targets j with
                 | Some ts =>
                     omap (fun t => match jt_path t with
                                    | Some _ => None
                                    | None => Some "path missing"
                                    end) ts
                 | None => ["targets are missing"]
                 end in
  match errors1 ++ errors2 with
  | [] => Val {| cfg_path := default "" (j_path j); cfg_dirs := ds |}
  | errors => Exc (IOError ("Parse errors : " +:+ join_comma errors))
  end.

Definition LOCK_FILE : string := ".git_lock".
Definition COMMIT_FILE : string := ".git_commit".

(** ** The world and the log of calls *)

Inductive FtpCmd :=
  | CLogin
  | CCwd (p : string)
  | CMlsd
  | CStor (cmd data : string)
  | CMkd (p : string)
  | CRename (a b : string)
  | CDelete (f : string)
  | CQuit.

Inductive Method :=
  | MConnect
  | MCheckLocked
  | MLock
  | MCheckValidCommit
  | MDeploy
  | MAbort
  | MWriteNewFile (f contents : string)
  | MCopyFile (f src : string)
  | MRenameFile (a b : string)
  | MDeleteFile (f : string).

Inductive Event :=
  | EvCall (o : nat) (m : Method)        (* a method of Directory object [o] is entered *)
  | EvRepo (p : string)                  (* Repo(p) *)
  | EvResolve (rev : option string)      (* repo.commit(rev), or repo.head.commit *)
  | EvDiff
  | EvLsFiles (p : string)
  | EvFsWrite (p : string)               (* open(p, "w") or open(p, "wb") succeeded *)
  | EvFsRemove (p : string)              (* os.remove(p) succeeded *)
  | EvFsMakedirs (p : string)
  | EvFtpOpen (h : string)               (* FTP(host, ...) *)
  | EvFtp (h : Handle) (c : FtpCmd).     (* a call on an FTP session *)

(** The local file system is a map from paths to contents and a set of
    directories.  A file is keyed by the path it is opened with, as a
    string: the map is the file system of a run in which every file goes
    by one name.  [os] takes several spellings of a path for one file
    ([./src/a.txt] and [src/a.txt]); the statements that compare two paths
    say with [one_name] and [canonical] that the names at hand are
    canonical names of one kind, among which two strings are one file
    exactly when they are equal. *)
Record World (R : Type) := MkWorld {
  files : gmap string string;        (* local files: path to contents *)
  dirs : gset string;                (* local directories *)
  commit_attr : gmap nat PyObj;      (* self.commit, None when absent *)
  handle_attr : gmap nat Handle;     (* self.handle, unset when absent *)
  buffer_attr : gmap nat string;     (* self.buffer *)
  remote : R;
  out : list string;                 (* what was printed, oldest first *)
  log : list Event }.                (* the calls made, oldest first *)
Arguments MkWorld {R} _ _ _ _ _ _ _ _.
Arguments files {R} _.
Arguments dirs {R} _.
Arguments commit_attr {R} _.
Arguments handle_attr {R} _.
Arguments buffer_attr {R} _.
Arguments remote {R} _.
Arguments out {R} _.
Arguments log {R} _.

Section WorldUpdates.
Context {R : Type}.

Definition set_files (f : gmap string string) (w : World R) : World R :=
  MkWorld f (dirs w) (commit_attr w) (handle_attr w) (buffer_attr w)
          (remote w) (out w) (log w).
Definition set_dirs (d : gset string) (w : World R) : World R :=
  MkWorld (files w) d (commit_attr w) (handle_attr w) (buffer_attr w)
          (remote w) (out w) (log w).
Definition set_commit_attr (c : gmap nat PyObj) (w : World R) : World R :=
  MkWorld (files w) (dirs w) c (handle_attr w) (buffer_attr w)
          (remote w) (out w) (log w).
Definition set_handle_attr (h : gmap nat Handle) (w : World R) : World R :=
  MkWorld (files w) (dirs w) (commit_attr w) h (buffer_attr w)
          (remote w) (out w) (log w).
Definition set_buffer_attr (b : gmap nat string) (w : World R) : World R :=
  MkWorld (files w) (dirs w) (commit_attr w) (handle_attr w) b
          (remote w) (out w) (log w).
Definition set_remote (r : R) (w : World R) : World R :=
  MkWorld (files w) (dirs w) (commit_attr w) (handle_attr w) (buffer_attr w)
          r (out w) (log w).
Definition add_out (s : string) (w : World R) : World R :=
  MkWorld (files w) (dirs w) (commit_attr w) (handle_attr w) (buffer_attr w)
          (remote w) (out w ++ [s]) (log w).
Definition add_log (e : Event) (w : World R) : World R :=
  MkWorld (files w) (dirs w) (commit_attr w) (handle_attr w) (buffer_attr w)
          (remote w) (out w) (log w ++ [e]).
End WorldUpdates.

(** ** The monad: a world is threaded, an exception stops the computation *)

Definition M (R A : Type) : Type := World R -> Outcome A * World R.

Section Monad.
Context {R : Type}.

Definition ret {A} (a : A) : M R A := fun w => (Val a, w).

Definition raise {A} (e : Exn) : M R A := fun w => (Exc e, w).

Definition bind {A B} (m : M R A) (k : A -> M R B) : M R B :=
  fun w => match m w with
           | (Val a, w') => k a w'
           | (Exc e, w') => (Exc e, w')
           end.

(** [try: m  except <class> as e: handler(e)] *)
Definition try_except {A} (m : M R A) (catches : Exn -> bool)
    (handler : Exn -> M R A) : M R A :=
  fun w => match m w with
           | (Exc e, w') => if catches e then handler e w' else (Exc e, w')
           | r => r
           end.

Definition lift_outcome {A} (o : Outcome A) : M R A := fun w => (o, w).

Definition emit (e : Event) : M R unit := fun w => (Val tt, add_log e w).

Definition print (s : string) : M R unit := fun w => (Val tt, add_out s w).

(** [for x in l: body(x)] *)
Fixpoint for_each {X} (l : list X) (body : X -> M R unit) : M R unit :=
  match l with
  | [] => ret tt
  | x :: l' => bind (body x) (fun _ => for_each l' body)
  end.

(** a loop that updates local variables [acc] *)
Fixpoint for_fold {X S} (l : list X) (acc : S) (body : S -> X -> M R S) : M R S :=
  match l with
  | [] => ret acc
  | x :: l' => bind (body acc x) (fun acc' => for_fold l' acc' body)
  end.
End Monad.

Declare Scope py_scope.
Delimit Scope py_scope with py.
Notation "x <- m ;; k" := (bind m (fun x => k))
  (at level 100, m at next level, k at level 200, right associativity) : py_scope.
Notation "m ;; k" := (bind m (fun _ => k))
  (at level 100, k at level 200, right associativity) : py_scope.
Open Scope py_scope.

(** ** The local file system: [os], [os.path] and [open] *)

Module Fs.
Import OsPath.

Section Ops.
Context {R : Type}.

(** [os.path.exists(p)] *)
Definition exists_ (w : World R) (p : string) : bool :=
  bool_decide (is_Some (files w !! p)) || bool_decide (p ∈ dirs w).

(** a file can be created in the current directory (empty [dirname])
    or in a directory that exists *)
Definition parent_ok (w : World R) (p : string) : bool :=
  String.eqb (dirname p) "" || bool_decide (dirname p ∈ dirs w).

Definition path_exists (p : string) : M R bool :=
  fun w => (Val (exists_ w p), w).

(** a name that [open] refuses whatever the directories are: the empty
    name, and a name that ends in a slash *)
Definition bad_name (p : string) : bool :=
  String.eqb p "" || PyStr.endswith_slash p.

(** [open(p, "w")], [open(p, "wb")]: the file is created or truncated;
    [IOError] for the empty name and for a name that ends in a slash,
    when [p] is a directory, and when its directory is missing *)
Definition open_w (p : string) : M R unit :=
  fun w =>
    if bad_name p || (bool_decide (p ∈ dirs w) || negb (parent_ok w p))
    then (Exc (IOError ""), w)
    else (Val tt, add_log (EvFsWrite p) (set_files (<[p := ""]> (files w)) w)).

(** [w.write(s)] on the file opened at [p], and [w.close()] *)
Definition write (p s : string) : M R unit :=
  fun w => (Val tt, set_files (<[p := s]> (files w)) w).

(** [open(p, "r")], [open(p, "rb")] and reading it all *)
Definition read (p : string) : M R string :=
  fun w => match files w !! p with
           | Some c => (Val c, w)
           | None => (Exc (IOError ""), w)
           end.

(** [d], [dirname(d)], ... up to the first component *)
Fixpoint ancestors (fuel : nat) (d : string) : list string :=
  match fuel with
  | O => []
  | S n =>
      if String.eqb d "" then []
      else d :: (if String.eqb (dirname d) d then [] else ancestors n (dirname d))
  end.

(** [os.makedirs(d)]: [d] and its missing ancestors become directories;
    [OSError] for the empty name, for a name that exists, and when a
    component is a file *)
Definition makedirs (d : string) : M R unit :=
  fun w =>
    let ds := ancestors (String.length d) d in
    if String.eqb d "" || exists_ w d
       || existsb (fun a => bool_decide (is_Some (files w !! a))) ds
    then (Exc OSError, w)
    else (Val tt, add_log (EvFsMakedirs d) (set_dirs (list_to_set ds ∪ dirs w) w)).

(** [os.remove(p)]: [OSError] unless [p] is a file *)
Definition remove (p : string) : M R unit :=
  fun w =>
    if bool_decide (p ∈ dirs w) then (Exc OSError, w)
    else match files w !! p with
         | Some _ => (Val tt, add_log (EvFsRemove p) (set_files (delete p (files w)) w))
         | None => (Exc OSError, w)
         end.
End Ops.
End Fs.

(** ** class Directory *)

Module Dir.
Import OsPath.

Section Methods.
Context {R : Type}.
Variable ftp : FtpLib R.
Variable git : GitLib.

(** a call on [self.handle]'s session, logged *)
Definition ftp_call {A} (h : Handle) (c : FtpCmd)
    (op : R -> Outcome A * R) : M R A :=
  fun w => let (o, r) := op (remote w) in
           (o, set_remote r (add_log (EvFtp h c) w)).

(** [FTP(host)] and [FTP(host, user, password)], logged *)
Definition ftp_open (hst : string) (cred : option (string * string)) : M R Handle :=
  fun w => let (o, r) := ftp_FTP ftp hst cred (remote w) in
           (o, set_remote r (add_log (EvFtpOpen hst) w)).

(** reading [self.handle]: [AttributeError] before [connect] has set it *)
Definition get_handle (d : Directory) : M R Handle :=
  fun w => match handle_attr w !! oid d with
           | Some h => (Val h, w)
           | None => (Exc (AttributeError (no_instance_attribute "handle")), w)
           end.

Definition set_handle (d : Directory) (h : Handle) : M R unit :=
  fun w => (Val tt, set_handle_attr (<[oid d := h]> (handle_attr w)) w).

(** reading [self.commit], which [__init__] sets to None *)
Definition get_commit (d : Directory) : M R PyObj :=
  fun w => (Val (default PyNone (commit_attr w !! oid d)), w).

Definition set_commit (d : Directory) (c : PyObj) : M R unit :=
  fun w => (Val tt, set_commit_attr (<[oid d := c]> (commit_attr w)) w).

Definition set_buffer (d : Directory) (s : string) : M R unit :=
  fun w => (Val tt, set_buffer_attr (<[oid d := s]> (buffer_attr w)) w).

Definition mode_is_FTP (d : Directory) : bool :=
  match connection_mode d with
  | Some m => String.eqb m "FTP"
  | None => false
  end.

(** [not self.connection_mode] *)
Definition mode_falsy (d : Directory) : bool :=
  match connection_mode d with
  | Some m => String.eqb m ""
  | None => true
  end.

(** [print (self.connection_mode)] *)
Definition mode_repr (d : Directory) : string :=
  match connection_mode d with
  | Some m => m
  | None => "None"
  end.

Definition connect (d : Directory) : M R unit :=
  emit (EvCall (oid d) MConnect) ;;
  match connection_mode d with
  | None => ret tt
  | Some mode =>
      if String.eqb mode "FTP" then
        match auth d with
        | None => raise (AttributeError (no_attribute PyNone "keys"))   (* None.keys() *)
        | Some a =>
            match host a with
            | None =>
                print "No host" ;;
                raise (PyException "Unable to connect via FTP without a host")
            | Some hst =>
                match user a, password a with
                | Some u, Some p =>
                    print "Username and password specified" ;;
                    h <- ftp_open hst (Some (u, p)) ;;
                    set_handle d h ;;
                    print "Logged in"
                | _, _ =>
                    print "No username or password" ;;
                    h <- ftp_open hst None ;;
                    set_handle d h ;;
                    h' <- get_handle d ;;
                    ftp_call h' CLogin (ftp_login ftp h')
                end
            end
        end
      else raise (PyException ("Unsupported connection mode: " +:+ mode))
  end.

Definition _check_file_exists (d : Directory) (filename : string) : M R bool :=
  match connection_mode d with
  | None => Fs.path_exists (join (path d) filename)
  | Some mode =>
      if String.eqb mode "FTP" then
        h <- get_handle d ;;
        ftp_call h (CCwd (path d)) (ftp_cwd ftp h (path d)) ;;
        names <- ftp_call h CMlsd (ftp_mlsd ftp h) ;;
        ret (existsb (String.eqb filename) names)
      else ret false
  end.

Definition check_locked (d : Directory) : M R bool :=
  emit (EvCall (oid d) MCheckLocked) ;;
  _check_file_exists d LOCK_FILE.

(** The FTP branch passes [self._read_to_buffer] to [retrbinary];
    [__init__] stores the callback as [self.read_to_buffer], so the
    argument cannot be evaluated and the call is never made. *)
Definition _read_root_dir_file_contents (d : Directory) (filename : string)
    : M R string :=
  match connection_mode d with
  | None =>
      contents <- Fs.read (join (path d) filename) ;;
      ret (PyStr.drop_last contents)
  | Some mode =>
      if String.eqb mode "FTP" then
        set_buffer d "" ;;
        h <- get_handle d ;;
        ftp_call h (CCwd (path d)) (ftp_cwd ftp h (path d)) ;;
        _ <- get_handle d ;;
        raise (AttributeError (no_instance_attribute "_read_to_buffer"))
      else ret (PyStr.drop_last "")
  end.

Definition check_valid_commit (d : Directory) (repo : PyObj) : M R PyObj :=
  emit (EvCall (oid d) MCheckValidCommit) ;;
  present <- _check_file_exists d COMMIT_FILE ;;
  if negb present then ret (PyBool false)
  else
    commit_id <- _read_root_dir_file_contents d COMMIT_FILE ;;
    emit (EvResolve (Some commit_id)) ;;
    c <- lift_outcome (git_commit git repo commit_id) ;;
    set_commit d c ;;
    c' <- get_commit d ;;
    ret (py_and c' (PyBool (class_is_Commit c'))).

(** [try: self.handle.cwd(first) except IOError: mkd(path); cwd(path)] *)
Definition cwd_or_mkd (d : Directory) (first p : string) (announce : bool)
    : M R unit :=
  try_except
    (h <- get_handle d ;; ftp_call h (CCwd first) (ftp_cwd ftp h first))
    is_IOError
    (fun e =>
       (if announce then print ("Error : " +:+ exn_message e) else ret tt) ;;
       h <- get_handle d ;;
       ftp_call h (CMkd p) (ftp_mkd ftp h p) ;;
       h' <- get_handle d ;;
       ftp_call h' (CCwd p) (ftp_cwd ftp h' p)).

Definition write_new_file (d : Directory) (filename contents : string)
    : M R unit :=
  emit (EvCall (oid d) (MWriteNewFile filename contents)) ;;
  print (mode_repr d) ;;
  match connection_mode d with
  | None =>
      let p := join (path d) filename in
      Fs.open_w p ;;
      Fs.write p contents
  | Some mode =>
      if String.eqb mode "FTP" then
        let p := join (path d) (dirname filename) in
        print (path d) ;;
        cwd_or_mkd d (path d) p true ;;
        h <- get_handle d ;;
        ftp_call h (CStor ("STOR " +:+ basename filename) contents)
                 (ftp_storbinary ftp h ("STOR " +:+ basename filename) contents)
      else ret tt
  end.

Definition lock (d : Directory) : M R bool :=
  emit (EvCall (oid d) MLock) ;;
  try_except
    (write_new_file d LOCK_FILE "locked" ;; ret true)
    is_IOError
    (fun e => print ("Unable to write file: " +:+ exn_message e) ;; ret false).

Definition copy_file (d : Directory) (filename source_file : string)
    : M R unit :=
  emit (EvCall (oid d) (MCopyFile filename source_file)) ;;
  match connection_mode d with
  | None =>
      let p := join (path d) filename in
      let dn := dirname p in
      there <- Fs.path_exists dn ;;
      (if negb there then Fs.makedirs dn else ret tt) ;;
      Fs.open_w p ;;
      contents <- Fs.read source_file ;;
      Fs.write p contents
  | Some mode =>
      if String.eqb mode "FTP" then
        contents <- Fs.read source_file ;;
        let p := join (path d) (dirname filename) in
        cwd_or_mkd d p p false ;;
        h <- get_handle d ;;
        ftp_call h (CStor ("STOR " +:+ basename filename) contents)
                 (ftp_storbinary ftp h ("STOR " +:+ basename filename) contents)
      else ret tt
  end.

Definition rename_file (d : Directory) (oldname newname : string) : M R unit :=
  emit (EvCall (oid d) (MRenameFile oldname newname)) ;;
  match connection_mode d with
  | None => ret tt
  | Some mode =>
      if String.eqb mode "FTP" then
        h <- get_handle d ;;
        ftp_call h (CCwd (path d)) (ftp_cwd ftp h (path d)) ;;
        h' <- get_handle d ;;
        ftp_call h' (CRename oldname newname) (ftp_rename ftp h' oldname newname)
      else ret tt
  end.

Definition delete_file (d : Directory) (filename : string) : M R unit :=
  emit (EvCall (oid d) (MDeleteFile filename)) ;;
  locked <- check_locked d ;;
  if locked then
    if mode_falsy d then
      let p := join (path d) filename in
      there <- Fs.path_exists p ;;
      if there then Fs.remove p else ret tt
    else if mode_is_FTP d then
      let p := join (path d) (dirname filename) in
      h <- get_handle d ;;
      ftp_call h (CCwd p) (ftp_cwd ftp h p) ;;
      h' <- get_handle d ;;
      ftp_call h' (CDelete (basename filename)) (ftp_delete ftp h' (basename filename))
    else ret tt
  else ret tt.

Definition abort (d : Directory) : M R unit :=
  emit (EvCall (oid d) MAbort) ;;
  delete_file d LOCK_FILE ;;
  match connection_mode d with
  | None => ret tt
  | Some mode =>
      if String.eqb mode "FTP" then
        h <- get_handle d ;;
        ftp_call h CQuit (ftp_quit ftp h)
      else ret tt
  end.

Definition deploy_diff (d : Directory) (diff : list DiffItem) (config : Config)
    : M R unit :=
  for_each diff (fun item =>
    if deleted_file item then delete_file d (a_path item)
    else if str_truthy (rename_from item) && str_truthy (rename_to item) then
      rename_file d (default "" (rename_from item)) (default "" (rename_to item))
    else copy_file d (a_path item) (join (cfg_path config) (a_path item))).

Definition deploy_tree (d : Directory) (tree : list string) (config : Config)
    : M R unit :=
  for_each tree (fun p => copy_file d p (join (cfg_path config) p)).

Definition deploy (d : Directory) (commit : PyObj) (config : Config) : M R bool :=
  emit (EvCall (oid d) MDeploy) ;;
  last <- get_commit d ;;
  (if negb (is_None last) then
     emit EvDiff ;;
     diff <- lift_outcome (git_diff git last commit) ;;
     deploy_diff d diff config
   else
     emit (EvLsFiles (cfg_path config)) ;;
     listing <- lift_outcome (git_ls_files git (cfg_path config)) ;;
     deploy_tree d (PyStr.split_nl listing) config) ;;
  hex <- lift_outcome (py_hexsha commit) ;;
  write_new_file d COMMIT_FILE hex ;;
  delete_file d LOCK_FILE ;;
  ret true.

End Methods.
End Dir.

(** ** The module-level functions and the main program *)

Section Orchestrator.
Context {R : Type}.
Variable ftp : FtpLib R.
Variable git : GitLib.

Definition tab : string := String "009"%char "".
Definition newline : string := String PyStr.nl "".

Definition list_dirs (directories : list Directory) : string :=
  foldl (fun message target_dir => message +:+ tab +:+ path target_dir +:+ newline)
        "" directories.

Definition abort (directories : list Directory) (message : string) : M R bool :=
  for_each directories (Dir.abort ftp) ;;
  print message ;;
  ret false.

(** the three lists [lock_dirs] fills *)
Record LockLists := MkLockLists {
  locked_dirs : list Directory;
  already_locked_dirs : list Directory;
  cannot_lock : list Directory }.

Definition lock_one (acc : LockLists) (target_dir : Directory) : M R LockLists :=
  connected <- try_except (Dir.connect ftp target_dir ;; ret true)
                          is_Exception
                          (fun e => print (exn_message e) ;; ret false) ;;
  if negb connected then
    ret (MkLockLists (locked_dirs acc) (already_locked_dirs acc)
                     (cannot_lock acc ++ [target_dir]))
  else
    is_locked <- Dir.check_locked ftp target_dir ;;
    if is_locked then
      ret (MkLockLists (locked_dirs acc) (already_locked_dirs acc ++ [target_dir])
                       (cannot_lock acc))
    else
      ok <- Dir.lock ftp target_dir ;;
      if ok then
        ret (MkLockLists (locked_dirs acc ++ [target_dir]) (already_locked_dirs acc)
                         (cannot_lock acc))
      else
        ret (MkLockLists (locked_dirs acc) (already_locked_dirs acc)
                         (cannot_lock acc ++ [target_dir])).

Definition unable_message (ds : list Directory) : string :=
  "Unable to lock the following target directories:" +:+ newline
    +:+ list_dirs ds +:+ "Aborting.".

(** returns [None], or the list of locked directories *)
Definition lock_dirs (config : Config) : M R (option (list Directory)) :=
  acc <- for_fold (cfg_dirs config) (MkLockLists [] [] []) lock_one ;;
  if (0 <? length (already_locked_dirs acc))%nat then
    abort (locked_dirs acc) (unable_message (already_locked_dirs acc)) ;;
    ret None
  else if (0 <? length (cannot_lock acc))%nat then
    abort (locked_dirs acc) (unable_message (cannot_lock acc)) ;;
    ret None
  else ret (Some (locked_dirs acc)).

Definition check_one (repo : PyObj) (dirs_missing_commit : list Directory)
    (target_dir : Directory) : M R (list Directory) :=
  valid <- Dir.check_valid_commit ftp git target_dir repo ;;
  if negb (py_truthy valid) then ret (dirs_missing_commit ++ [target_dir])
  else ret dirs_missing_commit.

Definition check_dirs_configured (config : Config) (locked : list Directory)
    (repo : PyObj) : M R bool :=
  dirs_missing_commit <- for_fold (cfg_dirs config) [] (check_one repo) ;;
  if (0 <? length dirs_missing_commit)%nat then
    abort locked
      ("Invalid / missing commit information for the following directories:"
         +:+ newline +:+ list_dirs dirs_missing_commit +:+ "Aborting.")
  else ret true.

(** the loop over [sys.argv[1:]] *)
Definition parse_arg (acc : list string * option string) (arg : string)
    : M R (list string * option string) :=
  match PyStr.first_char arg with
  | None => raise IndexError
  | Some c =>
      if String.eqb c "-" then ret (fst acc ++ [PyStr.tail arg], snd acc)
      else ret (fst acc, Some c)
  end.

Definition deploy_one (commit : PyObj) (config : Config) (target_dir : Directory)
    : M R unit :=
  ok <- Dir.deploy ftp git target_dir commit config ;;
  if ok then print ("Deployed successfully to  " +:+ path target_dir) else ret tt.

(** [exit()] *)
Definition exit {A} : M R A := raise SystemExit.

(** The [__main__] block, from its last lines to its first.

    Lines 370-375: the deploy loop. *)
Definition deploy_phase (commit : PyObj) (config : Config) : M R unit :=
  for_each (cfg_dirs config) (deploy_one commit config) ;;
  print "Done".

(** Lines 365-368: the check of the recorded commits, unless "-h". *)
Definition validate_phase (flags : list string) (config : Config)
    (locked : list Directory) (repo : PyObj) : M R unit :=
  if negb (existsb (String.eqb "h") flags) then
    ok <- check_dirs_configured config locked repo ;;
    if negb ok then exit else ret tt
  else ret tt.

(** Lines 361-375: what follows the resolution of the revision to deploy.
    Line 363 aborts and is not followed by [exit()]. *)
Definition resolved_phase (flags : list string) (config : Config)
    (locked : list Directory) (repo commit : PyObj) : M R unit :=
  (if negb (class_is_Commit commit) then
     abort locked ("Invalid local commit for deploy" +:+ newline) ;;
     ret tt
   else ret tt) ;;
  validate_phase flags config locked repo ;;
  deploy_phase commit config.

(** Lines 346-375: what follows a lock phase that locked [locked]. *)
Definition locked_phase (flags : list string) (commit_id : option string)
    (config : Config) (locked : list Directory) : M R unit :=
  emit (EvRepo (cfg_path config)) ;;
  repo <- lift_outcome (git_Repo git (cfg_path config)) ;;
  (if negb (class_is_Repo repo) then
     abort locked ("No repository found at " +:+ cfg_path config
                     +:+ newline +:+ "Aborting.") ;;
     exit
   else ret tt) ;;
  emit (EvResolve commit_id) ;;
  commit <- match commit_id with
            | Some rev => lift_outcome (git_commit git repo rev)
            | None => lift_outcome (git_head_commit git repo)
            end ;;
  resolved_phase flags config locked repo commit.

(** Lines 325-344: the command line, the configuration and the lock phase.
    [args] is [sys.argv[1:]]; [conf] is what opening and parsing
    "git_deploy.config" gives. *)
Definition main (args : list string) (conf : Outcome JConfig) : M R unit :=
  parsed <- for_fold args ([], None) parse_arg ;;
  let flags := fst parsed in
  let commit_id := snd parsed in
  config <- try_except
              (j <- lift_outcome conf ;; lift_outcome (Config_Details j))
              is_IOError
              (fun e => print (exn_message e) ;;
                        print "Unable to read git_deply.config. Aborting." ;;
                        exit) ;;
  locked <- lock_dirs config ;;
  match locked with
  | None | Some [] => exit
  | Some locked_dirs => locked_phase flags commit_id config locked_dirs
  end.

End Orchestrator.

(** ** A small FTP server and a small repository, to run the script on *)

Module Toy.
Import OsPath.

(** One server.  Files and directories are absolute paths; each open
    session has a working directory. *)
Record Server := MkServer {
  s_host : string;
  s_files : gmap string string;
  s_dirs : gset string;
  s_cwd : gmap Handle string;
  s_next : Handle }.

Definition refused {A} (r : Server) : Outcome A * Server :=
  (Exc (LibError "550"), r).

(** the directory a session names by [p] *)
Definition resolve (r : Server) (h : Handle) (p : string) : option string :=
  match s_cwd r !! h with
  | Some cwd =>
      let q := join cwd p in
      Some (if PyStr.all_slash q then q else PyStr.rstrip_slash q)
  | None => None
  end.

Definition with_cwd (c : gmap Handle string) (r : Server) : Server :=
  MkServer (s_host r) (s_files r) (s_dirs r) c (s_next r).
Definition with_files (f : gmap string string) (r : Server) : Server :=
  MkServer (s_host r) f (s_dirs r) (s_cwd r) (s_next r).
Definition with_dirs (d : gset string) (r : Server) : Server :=
  MkServer (s_host r) (s_files r) d (s_cwd r) (s_next r).

Definition srv_FTP (hst : string) (cred : option (string * string)) (r : Server)
    : Outcome Handle * Server :=
  if String.eqb hst (s_host r)
  then (Val (s_next r),
        MkServer (s_host r) (s_files r) (s_dirs r)
                 (<[s_next r := "/"]> (s_cwd r)) (S (s_next r)))
  else (Exc (IOError "unknown host"), r).

Definition srv_login (h : Handle) (r : Server) : Outcome unit * Server :=
  match s_cwd r !! h with
  | Some _ => (Val tt, r)
  | None => refused r
  end.

Definition srv_cwd (h : Handle) (p : string) (r : Server) : Outcome unit * Server :=
  match resolve r h p with
  | Some q =>
      if bool_decide (q ∈ s_dirs r)
      then (Val tt, with_cwd (<[h := q]> (s_cwd r)) r)
      else refused r
  | None => refused r
  end.

Definition srv_mlsd (h : Handle) (r : Server) : Outcome (list string) * Server :=
  match s_cwd r !! h with
  | Some cwd =>
      (Val (basename <$>
              filter (fun q => dirname q = cwd)
                     (elements (dom (s_files r)) ++ elements (s_dirs r))), r)
  | None => refused r
  end.

(** the file name of a ["STOR name"] command *)
Definition stor_name (cmd : string) : string :=
  String.substring 5 (String.length cmd - 5) cmd.

Definition srv_storbinary (h : Handle) (cmd data : string) (r : Server)
    : Outcome unit * Server :=
  match s_cwd r !! h with
  | Some cwd => (Val tt, with_files (<[join cwd (stor_name cmd) := data]> (s_files r)) r)
  | None => refused r
  end.

Definition srv_mkd (h : Handle) (p : string) (r : Server) : Outcome unit * Server :=
  match resolve r h p with
  | Some q =>
      if bool_decide (q ∈ s_dirs r) || negb (bool_decide (dirname q ∈ s_dirs r))
      then refused r
      else (Val tt, with_dirs ({[q]} ∪ s_dirs r) r)
  | None => refused r
  end.

Definition srv_rename (h : Handle) (a b : string) (r : Server)
    : Outcome unit * Server :=
  match s_cwd r !! h with
  | Some cwd =>
      match s_files r !! join cwd a with
      | Some c => (Val tt, with_files (<[join cwd b := c]> (delete (join cwd a) (s_files r))) r)
      | None => refused r
      end
  | None => refused r
  end.

Definition srv_delete (h : Handle) (f : string) (r : Server) : Outcome unit * Server :=
  match s_cwd r !! h with
  | Some cwd =>
      match s_files r !! join cwd f with
      | Some _ => (Val tt, with_files (delete (join cwd f) (s_files r)) r)
      | None => refused r
      end
  | None => refused r
  end.

Definition srv_quit (h : Handle) (r : Server) : Outcome unit * Server :=
  match s_cwd r !! h with
  | Some _ => (Val tt, with_cwd (delete h (s_cwd r)) r)
  | None => refused r
  end.

Definition ftp : FtpLib Server :=
  MkFtpLib Server srv_FTP srv_login srv_cwd srv_mlsd srv_storbinary
           srv_mkd srv_rename srv_delete srv_quit.

(** A repository at [repo_at] with two commits: [c1] tracks "a.txt" and
    "old.txt"; [c2], the head, modifies "a.txt", deletes "old.txt" and
    adds "b/c.txt".  As in GitPython, an unknown revision raises. *)
Definition repo_at : string := "src".
Definition c1 : Commit := MkCommit "1111111111111111111111111111111111111111".
Definition c2 : Commit := MkCommit "2222222222222222222222222222222222222222".

Definition known_rev (rev : string) : option Commit :=
  if String.prefix rev (hexsha c1) && negb (String.eqb rev "") then Some c1
  else if String.prefix rev (hexsha c2) && negb (String.eqb rev "") then Some c2
  else None.

Definition toy_git (lenient : bool) : GitLib :=
  {| git_Repo := fun p => if String.eqb p repo_at then Val (PyRepo p)
                          else Exc (LibError "InvalidGitRepositoryError");
     git_commit := fun _ rev =>
                     match known_rev rev with
                     | Some c => Val (PyCommit c)
                     | None => if lenient then Val PyNone else Exc (LibError "BadName")
                     end;
     git_head_commit := fun _ => Val (PyCommit c2);
     git_diff := fun a b =>
                   match a, b with
                   | PyCommit x, PyCommit y =>
                       if String.eqb (hexsha x) (hexsha c1) && String.eqb (hexsha y) (hexsha c2)
                       then Val [MkDiffItem false None None "a.txt";
                                 MkDiffItem true None None "old.txt";
                                 MkDiffItem false None None "b/c.txt"]
                       else Val []
                   | _, _ => Exc (AttributeError (no_attribute a "diff"))
                   end;
     git_ls_files := fun _ => Val ("a.txt" +:+ newline +:+ "b/c.txt");
     git_ls_tree := fun c => if String.eqb (hexsha c) (hexsha c1)
                             then ["a.txt"; "old.txt"] else ["a.txt"; "b/c.txt"] |}.

Definition git : GitLib := toy_git false.

Definition no_server : Server := MkServer "" ∅ ∅ ∅ 0.

(** the working tree of the repository, checked out at the head [c2] *)
Definition source_files : gmap string string :=
  <["src/a.txt" := "A2"]> (<["src/b/c.txt" := "C"]> ∅).

Definition world (fs : gmap string string) (ds : gset string) (r : Server)
    : World Server :=
  MkWorld fs ds ∅ ∅ ∅ r [] [].

Definition local_target (p : string) : JTarget := MkJTarget (Some p) None None.
Definition ftp_target (p hst : string) : JTarget :=
  MkJTarget (Some p) (Some "ftp") (Some (MkAuth (Some hst) None None)).

Definition conf (ts : list JTarget) : Outcome JConfig :=
  Val (MkJConfig (Some repo_at) (Some ts)).

End Toy.


(** ** Worlds and configurations the statements are run on *)

Module Scenario.
Import Toy.

Definition example_host : string := "ftp.example.org".

(** the source tree and existing, empty target directories "a", "b", "www" *)
Definition local_dirs : gset string := {["src"; "src/b"; "a"; "b"; "www"]}.

Definition fresh : World Server := world source_files local_dirs no_server.

(** "b" carries the lock marker of another run *)
Definition b_locked : gmap string string :=
  <["b/.git_lock" := "locked"]> source_files.

(** a server without the directory "/www" *)
Definition server_without_dir : Server :=
  MkServer example_host ∅ {["/"]} ∅ 0.

(** a server whose directory "/www" holds the commit marker of [c1] *)
Definition server_deployed : Server :=
  MkServer example_host (<["/www/.git_commit" := hexsha c1]> ∅) {["/"; "/www"]} ∅ 0.

(** the same server with one session open, as [connect] leaves it *)
Definition server_connected : Server :=
  MkServer example_host (<["/www/.git_commit" := hexsha c1]> ∅) {["/"; "/www"]}
           (<[0 := "/"]> ∅) 1.

Definition www : Directory := Directory_init 0 "www" None None.

Definition ftp_www : Directory :=
  Directory_init 0 "/www" (Some "ftp") (Some (MkAuth (Some example_host) None None)).

Definition config_www : Config := MkConfig repo_at [www].

(** "www" locked by this run *)
Definition www_locked : World Server :=
  world (<["www/.git_lock" := "locked"]> source_files) local_dirs no_server.

(** the object [ftp_www] connected to [server_connected] *)
Definition ftp_www_connected : World Server :=
  MkWorld source_files local_dirs ∅ (<[0 := 0]> ∅) ∅ server_connected [] [].

(** "a" holds a directory where the file "a.txt" is to be written *)
Definition blocked_dirs : gset string := {["a/a.txt"]} ∪ local_dirs.

(** a server that has the directories of the source tree *)
Definition server_with_dirs : Server :=
  MkServer example_host ∅ {["/"; "/www"; "/www/b"]} ∅ 0.

(** [ftp_www] connected and locked, without a file "old.txt" *)
Definition ftp_www_locked : World Server :=
  MkWorld source_files local_dirs ∅ (<[0 := 0]> ∅) ∅
    (MkServer example_host (<["/www/.git_lock" := "locked"]> ∅) {["/"; "/www"]}
              (<[0 := "/"]> ∅) 1)
    [] [].




(** "www" unlocked, with a file "old.txt" *)
Definition fresh_with_old : World Server :=
  world (<["www/old.txt" := "O"]> source_files) local_dirs no_server.

Definition www_deployed : World Server :=
  snd (Dir.deploy ftp git www (PyCommit c2) config_www www_locked).

Definition www_deployed_c1 : World Server :=
  snd (Dir.deploy ftp git www (PyCommit c1) config_www www_locked).

Definition www_marked : World Server :=
  snd (Dir.write_new_file ftp www COMMIT_FILE (hexsha c2) fresh).

(** the log of the lock phase on "www", up to the opening of the repository *)
Definition lock_events_www : list Event :=
  [EvCall 0 MConnect; EvCall 0 MCheckLocked; EvCall 0 MLock;
   EvCall 0 (MWriteNewFile ".git_lock" "locked"); EvFsWrite "www/.git_lock";
   EvRepo "src"].

(** what a run on "www" logs after a resolution that gave None *)
Definition abort_events_www : list Event :=
  drop 7 (log (snd (main ftp (toy_git true) ["zzz"] (conf [local_target "www"]) fresh))).

(** two local targets, both locked by this run; "a" cannot take "a.txt" *)
Definition target_a : Directory := Directory_init 0 "a" None None.
Definition target_b : Directory := Directory_init 1 "b" None None.
Definition config_ab : Config := MkConfig repo_at [target_a; target_b].
Definition ab_locked : World Server :=
  world (<["a/.git_lock" := "locked"]> (<["b/.git_lock" := "locked"]> source_files))
        blocked_dirs no_server.
Definition ab_failed : World Server :=
  snd (Dir.deploy ftp git target_a (PyCommit c2) config_ab ab_locked).

(** "a" free, "b" locked by another run, no "/www" on the server *)
Definition b_locked_world : World Server :=
  world b_locked local_dirs server_without_dir.

Definition run_lock_gate : Outcome unit * World Server :=
  main ftp git []
    (conf [local_target "a"; local_target "b"; ftp_target "/www" example_host])
    b_locked_world.

Definition run_lock_gate_local : Outcome unit * World Server :=
  main ftp git [] (conf [local_target "a"; local_target "b"])
    (world b_locked local_dirs no_server).

Definition run_ftp_hard : Outcome unit * World Server :=
  main ftp git ["-h"] (conf [ftp_target "/www" example_host])
    (world source_files local_dirs server_with_dirs).

(** the revision "zzz" is asked for; the script resolves "z" *)
Definition run_bad_revision : Outcome unit * World Server :=
  main ftp git ["zzz"] (conf [local_target "www"]) fresh.

(** a hard deploy of the revision "1", which resolves to [c1] *)
Definition run_hard_c1 : Outcome unit * World Server :=
  main ftp git ["1"; "-h"] (conf [local_target "www"]) fresh.

Definition run_blocked : Outcome unit * World Server :=
  main ftp git ["-h"] (conf [local_target "a"; local_target "b"])
    (world source_files blocked_dirs no_server).

(** "a" without a commit marker, "/www" with the marker of [c1] *)
Definition deployed_world : World Server :=
  world source_files local_dirs server_deployed.

Definition run_validation : Outcome unit * World Server :=
  main ftp git [] (conf [local_target "a"; ftp_target "/www" example_host])
    deployed_world.

End Scenario.

(** ** More worlds and runs *)

Module Cases.
Import Toy Scenario.

(** a configuration whose second target has no "path" *)
Definition conf_no_path : Outcome JConfig :=
  Val (MkJConfig (Some repo_at) (Some [local_target "www"; MkJTarget None None None])).

(** what [json.load] raises on a text that is not JSON *)
Definition conf_not_json : Outcome JConfig :=
  Exc (PyException "No JSON object could be decoded").

(** "www" holds an older "a.txt" *)
Definition www_with_a : World Server :=
  world (<["www/a.txt" := "OLD"]> source_files) local_dirs no_server.


(** the commit marker of "www" holds the identifier of [c1] and a line break *)
Definition www_marked_c1 : World Server :=
  world (<["www/.git_commit" := hexsha c1 +:+ newline]> source_files)
        local_dirs no_server.

(** "www" locked by this run, its commit validated as [c1] *)
Definition www_validated : World Server :=
  MkWorld (<["www/.git_lock" := "locked"]> source_files) local_dirs
          (<[0 := PyCommit c1]> ∅) ∅ ∅ no_server [] [].

(** "a.txt" was renamed to "z.txt" *)
Definition rename_a : DiffItem := MkDiffItem false (Some "a.txt") (Some "z.txt") "a.txt".

(** "a" and "b", the second locked by another run *)
Definition b_locked_local : World Server := world b_locked local_dirs no_server.

Definition j_ab : JConfig :=
  MkJConfig (Some repo_at) (Some [local_target "a"; local_target "b"]).

(** a second target with a mode that is not supported *)
Definition sftp_b : Directory := Directory_init 1 "b" (Some "sftp") None.
Definition j_sftp : JConfig :=
  MkJConfig (Some repo_at)
    (Some [local_target "a"; MkJTarget (Some "b") (Some "sftp") None]).
Definition config_sftp : Config := MkConfig repo_at [target_a; sftp_b].

(** a run without "-h" on "www", whose commit marker names [c1] *)
Definition run_checked : Outcome unit * World Server :=
  main ftp git [] (conf [local_target "www"]) www_marked_c1.

(** what that run logs before and after its call of [deploy] *)
Definition checked_before : list Event :=
  take 9 (log (snd run_checked)).
Definition checked_after : list Event :=
  drop 10 (log (snd run_checked)).

(** "a" and "b" locked by this run; the marker of "a" has become a directory *)
Definition marker_is_dir : World Server :=
  world (<["b/.git_lock" := "locked"]> source_files)
        ({["a/.git_lock"]} ∪ local_dirs) no_server.



(** [ftp_www] connected to a server that has the directories of the tree *)
Definition ftp_www_ready : World Server :=
  MkWorld source_files local_dirs ∅ (<[0 := 0]> ∅) ∅
    (MkServer example_host ∅ {["/"; "/www"; "/www/b"]} (<[0 := "/"]> ∅) 1)
    [] [].

(** a server whose sessions time out on a change of directory *)
Definition ftp_timeout : FtpLib Server :=
  MkFtpLib Server srv_FTP srv_login
    (fun _ _ r => (Exc (IOError "timed out"), r))
    srv_mlsd srv_storbinary srv_mkd srv_rename srv_delete srv_quit.
End Cases.

(** ** Vocabulary of the statements *)

(** the events that remove a file, locally or on a server *)
Definition is_removal (e : Event) : bool :=
  match e with
  | EvFsRemove _ | EvFtp _ (CDelete _) => true
  | _ => false
  end.

(** what the script sees when it looks for the lock marker of [d] *)
Definition lock_marker {R} (ftp : FtpLib R) (d : Directory) (w : World R)
    : Outcome bool :=
  fst (Dir._check_file_exists ftp d LOCK_FILE w).

(** the events of the file system and of the FTP sessions *)
Definition is_low (e : Event) : bool :=
  match e with
  | EvFsWrite _ | EvFsRemove _ | EvFsMakedirs _ | EvFtpOpen _ | EvFtp _ _ => true
  | _ => false
  end.

(** what [delete_file] can log *)
Definition in_delete (e : Event) : bool :=
  match e with
  | EvCall _ (MDeleteFile _) | EvCall _ MCheckLocked => true
  | _ => is_low e
  end.

(** what [write_new_file] can log *)
Definition in_write (e : Event) : bool :=
  match e with
  | EvCall _ (MWriteNewFile _ _) => true
  | _ => is_low e
  end.

(** what the lock phase and an abort can log *)
Definition in_lock_phase (e : Event) : bool :=
  match e with
  | EvCall _ MConnect | EvCall _ MLock | EvCall _ MAbort => true
  | _ => in_delete e || in_write e
  end.

(** what the validation phase can log, its abort included *)
Definition in_validation (e : Event) : bool :=
  match e with
  | EvCall _ MCheckValidCommit | EvResolve _ => true
  | _ => in_lock_phase e
  end.

(** what a deploy can log *)
Definition in_deploy (e : Event) : bool :=
  match e with
  | EvCall _ MDeploy | EvCall _ (MCopyFile _ _) | EvCall _ (MRenameFile _ _)
  | EvDiff | EvLsFiles _ => true
  | _ => in_delete e || in_write e
  end.

Definition is_resolve (e : Event) : bool :=
  match e with EvResolve _ => true | _ => false end.

Definition is_deploy_call (e : Event) : bool :=
  match e with EvCall _ MDeploy => true | _ => false end.

Definition is_validate_call (e : Event) : bool :=
  match e with EvCall _ MCheckValidCommit => true | _ => false end.

Definition is_abort_call (e : Event) : bool :=
  match e with EvCall _ MAbort => true | _ => false end.

(** the files [copy_file] was called with on object [o], in order *)
Definition copy_calls (o : nat) (l : list Event) : list (string * string) :=
  omap (fun e => match e with
                 | EvCall o' (MCopyFile f src) =>
                     if Nat.eqb o o' then Some (f, src) else None
                 | _ => None
                 end) l.

(** [m] only appends to the log, and only events that [fp] accepts *)
Definition emits {R A} (fp : Event -> bool) (m : M R A) : Prop :=
  forall w, exists evs, log (snd (m w)) = log w ++ evs /\ Forall (fun e => fp e = true) evs.

Definition is_diff (e : Event) : bool :=
  match e with EvDiff => true | _ => false end.

Definition is_copy_call (e : Event) : bool :=
  match e with EvCall _ (MCopyFile _ _) => true | _ => false end.

(** the path of the lock marker of a target on the local transport *)
Definition lock_path (d : Directory) : string := OsPath.join (path d) LOCK_FILE.

(** [f1] is [f] with the lock markers of [locked] written one after the
    other, each at a path where there was nothing *)
Inductive locks_added (ds : gset string) (f : gmap string string)
    : list Directory -> gmap string string -> Prop :=
  | locks_added_nil : locks_added ds f [] f
  | locks_added_cons d locked f1 :
      f !! lock_path d = None ->
      lock_path d ∉ ds ->
      locks_added ds (<[lock_path d := "locked"]> f) locked f1 ->
      locks_added ds f (d :: locked) f1.

(** one more target in one of the lists of [lock_dirs] *)
Definition add_locked (acc : LockLists) (d : Directory) : LockLists :=
  MkLockLists (locked_dirs acc ++ [d]) (already_locked_dirs acc) (cannot_lock acc).
Definition add_already (acc : LockLists) (d : Directory) : LockLists :=
  MkLockLists (locked_dirs acc) (already_locked_dirs acc ++ [d]) (cannot_lock acc).
Definition add_cannot (acc : LockLists) (d : Directory) : LockLists :=
  MkLockLists (locked_dirs acc) (already_locked_dirs acc) (cannot_lock acc ++ [d]).


(** [m] logs [e] first *)
Definition starts_with {R A} (e : Event) (m : M R A) : Prop :=
  forall w, exists evs, log (snd (m w)) = log w ++ e :: evs.

(** [m] leaves the part [f] of the world as it was *)
Definition keeps {R X A} (f : World R -> X) (m : M R A) : Prop :=
  forall w, f (snd (m w)) = f w.

(** what a run can log before it resolves the revision to deploy *)
Definition before_resolution (e : Event) : bool :=
  match e with
  | EvRepo _ => true
  | _ => in_lock_phase e
  end.

(** a connection mode that [connect] accepts *)
Definition supported (d : Directory) : Prop :=
  connection_mode d = None \/ Dir.mode_is_FTP d = true.

(** the rest of the main program once the revision is being resolved *)
Definition resolve_and_run {R} (ftp : FtpLib R) (git : GitLib) (flags : list string)
    (commit_id : option string) (config : Config) (repo : PyObj) : M R unit :=
  commit <- match commit_id with
            | Some rev => lift_outcome (git_commit git repo rev)
            | None => lift_outcome (git_head_commit git repo)
            end ;;
  resolved_phase ftp git flags config (cfg_dirs config) repo commit.

(** ** The command line in closed form *)

(** [arg[0] == "-"] *)
Definition is_flag (arg : string) : bool :=
  match PyStr.first_char arg with
  | Some c => String.eqb c "-"
  | None => false
  end.

(** the flags the loop over the arguments collects *)
Definition flags_of (args : list string) : list string :=
  PyStr.tail <$> List.filter is_flag args.

(** the revision the loop over the arguments leaves in [commit_id] *)
Definition revision_of (args : list string) : option string :=
  last (omap (fun arg => if is_flag arg then None else PyStr.first_char arg) args).

(** ** The entries of a diff *)

(** the entry is a rename: [item.rename_from and item.rename_to] *)
Definition is_rename (item : DiffItem) : bool :=
  str_truthy (rename_from item) && str_truthy (rename_to item).

(** the entry is neither a deletion nor a rename: [deploy_diff] copies it *)
Definition is_copied (item : DiffItem) : bool :=
  negb (deleted_file item) && negb (is_rename item).

Definition is_ls_files (e : Event) : bool :=
  match e with EvLsFiles _ => true | _ => false end.

(** what a deploy can log after the call itself *)
Definition in_deploy_body (e : Event) : bool :=
  in_deploy e && negb (is_deploy_call e).

(** the calls of [deploy] a run makes when it deploys to [ds] in order *)
Definition deploy_calls (ds : list Directory) : list Event :=
  (fun d => EvCall (oid d) MDeploy) <$> ds.

(** the calls of [abort] made on [ds] in order *)
Definition abort_calls (ds : list Directory) : list Event :=
  (fun d => EvCall (oid d) MAbort) <$> ds.

(** what the [abort] of a target can log after the call itself *)
Definition in_abort_body (e : Event) : bool :=
  in_lock_phase e && negb (is_abort_call e).

(** the files stored on the servers, in order: the command and the data of
    each [storbinary] call *)
Definition stored (l : list Event) : list (string * string) :=
  omap (fun e => match e with
                 | EvFtp _ (CStor cmd data) => Some (cmd, data)
                 | _ => None
                 end) l.

Definition is_stor (e : Event) : bool :=
  match e with EvFtp _ (CStor _ _) => true | _ => false end.

(** ** The names of the local files *)

(** [p.split("/")] *)
Fixpoint components (p : string) : list string :=
  match p with
  | EmptyString => [EmptyString]
  | String c p' =>
      if Ascii.eqb c PyStr.slash then EmptyString :: components p'
      else match components p' with
           | x :: xs => String c x :: xs
           | [] => [String c EmptyString]
           end
  end.

(** a component that names an entry of its directory: not empty, and
    neither [.] nor [..] *)
Definition plain (c : string) : bool :=
  negb (String.eqb c "" || String.eqb c "." || String.eqb c "..").

(** a relative path in canonical form: [a/b/c], every component plain *)
Definition relative (p : string) : bool := forallb plain (components p).

(** The canonical names of one kind: relative to the directory the script
    runs in ([abs = false]), or absolute ([/a/b/c]).  [open] and [os.path]
    take any spelling of a path ([./src/a.txt], [src//a.txt] and
    [src/a.txt] are one file), and the world keys a file by the string it
    was opened with; among the canonical names of one kind two strings
    are the same file exactly when they are equal. *)
Definition canonical (abs : bool) (p : string) : bool :=
  if abs then
    match p with
    | String c p' => Ascii.eqb c PyStr.slash && relative p'
    | EmptyString => false
    end
  else relative p.

(** every file and every directory of the world is there under its
    canonical name of the one kind: no file has two keys *)
Definition one_name {R} (abs : bool) (w : World R) : Prop :=
  map_Forall (fun p _ => canonical abs p = true) (files w) /\
  set_Forall (fun p => canonical abs p = true) (dirs w).

(** ** What a session does to a target on a server *)

(** The session [h] changes into a directory the way [write_new_file] and
    [copy_file] do: [cwd(first)] is accepted, or it raises IOError and
    [mkd(p)] and [cwd(p)] are accepted.  The calls [cmds] take the server
    from [r] to [r']. *)
Definition enters {R} (ftp : FtpLib R) (h : Handle) (first p : string)
    (r r' : R) (cmds : list FtpCmd) : Prop :=
  (ftp_cwd ftp h first r = (Val tt, r') /\ cmds = [CCwd first]) \/
  (exists msg r1 r2,
     ftp_cwd ftp h first r = (Exc (IOError msg), r1) /\
     ftp_mkd ftp h p r1 = (Val tt, r2) /\
     ftp_cwd ftp h p r2 = (Val tt, r') /\
     cmds = [CCwd first; CMkd p; CCwd p]).



(** ** The lock loop *)

(** what the loop of [lock_dirs] can log: the calls of [connect],
    [check_locked], [lock] and [write_new_file], the opening of a file for
    writing, and on a session a login, a change or a creation of directory,
    a listing and a store.  No [abort], no [delete_file], and nothing that
    removes a file. *)
Definition in_locking (e : Event) : bool :=
  match e with
  | EvCall _ MConnect | EvCall _ MCheckLocked | EvCall _ MLock
  | EvCall _ (MWriteNewFile _ _) => true
  | EvFsWrite _ | EvFtpOpen _ => true
  | EvFtp _ CLogin | EvFtp _ (CCwd _) | EvFtp _ CMlsd | EvFtp _ (CStor _ _)
  | EvFtp _ (CMkd _) => true
  | _ => false
  end.
Arguments OsPath.join : simpl never.
Arguments OsPath.dirname : simpl never.
Arguments OsPath.basename : simpl never.
Arguments Fs.exists_ : simpl never.
Arguments Fs.parent_ok : simpl never.
Arguments Fs.bad_name : simpl never.

(** ** What the world updates leave alone *)

Section FsFacts.
Context {R : Type}.
Implicit Types (w : World R) (p : string).

Lemma exists_add_log e w p : Fs.exists_ (add_log e w) p = Fs.exists_ w p.
Proof. reflexivity. Qed.
Lemma exists_add_out s w p : Fs.exists_ (add_out s w) p = Fs.exists_ w p.
Proof. reflexivity. Qed.
Lemma exists_set_remote r w p : Fs.exists_ (set_remote r w) p = Fs.exists_ w p.
Proof. reflexivity. Qed.
Lemma parent_ok_add_log e w p : Fs.parent_ok (add_log e w) p = Fs.parent_ok w p.
Proof. reflexivity. Qed.
Lemma parent_ok_add_out s w p : Fs.parent_ok (add_out s w) p = Fs.parent_ok w p.
Proof. reflexivity. Qed.

Lemma exists_file w p c : files w !! p = Some c -> Fs.exists_ w p = true.
Proof.
  intros H. unfold Fs.exists_. rewrite H. rewrite bool_decide_eq_true_2; eauto.
Qed.

Lemma not_exists w p :
  Fs.exists_ w p = false <-> files w !! p = None /\ p ∉ dirs w.
Proof.
  unfold Fs.exists_. rewrite orb_false_iff, !bool_decide_eq_false.
  rewrite <- eq_None_not_Some. done.
Qed.
End FsFacts.

(** ** Reasoning about the monad *)

Section MonadFacts.
Context {R : Type}.

Lemma bind_val {A B} (m : M R A) (k : A -> M R B) w a w1 :
  m w = (Val a, w1) -> bind m k w = k a w1.
Proof. intros H. unfold bind. by rewrite H. Qed.

Lemma bind_exc {A B} (m : M R A) (k : A -> M R B) w e w1 :
  m w = (Exc e, w1) -> bind m k w = (Exc e, w1).
Proof. intros H. unfold bind. by rewrite H. Qed.

Lemma bind_inv_val {A B} (m : M R A) (k : A -> M R B) w b w' :
  bind m k w = (Val b, w') ->
  exists a w1, m w = (Val a, w1) /\ k a w1 = (Val b, w').
Proof.
  unfold bind. destruct (m w) as [[a|e] w1]; intros H.
  - by exists a, w1.
  - discriminate.
Qed.

Lemma bind_inv_exc {A B} (m : M R A) (k : A -> M R B) w e w' :
  bind m k w = (Exc e, w') ->
  m w = (Exc e, w') \/ exists a w1, m w = (Val a, w1) /\ k a w1 = (Exc e, w').
Proof.
  unfold bind. destruct (m w) as [[a|e0] w1]; intros H.
  - right. exists a, w1. split; [reflexivity | exact H].
  - left. by simplify_eq.
Qed.

Lemma for_each_app {X} (l1 l2 : list X) (body : X -> M R unit) w :
  for_each (l1 ++ l2) body w =
  bind (for_each l1 body) (fun _ => for_each l2 body) w.
Proof.
  revert w. induction l1 as [|x l1 IH]; intros w; simpl; unfold bind in *.
  - reflexivity.
  - destruct (body x w) as [[[]|e] w1]; [apply IH | reflexivity].
Qed.

Lemma for_fold_app {X S} (l1 l2 : list X) (acc : S) (body : S -> X -> M R S) w :
  for_fold (l1 ++ l2) acc body w =
  bind (for_fold l1 acc body) (fun acc' => for_fold l2 acc' body) w.
Proof.
  revert acc w. induction l1 as [|x l1 IH]; intros acc w; simpl; unfold bind in *.
  - reflexivity.
  - destruct (body acc x w) as [[acc'|e] w1]; [apply IH | reflexivity].
Qed.
End MonadFacts.

(** ** Facts about Python strings and paths *)

Lemma append_inj_l (s a b : string) : s +:+ a = s +:+ b -> a = b.
Proof. apply (inj (String.append s)). Qed.

Lemma append_assoc (a b c : string) : (a +:+ b) +:+ c = a +:+ (b +:+ c).
Proof.
  induction a as [|x a IH]; [done|].
  change (String x ((a +:+ b) +:+ c) = String x (a +:+ (b +:+ c))). by rewrite IH.
Qed.

(** The lock marker and the commit marker of a directory are two files. *)
Lemma lock_commit_paths_differ (p : string) :
  OsPath.join p LOCK_FILE <> OsPath.join p COMMIT_FILE.
Proof.
  unfold OsPath.join. cbn [PyStr.startswith_slash LOCK_FILE COMMIT_FILE].
  change (Ascii.eqb "." PyStr.slash) with false. cbv iota.
  destruct (String.eqb p "" || PyStr.endswith_slash p); intros H.
  - apply append_inj_l in H. discriminate.
  - do 2 apply append_inj_l in H. discriminate.
Qed.

Lemma drop_last_shorter (c : ascii) (s : string) :
  String.length (PyStr.drop_last (String c s)) = String.length s.
Proof.
  revert c. induction s as [|c' s IH]; intros c; [done|].
  change (PyStr.drop_last (String c (String c' s)))
    with (String c (PyStr.drop_last (String c' s))).
  cbn [String.length]. by rewrite IH.
Qed.

(** [s[:-1]] is never [s] again, unless [s] is empty. *)
Lemma drop_last_neq (s : string) : s <> "" -> PyStr.drop_last s <> s.
Proof.
  destruct s as [|c s]; [done|]. intros _ H.
  apply (f_equal String.length) in H. rewrite drop_last_shorter in H.
  simpl in H. lia.
Qed.

(** The names of the two markers are names [open] accepts. *)
Lemma endswith_slash_app (a b : string) :
  b <> "" -> PyStr.endswith_slash (a +:+ b) = PyStr.endswith_slash b.
Proof.
  intros Hb. induction a as [|c a IH]; [done|].
  change (String c a +:+ b) with (String c (a +:+ b)).
  cbn [PyStr.endswith_slash]. rewrite IH.
  destruct (a +:+ b) eqn:E; [|done].
  destruct a; [|done]. by destruct b.
Qed.

Lemma append_not_empty (a b : string) : b <> "" -> a +:+ b <> "".
Proof. intros Hb. destruct a; [done|]. discriminate. Qed.

Lemma bad_name_join (a b : string) :
  Fs.bad_name b = false -> Fs.bad_name (OsPath.join a b) = false.
Proof.
  unfold Fs.bad_name. intros [Hne Hsl]%orb_false_iff.
  apply String.eqb_neq in Hne. unfold OsPath.join.
  destruct (PyStr.startswith_slash b).
  { apply orb_false_iff. split; [by apply String.eqb_neq | done]. }
  destruct (String.eqb a "" || PyStr.endswith_slash a); apply orb_false_iff; split;
    try (apply String.eqb_neq, append_not_empty; first [done | by apply append_not_empty]).
  - by rewrite endswith_slash_app.
  - rewrite endswith_slash_app by (by apply append_not_empty).
    by rewrite (endswith_slash_app "/" b).
Qed.

Lemma bad_name_lock (p : string) : Fs.bad_name (OsPath.join p LOCK_FILE) = false.
Proof. by apply bad_name_join. Qed.

Lemma bad_name_commit (p : string) : Fs.bad_name (OsPath.join p COMMIT_FILE) = false.
Proof. by apply bad_name_join. Qed.

Lemma bad_name_lock_path (d : Directory) : Fs.bad_name (lock_path d) = false.
Proof. apply bad_name_lock. Qed.

(** A path that ends in a slash has an empty last component. *)
Lemma components_trailing (p : string) :
  PyStr.endswith_slash p = true -> exists x xs, components p = x :: xs ++ [""].
Proof.
  induction p as [|c p IH]; [done|]. cbn [PyStr.endswith_slash components].
  destruct p as [|c' p].
  - intros ->. by exists "", [].
  - intros H. destruct (IH H) as (x & xs & ->).
    destruct (Ascii.eqb c PyStr.slash).
    + by exists "", (x :: xs).
    + by exists (String c x), xs.
Qed.

Lemma relative_not_bad (p : string) : relative p = true -> Fs.bad_name p = false.
Proof.
  unfold relative, Fs.bad_name. intros H. apply orb_false_iff. split.
  - by destruct p.
  - destruct (PyStr.endswith_slash p) eqn:E; [|done].
    destruct (components_trailing p E) as (x & xs & Hc). rewrite Hc in H.
    change (x :: xs ++ [""]) with ((x :: xs) ++ [""]) in H.
    rewrite forallb_app in H. apply andb_true_iff in H as [_ H]. done.
Qed.

(** A canonical name is one [open] accepts. *)
Lemma canonical_not_bad (abs : bool) (p : string) :
  canonical abs p = true -> Fs.bad_name p = false.
Proof.
  destruct abs; cbn [canonical]; [|apply relative_not_bad].
  destruct p as [|c p]; [done|]. intros [_ H]%andb_true_iff.
  apply relative_not_bad in H. unfold Fs.bad_name in *.
  apply orb_false_iff in H as [Hne Hsl]. apply orb_false_iff. split; [done|].
  destruct p; [done|]. exact Hsl.
Qed.

(** ** Examples of the string and path functions *)

Example dirname_nested : OsPath.dirname "www/b/c.txt" = "www/b".
Proof. reflexivity. Qed.

Example dirname_plain : OsPath.dirname ".git_lock" = "".
Proof. reflexivity. Qed.

Example dirname_root : OsPath.dirname "/x" = "/".
Proof. reflexivity. Qed.

Example basename_nested : OsPath.basename "b/c.txt" = "c.txt".
Proof. reflexivity. Qed.

Example join_plain : OsPath.join "www" ".git_lock" = "www/.git_lock".
Proof. reflexivity. Qed.

Example join_trailing : OsPath.join "www/" ".git_lock" = "www/.git_lock".
Proof. reflexivity. Qed.

Example join_empty_right : OsPath.join "www" "" = "www/".
Proof. reflexivity. Qed.

Example split_nl_two : PyStr.split_nl ("a.txt" +:+ String PyStr.nl "b/c.txt") = ["a.txt"; "b/c.txt"].
Proof. reflexivity. Qed.

Example split_nl_empty : PyStr.split_nl "" = [""].
Proof. reflexivity. Qed.

Example drop_last_hex : PyStr.drop_last "abc" = "ab".
Proof. reflexivity. Qed.

Example upper_ftp : PyStr.upper "ftp" = "FTP".
Proof. reflexivity. Qed.
(** ** The methods of Directory *)

Section DirFacts.
Context {R : Type}.
Variable ftp : FtpLib R.
Variable git : GitLib.

(** what [_check_file_exists] answers does not depend on the log *)
Lemma check_file_exists_log d f e (w : World R) :
  fst (Dir._check_file_exists ftp d f (add_log e w)) =
  fst (Dir._check_file_exists ftp d f w).
Proof.
  unfold Dir._check_file_exists.
  destruct (connection_mode d) as [m|]; [|reflexivity].
  destruct (String.eqb m "FTP"); [|reflexivity].
  unfold bind, Dir.get_handle, Dir.ftp_call, ret. cbn.
  destruct (handle_attr w !! oid d) as [h|]; [|reflexivity]. cbn.
  destruct (ftp_cwd ftp h (path d) (remote w)) as [[[]|x] r1]; [|reflexivity]. cbn.
  destruct (ftp_mlsd ftp h r1) as [[names|x] r2]; reflexivity.
Qed.

(** [_check_file_exists] only looks: no file changes, nothing is removed *)
Lemma check_file_exists_frame d f (w : World R) :
  let w' := snd (Dir._check_file_exists ftp d f w) in
  files w' = files w /\ dirs w' = dirs w /\ commit_attr w' = commit_attr w /\
  handle_attr w' = handle_attr w /\ out w' = out w /\
  List.filter is_removal (log w') = List.filter is_removal (log w).
Proof.
  unfold Dir._check_file_exists.
  destruct (connection_mode d) as [m|]; [|cbn; tauto].
  destruct (String.eqb m "FTP"); [|cbn; tauto].
  unfold bind, Dir.get_handle, Dir.ftp_call, ret.
  destruct (handle_attr w !! oid d) as [h|]; [|cbn; tauto]. cbn.
  destruct (ftp_cwd ftp h (path d) (remote w)) as [[[]|x] r1]; cbn.
  - destruct (ftp_mlsd ftp h r1) as [[names|x] r2]; cbn;
      rewrite ?List.filter_app; cbn; rewrite ?app_nil_r; tauto.
  - rewrite ?List.filter_app; cbn; rewrite ?app_nil_r; tauto.
Qed.

Lemma check_file_exists_remote d f e (w : World R) :
  remote (snd (Dir._check_file_exists ftp d f (add_log e w))) =
  remote (snd (Dir._check_file_exists ftp d f w)).
Proof.
  unfold Dir._check_file_exists.
  destruct (connection_mode d) as [m|]; [|reflexivity].
  destruct (String.eqb m "FTP"); [|reflexivity].
  unfold bind, Dir.get_handle, Dir.ftp_call, ret. cbn.
  destruct (handle_attr w !! oid d) as [h|]; [|reflexivity]. cbn.
  destruct (ftp_cwd ftp h (path d) (remote w)) as [[[]|x] r1]; [|reflexivity]. cbn.
  destruct (ftp_mlsd ftp h r1) as [[names|x] r2]; reflexivity.
Qed.

(** [delete_file] up to its test of the lock marker *)
Lemma delete_file_unfold d f (w : World R) :
  Dir.delete_file ftp d f w =
  let w0 := add_log (EvCall (oid d) MCheckLocked)
              (add_log (EvCall (oid d) (MDeleteFile f)) w) in
  match Dir._check_file_exists ftp d LOCK_FILE w0 with
  | (Val true, w1) =>
      (if Dir.mode_falsy d then
         there <- Fs.path_exists (OsPath.join (path d) f) ;;
         if there then Fs.remove (OsPath.join (path d) f) else ret tt
       else if Dir.mode_is_FTP d then
         h <- Dir.get_handle d ;;
         Dir.ftp_call h (CCwd (OsPath.join (path d) (OsPath.dirname f)))
           (ftp_cwd ftp h (OsPath.join (path d) (OsPath.dirname f))) ;;
         h' <- Dir.get_handle d ;;
         Dir.ftp_call h' (CDelete (OsPath.basename f))
           (ftp_delete ftp h' (OsPath.basename f))
       else ret tt) w1
  | (Val false, w1) => (Val tt, w1)
  | (Exc e, w1) => (Exc e, w1)
  end.
Proof.
  unfold Dir.delete_file, Dir.check_locked, bind, emit. cbn.
  destruct (Dir._check_file_exists ftp d LOCK_FILE _) as [[[]|e] w1]; reflexivity.
Qed.

Lemma lock_marker_at_test d f (w : World R) :
  fst (Dir._check_file_exists ftp d LOCK_FILE
         (add_log (EvCall (oid d) MCheckLocked)
            (add_log (EvCall (oid d) (MDeleteFile f)) w))) = lock_marker ftp d w.
Proof. unfold lock_marker. by rewrite !check_file_exists_log. Qed.

(** Without a lock marker [delete_file] removes nothing. *)
Lemma delete_file_unlocked d f (w : World R) :
  lock_marker ftp d w <> Val true ->
  let r := Dir.delete_file ftp d f w in
  files (snd r) = files w /\ dirs (snd r) = dirs w /\
  List.filter is_removal (log (snd r)) = List.filter is_removal (log w) /\
  (lock_marker ftp d w = Val false -> fst r = Val tt).
Proof.
  intros Hno. cbn zeta. rewrite delete_file_unfold. cbn zeta.
  pose proof (lock_marker_at_test d f w) as Hm.
  pose proof (check_file_exists_frame d LOCK_FILE
                (add_log (EvCall (oid d) MCheckLocked)
                   (add_log (EvCall (oid d) (MDeleteFile f)) w))) as Hf.
  cbn zeta in Hf.
  destruct (Dir._check_file_exists ftp d LOCK_FILE _) as [[[]|e] w1];
    cbn [fst snd] in *.
  - congruence.
  - destruct Hf as (-> & -> & _ & _ & _ & ->). cbn.
    rewrite !List.filter_app. cbn. rewrite !app_nil_r. tauto.
  - destruct Hf as (-> & -> & _ & _ & _ & ->). cbn.
    rewrite !List.filter_app. cbn. rewrite !app_nil_r.
    repeat split; try done. intros E. congruence.
Qed.

(** On the local transport a missing file is skipped. *)
Lemma delete_file_local_missing d f (w : World R) :
  connection_mode d = None ->
  Fs.exists_ w (OsPath.join (path d) f) = false ->
  let r := Dir.delete_file ftp d f w in
  fst r = Val tt /\ files (snd r) = files w /\ dirs (snd r) = dirs w.
Proof.
  intros Hmode Hmiss. cbn zeta. rewrite delete_file_unfold. cbn zeta.
  unfold Dir._check_file_exists, Dir.mode_falsy. rewrite Hmode.
  unfold Fs.path_exists, bind, ret. cbn.
  rewrite !exists_add_log, Hmiss.
  destruct (Fs.exists_ w (OsPath.join (path d) LOCK_FILE)); done.
Qed.

(** C10: every deletion is gated on the lock marker.  For every target
    and every file name, when the target has no lock marker [delete_file]
    returns without an error and removes nothing: the local files and
    directories are as before and no removal, local or on the server, is
    logged.  And on the local transport [delete_file] of a file that does
    not exist returns without an error and changes no file. *)
Theorem delete_file_gated_on_lock d f (w : World R) :
  (lock_marker ftp d w = Val false ->
   let r := Dir.delete_file ftp d f w in
   fst r = Val tt /\ files (snd r) = files w /\ dirs (snd r) = dirs w /\
   List.filter is_removal (log (snd r)) = List.filter is_removal (log w)) /\
  (connection_mode d = None ->
   Fs.exists_ w (OsPath.join (path d) f) = false ->
   let r := Dir.delete_file ftp d f w in
   fst r = Val tt /\ files (snd r) = files w).
Proof.
  split.
  - intros Habs.
    destruct (delete_file_unlocked d f w) as (Hf & Hd & Hr & Hv).
    { rewrite Habs. discriminate. }
    cbn zeta. auto.
  - intros Hmode Hmiss.
    destruct (delete_file_local_missing d f w Hmode Hmiss) as (Hv & Hf & _).
    cbn zeta. auto.
Qed.

(** the FTP branch of [delete_file] sends the delete command unguarded *)
Lemma delete_file_ftp_refused d f (w : World R) h r2 e r3 :
  Dir.mode_is_FTP d = true ->
  lock_marker ftp d w = Val true ->
  handle_attr w !! oid d = Some h ->
  ftp_cwd ftp h (OsPath.join (path d) (OsPath.dirname f))
          (remote (snd (Dir._check_file_exists ftp d LOCK_FILE w))) = (Val tt, r2) ->
  ftp_delete ftp h (OsPath.basename f) r2 = (Exc e, r3) ->
  fst (Dir.delete_file ftp d f w) = Exc e.
Proof.
  intros Hftp Hlock Hh Hcwd Hdel. rewrite delete_file_unfold. cbn zeta.
  pose proof (lock_marker_at_test d f w) as Hm.
  set (w0 := add_log (EvCall (oid d) MCheckLocked)
               (add_log (EvCall (oid d) (MDeleteFile f)) w)) in *.
  pose proof (check_file_exists_frame d LOCK_FILE w0) as Hf.
  assert (remote (snd (Dir._check_file_exists ftp d LOCK_FILE w0)) =
          remote (snd (Dir._check_file_exists ftp d LOCK_FILE w))) as Hr.
  { unfold w0. by rewrite !check_file_exists_remote. }
  rewrite <- Hr in Hcwd. clear Hr.
  cbn zeta in Hf.
  destruct (Dir._check_file_exists ftp d LOCK_FILE w0) as [[[]|x] w1];
    cbn [fst snd] in *; try congruence.
  destruct Hf as (_ & _ & _ & Hh1 & _).
  assert (Dir.mode_falsy d = false) as ->.
  { unfold Dir.mode_is_FTP, Dir.mode_falsy in *.
    destruct (connection_mode d) as [m|]; [|done].
    apply String.eqb_eq in Hftp as ->. done. }
  rewrite Hftp. unfold bind, Dir.get_handle, Dir.ftp_call.
  cbn in Hh1. rewrite Hh1, Hh. cbn. rewrite Hcwd. cbn. rewrite Hh1, Hh. cbn.
  rewrite Hdel. done.
Qed.

(** C8, as amended: deleting the lock marker when it is absent is not an
    error and changes no file; on the local transport deleting any file
    that does not exist is not an error either; nor is deleting any file
    while the lock marker is absent.  A missing file is an error only on
    the FTP transport with the lock marker present: the delete command is
    sent unguarded, and what the server raises for it is raised. *)
Theorem delete_file_missing_file d f (w : World R) :
  (lock_marker ftp d w = Val false ->
   fst (Dir.delete_file ftp d LOCK_FILE w) = Val tt /\
   files (snd (Dir.delete_file ftp d LOCK_FILE w)) = files w) /\
  (connection_mode d = None ->
   Fs.exists_ w (OsPath.join (path d) f) = false ->
   fst (Dir.delete_file ftp d f w) = Val tt /\
   files (snd (Dir.delete_file ftp d f w)) = files w) /\
  (lock_marker ftp d w = Val false ->
   fst (Dir.delete_file ftp d f w) = Val tt) /\
  (forall h r2 e r3,
     Dir.mode_is_FTP d = true ->
     lock_marker ftp d w = Val true ->
     handle_attr w !! oid d = Some h ->
     ftp_cwd ftp h (OsPath.join (path d) (OsPath.dirname f))
             (remote (snd (Dir._check_file_exists ftp d LOCK_FILE w))) = (Val tt, r2) ->
     ftp_delete ftp h (OsPath.basename f) r2 = (Exc e, r3) ->
     fst (Dir.delete_file ftp d f w) = Exc e).
Proof.
  repeat split.
  - destruct (delete_file_unlocked d LOCK_FILE w) as (_ & _ & _ & Hv); [congruence|auto].
  - destruct (delete_file_unlocked d LOCK_FILE w) as (Hf & _); [congruence|auto].
  - by destruct (delete_file_local_missing d f w) as (Hv & Hf & _).
  - by destruct (delete_file_local_missing d f w) as (Hv & Hf & _).
  - intros Habs.
    destruct (delete_file_unlocked d f w) as (_ & _ & _ & Hv); [congruence|auto].
  - intros. eapply delete_file_ftp_refused; eauto.
Qed.

(** C4: the round trip of the commit marker on the local transport.  What
    [_read_root_dir_file_contents] reads back after [write_new_file] wrote
    [s] is [s] without its last character, whatever that character is; it
    is [s] only when [s] is empty. *)
Theorem commit_marker_read_drops_last_char d s (w w' : World R) :
  connection_mode d = None ->
  Dir.write_new_file ftp d COMMIT_FILE s w = (Val tt, w') ->
  Dir._read_root_dir_file_contents ftp d COMMIT_FILE w' = (Val (PyStr.drop_last s), w') /\
  (s <> "" -> PyStr.drop_last s <> s).
Proof.
  intros Hmode Hw. split; [|apply drop_last_neq].
  unfold Dir.write_new_file, Dir._read_root_dir_file_contents in *.
  rewrite Hmode in *.
  unfold bind, emit, print, Fs.open_w, Fs.write, Fs.read, ret in *. cbn in *.
  destruct (_ || _); [discriminate|]. cbn in Hw.
  injection Hw as <-. cbn. rewrite lookup_insert_eq. done.
Qed.

(** C6: on the FTP transport, when the commit marker is in the listing of
    the target directory, [check_valid_commit] raises: it returns neither
    True nor False and records no commit. *)
Theorem check_valid_commit_ftp_raises d repo (w : World R) :
  Dir.mode_is_FTP d = true ->
  fst (Dir._check_file_exists ftp d COMMIT_FILE w) = Val true ->
  exists e, fst (Dir.check_valid_commit ftp git d repo w) = Exc e.
Proof.
  intros Hftp Hpresent.
  unfold Dir.check_valid_commit. unfold bind at 1. unfold emit.
  unfold bind at 1.
  set (w0 := add_log (EvCall (oid d) MCheckValidCommit) w).
  assert (fst (Dir._check_file_exists ftp d COMMIT_FILE w0) = Val true) as Hm.
  { unfold w0. by rewrite check_file_exists_log. }
  destruct (Dir._check_file_exists ftp d COMMIT_FILE w0) as [[[]|x] w1];
    cbn [fst snd] in *; try congruence.
  cbn [negb]. cbv iota.
  unfold Dir._read_root_dir_file_contents, Dir.mode_is_FTP in *.
  destruct (connection_mode d) as [m|]; [|done]. rewrite Hftp.
  unfold bind, Dir.set_buffer, Dir.get_handle, Dir.ftp_call, raise. cbn.
  destruct (handle_attr w1 !! oid d) as [h|]; [|by eexists]. cbn.
  destruct (ftp_cwd ftp h (path d) (remote w1)) as [[[]|x] r1]; cbn.
  - rewrite lookup_insert_eq || idtac. destruct (handle_attr w1 !! oid d); by eexists.
  - by eexists.
Qed.
End DirFacts.
(** ** The check of the recorded commit *)

Section ValidCommit.
Context {R : Type}.
Variable ftp : FtpLib R.
Variable git : GitLib.

(** On the local transport the check answers False without a commit
    marker; with one it resolves what it read, keeps the object in
    [self.commit], and answers by that object: a true value for a commit,
    a false one for anything else, the exception when the resolution
    raises. *)
Lemma check_valid_commit_local d repo (w : World R) :
  connection_mode d = None ->
  (Fs.exists_ w (OsPath.join (path d) COMMIT_FILE) = false ->
   Dir.check_valid_commit ftp git d repo w =
     (Val (PyBool false), add_log (EvCall (oid d) MCheckValidCommit) w)) /\
  (forall contents,
     files w !! OsPath.join (path d) COMMIT_FILE = Some contents ->
     match git_commit git repo (PyStr.drop_last contents) with
     | Val c =>
         fst (Dir.check_valid_commit ftp git d repo w) =
           Val (py_and c (PyBool (class_is_Commit c))) /\
         commit_attr (snd (Dir.check_valid_commit ftp git d repo w)) !! oid d = Some c
     | Exc x => fst (Dir.check_valid_commit ftp git d repo w) = Exc x
     end).
Proof.
  intros Hmode. split.
  - intros Habs. unfold Dir.check_valid_commit, Dir._check_file_exists.
    rewrite Hmode. unfold bind, emit, Fs.path_exists, ret. cbn.
    rewrite exists_add_log, Habs. done.
  - intros contents Hfile.
    unfold Dir.check_valid_commit, Dir._check_file_exists, Dir._read_root_dir_file_contents.
    rewrite Hmode. unfold bind, emit, Fs.path_exists, Fs.read, ret, lift_outcome,
      Dir.set_commit, Dir.get_commit. cbn.
    rewrite exists_add_log, (exists_file w _ _ Hfile). cbn. rewrite Hfile. cbn.
    destruct (git_commit git repo (PyStr.drop_last contents)) as [c|x]; cbn; [|done].
    rewrite lookup_insert_eq. done.
Qed.
End ValidCommit.
(** ** What a computation can log *)

Section Emits.
Context {R : Type}.
Implicit Types (fp : Event -> bool).

Lemma emits_weaken {A} fp fq (m : M R A) :
  (forall e, fp e = true -> fq e = true) -> emits fp m -> emits fq m.
Proof.
  intros Hsub Hm w. destruct (Hm w) as (evs & Hlog & Hall).
  exists evs. split; [done|]. eapply Forall_impl; eauto.
Qed.

Lemma emits_ret {A} fp (a : A) : emits (R:=R) fp (ret a).
Proof. intros w. exists []. by rewrite app_nil_r. Qed.

Lemma emits_raise {A} fp e : emits (R:=R) (A:=A) fp (raise e).
Proof. intros w. exists []. by rewrite app_nil_r. Qed.

Lemma emits_lift_outcome {A} fp (o : Outcome A) : emits (R:=R) fp (lift_outcome o).
Proof. intros w. exists []. by rewrite app_nil_r. Qed.

Lemma emits_print fp s : emits (R:=R) fp (print s).
Proof. intros w. exists []. by rewrite app_nil_r. Qed.

Lemma emits_emit fp e : fp e = true -> emits (R:=R) fp (emit e).
Proof. intros He w. exists [e]. split; [done|]. by constructor. Qed.

Lemma emits_bind {A B} fp (m : M R A) (k : A -> M R B) :
  emits fp m -> (forall a, emits fp (k a)) -> emits fp (bind m k).
Proof.
  intros Hm Hk w. unfold bind. destruct (Hm w) as (evs & Hlog & Hall).
  destruct (m w) as [[a|e] w1]; cbn in *.
  - destruct (Hk a w1) as (evs' & Hlog' & Hall').
    exists (evs ++ evs'). rewrite Hlog', Hlog, app_assoc. split; [done|].
    by apply Forall_app.
  - by exists evs.
Qed.

Lemma emits_after_emit {A} fp e (m : M R A) :
  emits fp m ->
  forall w, exists evs,
    log (snd ((emit e ;; m) w)) = log w ++ e :: evs /\
    Forall (fun e => fp e = true) evs.
Proof.
  intros Hm w. unfold bind, emit.
  destruct (Hm (add_log e w)) as (evs & Hlog & Hall).
  exists evs. rewrite Hlog. cbn. by rewrite <- app_assoc.
Qed.

Lemma emits_try_except {A} fp (m : M R A) catches handler :
  emits fp m -> (forall e, emits fp (handler e)) -> emits fp (try_except m catches handler).
Proof.
  intros Hm Hh w. unfold try_except. destruct (Hm w) as (evs & Hlog & Hall).
  destruct (m w) as [[a|e] w1]; cbn in *.
  - by exists evs.
  - destruct (catches e); [|by exists evs].
    destruct (Hh e w1) as (evs' & Hlog' & Hall').
    exists (evs ++ evs'). rewrite Hlog', Hlog, app_assoc. split; [done|].
    by apply Forall_app.
Qed.

Lemma emits_for_each {X} fp (l : list X) (body : X -> M R unit) :
  (forall x, emits fp (body x)) -> emits fp (for_each l body).
Proof.
  intros Hb. induction l as [|x l IH]; cbn.
  - apply emits_ret.
  - apply emits_bind; [apply Hb | intros _; apply IH].
Qed.

Lemma emits_for_fold {X S} fp (l : list X) (acc : S) (body : S -> X -> M R S) :
  (forall acc x, emits fp (body acc x)) -> emits fp (for_fold l acc body).
Proof.
  intros Hb. revert acc. induction l as [|x l IH]; intros acc; cbn.
  - apply emits_ret.
  - apply emits_bind; [apply Hb | intros acc'; apply IH].
Qed.

(** the file system *)
Lemma emits_path_exists fp p : emits (R:=R) fp (Fs.path_exists p).
Proof. intros w. exists []. by rewrite app_nil_r. Qed.

Lemma emits_read fp p : emits (R:=R) fp (Fs.read p).
Proof.
  intros w. exists []. unfold Fs.read. destruct (files w !! p); by rewrite app_nil_r.
Qed.

Lemma emits_write fp p s : emits (R:=R) fp (Fs.write p s).
Proof. intros w. exists []. by rewrite app_nil_r. Qed.

Lemma emits_open_w fp p : fp (EvFsWrite p) = true -> emits (R:=R) fp (Fs.open_w p).
Proof.
  intros He w. unfold Fs.open_w. destruct (_ || _).
  - exists []. by rewrite app_nil_r.
  - exists [EvFsWrite p]. split; [done|]. by constructor.
Qed.

Lemma emits_makedirs fp p : fp (EvFsMakedirs p) = true -> emits (R:=R) fp (Fs.makedirs p).
Proof.
  intros He w. unfold Fs.makedirs. cbn zeta. destruct (_ || _).
  - exists []. by rewrite app_nil_r.
  - exists [EvFsMakedirs p]. split; [done|]. by constructor.
Qed.

Lemma emits_remove fp p : fp (EvFsRemove p) = true -> emits (R:=R) fp (Fs.remove p).
Proof.
  intros He w. unfold Fs.remove. destruct (bool_decide _).
  - exists []. by rewrite app_nil_r.
  - destruct (files w !! p).
    + exists [EvFsRemove p]. split; [done|]. by constructor.
    + exists []. by rewrite app_nil_r.
Qed.

(** the attributes and the sessions *)
Variable ftp : FtpLib R.

Lemma emits_ftp_call {A} fp h c (op : R -> Outcome A * R) :
  fp (EvFtp h c) = true -> emits fp (Dir.ftp_call h c op).
Proof.
  intros He w. unfold Dir.ftp_call. destruct (op (remote w)) as [o r].
  exists [EvFtp h c]. split; [done|]. by constructor.
Qed.

Lemma emits_ftp_open fp hst cred :
  fp (EvFtpOpen hst) = true -> emits fp (Dir.ftp_open ftp hst cred).
Proof.
  intros He w. unfold Dir.ftp_open. destruct (ftp_FTP ftp hst cred (remote w)) as [o r].
  exists [EvFtpOpen hst]. split; [done|]. by constructor.
Qed.

Lemma emits_get_handle fp d : emits (R:=R) fp (Dir.get_handle d).
Proof.
  intros w. exists []. unfold Dir.get_handle.
  destruct (handle_attr w !! oid d); by rewrite app_nil_r.
Qed.

Lemma emits_set_handle fp d h : emits (R:=R) fp (Dir.set_handle d h).
Proof. intros w. exists []. by rewrite app_nil_r. Qed.

Lemma emits_get_commit fp d : emits (R:=R) fp (Dir.get_commit d).
Proof. intros w. exists []. by rewrite app_nil_r. Qed.

Lemma emits_set_commit fp d c : emits (R:=R) fp (Dir.set_commit d c).
Proof. intros w. exists []. by rewrite app_nil_r. Qed.

Lemma emits_set_buffer fp d s : emits (R:=R) fp (Dir.set_buffer d s).
Proof. intros w. exists []. by rewrite app_nil_r. Qed.
End Emits.

Create HintDb emits discriminated.
#[export] Hint Resolve emits_ret emits_raise emits_lift_outcome emits_print
  emits_path_exists emits_read emits_write emits_get_handle emits_set_handle
  emits_get_commit emits_set_commit emits_set_buffer : emits.

(** one step of a footprint proof: split the computation, or case on what it
    branches on *)
Ltac emits_step :=
  match goal with
  | |- emits _ (bind _ _) => apply emits_bind; [|intros ?]
  | |- emits _ (try_except _ _ _) => apply emits_try_except; [|intros ?]
  | |- emits _ (for_each _ _) => apply emits_for_each; intros ?
  | |- emits _ (for_fold _ _ _) => apply emits_for_fold; intros ? ?
  | |- emits _ (emit _) => apply emits_emit; reflexivity
  | |- emits _ (Fs.open_w _) => apply emits_open_w; reflexivity
  | |- emits _ (Fs.makedirs _) => apply emits_makedirs; reflexivity
  | |- emits _ (Fs.remove _) => apply emits_remove; reflexivity
  | |- emits _ (Dir.ftp_call _ _ _) => apply emits_ftp_call; reflexivity
  | |- emits _ (Dir.ftp_open _ _ _) => apply emits_ftp_open; reflexivity
  | |- emits _ (match ?x with _ => _ end) => destruct x
  | |- emits _ (let _ := _ in _) => cbv zeta
  | |- emits _ _ => solve [eauto with emits]
  end.

Ltac emits_incl := let e := fresh in intros e; destruct e as [? []| | | | | | | | |]; cbn; done.

Section Footprints.
Context {R : Type}.
Variable ftp : FtpLib R.
Variable git : GitLib.

Lemma check_file_exists_emits d f : emits is_low (Dir._check_file_exists ftp d f).
Proof. unfold Dir._check_file_exists. repeat emits_step. Qed.

Lemma check_locked_emits d : emits in_delete (Dir.check_locked ftp d).
Proof.
  unfold Dir.check_locked. repeat emits_step.
  eapply emits_weaken; [|apply check_file_exists_emits]. emits_incl.
Qed.

Lemma delete_file_emits d f : emits in_delete (Dir.delete_file ftp d f).
Proof.
  unfold Dir.delete_file. emits_step; [emits_step|].
  emits_step; [apply check_locked_emits|]. repeat emits_step.
Qed.

Lemma cwd_or_mkd_emits d a b announce : emits is_low (Dir.cwd_or_mkd ftp d a b announce).
Proof. unfold Dir.cwd_or_mkd. repeat emits_step. Qed.

Lemma write_new_file_emits d f s : emits in_write (Dir.write_new_file ftp d f s).
Proof.
  unfold Dir.write_new_file. repeat emits_step.
  eapply emits_weaken; [|apply cwd_or_mkd_emits]. emits_incl.
Qed.

Lemma connect_emits d : emits in_lock_phase (Dir.connect ftp d).
Proof. unfold Dir.connect. repeat emits_step. Qed.

Lemma lock_emits d : emits in_lock_phase (Dir.lock ftp d).
Proof.
  unfold Dir.lock. repeat emits_step.
  eapply emits_weaken; [|apply write_new_file_emits]. emits_incl.
Qed.

Lemma dir_abort_emits d : emits in_lock_phase (Dir.abort ftp d).
Proof.
  unfold Dir.abort. emits_step; [emits_step|]. emits_step.
  - eapply emits_weaken; [|apply delete_file_emits]. emits_incl.
  - repeat emits_step.
Qed.

Lemma abort_emits ds msg : emits in_lock_phase (abort ftp ds msg).
Proof.
  unfold abort. emits_step; [emits_step; apply dir_abort_emits|]. repeat emits_step.
Qed.

Lemma lock_one_emits acc d : emits in_lock_phase (lock_one ftp acc d).
Proof.
  unfold lock_one. emits_step.
  { emits_step; [|repeat emits_step]. emits_step; [apply connect_emits|emits_step]. }
  emits_step; [emits_step|].
  emits_step.
  { eapply emits_weaken; [|apply check_locked_emits]. emits_incl. }
  emits_step; [emits_step|].
  emits_step; [apply lock_emits|]. repeat emits_step.
Qed.

Lemma lock_dirs_emits config : emits in_lock_phase (lock_dirs ftp config).
Proof.
  unfold lock_dirs. emits_step; [emits_step; apply lock_one_emits|].
  emits_step.
  - emits_step; [apply abort_emits|emits_step].
  - emits_step; [|emits_step]. emits_step; [apply abort_emits|emits_step].
Qed.

Lemma read_root_emits d f : emits is_low (Dir._read_root_dir_file_contents ftp d f).
Proof. unfold Dir._read_root_dir_file_contents. repeat emits_step. Qed.

Lemma check_valid_commit_emits d repo :
  emits in_validation (Dir.check_valid_commit ftp git d repo).
Proof.
  unfold Dir.check_valid_commit. emits_step; [emits_step|]. emits_step.
  { eapply emits_weaken; [|apply check_file_exists_emits]. emits_incl. }
  emits_step; [emits_step|]. emits_step.
  { eapply emits_weaken; [|apply read_root_emits]. emits_incl. }
  repeat emits_step.
Qed.

Lemma check_dirs_configured_emits config locked repo :
  emits in_validation (check_dirs_configured ftp git config locked repo).
Proof.
  unfold check_dirs_configured, check_one. emits_step.
  { emits_step. emits_step; [apply check_valid_commit_emits|repeat emits_step]. }
  emits_step; [|emits_step].
  eapply emits_weaken; [|apply abort_emits]. emits_incl.
Qed.

(** [copy_file] logs its call, and then only what the file system and the
    session do *)
Lemma copy_file_log d f src (w : World R) :
  exists evs,
    log (snd (Dir.copy_file ftp d f src w)) =
      log w ++ EvCall (oid d) (MCopyFile f src) :: evs /\
    Forall (fun e => is_low e = true) evs.
Proof.
  unfold Dir.copy_file. apply emits_after_emit.
  repeat emits_step. apply cwd_or_mkd_emits.
Qed.

Lemma copy_file_emits d f src : emits in_deploy (Dir.copy_file ftp d f src).
Proof.
  intros w. destruct (copy_file_log d f src w) as (evs & -> & Hall).
  eexists. split; [done|]. constructor; [done|].
  eapply Forall_impl; [exact Hall|]. emits_incl.
Qed.

Lemma rename_file_emits d a b : emits in_deploy (Dir.rename_file ftp d a b).
Proof. unfold Dir.rename_file. repeat emits_step. Qed.

Lemma deploy_emits d commit config :
  emits in_deploy (Dir.deploy ftp git d commit config).
Proof.
  unfold Dir.deploy, Dir.deploy_diff, Dir.deploy_tree.
  emits_step; [emits_step|]. emits_step; [emits_step|].
  emits_step.
  { emits_step.
    - emits_step; [emits_step|]. emits_step; [emits_step|]. emits_step.
      emits_step; [|emits_step].
      + eapply emits_weaken; [|apply delete_file_emits]. emits_incl.
      + apply rename_file_emits.
      + apply copy_file_emits.
    - emits_step; [emits_step|]. emits_step; [emits_step|]. emits_step.
      apply copy_file_emits. }
  emits_step; [emits_step|]. emits_step.
  { eapply emits_weaken; [|apply write_new_file_emits]. emits_incl. }
  emits_step; [|emits_step].
  eapply emits_weaken; [|apply delete_file_emits]. emits_incl.
Qed.
End Footprints.
(** ** What a computation leaves alone *)

Section Keeps.
Context {R X : Type}.
Variable f : World R -> X.

Lemma keeps_ret {A} (a : A) : keeps f (ret a).
Proof. done. Qed.

Lemma keeps_raise {A} e : keeps (A:=A) f (raise e).
Proof. done. Qed.

Lemma keeps_lift_outcome {A} (o : Outcome A) : keeps f (lift_outcome o).
Proof. done. Qed.

Lemma keeps_bind {A B} (m : M R A) (k : A -> M R B) :
  keeps f m -> (forall a, keeps f (k a)) -> keeps f (bind m k).
Proof.
  intros Hm Hk w. unfold bind. specialize (Hm w).
  destruct (m w) as [[a|e] w1]; cbn in *; [|done].
  by rewrite Hk.
Qed.

Lemma keeps_try_except {A} (m : M R A) catches handler :
  keeps f m -> (forall e, keeps f (handler e)) -> keeps f (try_except m catches handler).
Proof.
  intros Hm Hh w. unfold try_except. specialize (Hm w).
  destruct (m w) as [[a|e] w1]; cbn in *; [done|].
  destruct (catches e); [|done]. by rewrite Hh.
Qed.

Lemma keeps_for_each {Y} (l : list Y) (body : Y -> M R unit) :
  (forall x, keeps f (body x)) -> keeps f (for_each l body).
Proof.
  intros Hb. induction l as [|x l IH]; cbn; [done|].
  apply keeps_bind; [apply Hb | intros _; apply IH].
Qed.

Lemma keeps_for_fold {Y S} (l : list Y) (acc : S) (body : S -> Y -> M R S) :
  (forall acc x, keeps f (body acc x)) -> keeps f (for_fold l acc body).
Proof.
  intros Hb. revert acc. induction l as [|x l IH]; intros acc; cbn; [done|].
  apply keeps_bind; [apply Hb | intros acc'; apply IH].
Qed.
End Keeps.

(** a primitive that does not touch the part of the world in question *)
Ltac keeps_prim :=
  let w := fresh "w" in
  intros w;
  unfold emit, print, Fs.path_exists, Fs.open_w, Fs.write, Fs.read, Fs.makedirs,
    Fs.remove, Dir.ftp_call, Dir.ftp_open, Dir.get_handle, Dir.set_handle,
    Dir.get_commit, Dir.set_buffer;
  repeat case_match; reflexivity.

Ltac keeps_step :=
  match goal with
  | |- keeps _ (bind _ _) => apply keeps_bind; [|intros ?]
  | |- keeps _ (try_except _ _ _) => apply keeps_try_except; [|intros ?]
  | |- keeps _ (for_each _ _) => apply keeps_for_each; intros ?
  | |- keeps _ (for_fold _ _ _) => apply keeps_for_fold; intros ? ?
  | |- keeps _ (ret _) => apply keeps_ret
  | |- keeps _ (raise _) => apply keeps_raise
  | |- keeps _ (lift_outcome _) => apply keeps_lift_outcome
  | |- keeps _ (match ?x with _ => _ end) => destruct x
  | |- keeps _ (let _ := _ in _) => cbv zeta
  | |- keeps _ _ => solve [keeps_prim]
  end.

Section CommitAttr.
Context {R : Type}.
Variable ftp : FtpLib R.
Variable git : GitLib.

(** only [check_valid_commit] assigns [self.commit] *)
Lemma lock_dirs_keeps_commit config : keeps commit_attr (lock_dirs ftp config).
Proof.
  unfold lock_dirs, lock_one, abort, Dir.abort, Dir.delete_file, Dir.check_locked,
    Dir._check_file_exists, Dir.lock, Dir.write_new_file, Dir.cwd_or_mkd, Dir.connect.
  repeat keeps_step.
Qed.

Lemma abort_keeps_commit ds msg : keeps commit_attr (abort ftp ds msg).
Proof.
  unfold abort, Dir.abort, Dir.delete_file, Dir.check_locked, Dir._check_file_exists.
  repeat keeps_step.
Qed.

Lemma deploy_keeps_commit d commit config :
  keeps commit_attr (Dir.deploy ftp git d commit config).
Proof.
  unfold Dir.deploy, Dir.deploy_diff, Dir.deploy_tree, Dir.copy_file, Dir.rename_file,
    Dir.delete_file, Dir.check_locked, Dir._check_file_exists, Dir.write_new_file,
    Dir.cwd_or_mkd.
  repeat keeps_step.
Qed.

Lemma deploy_phase_keeps_commit commit config :
  keeps commit_attr (deploy_phase ftp git commit config).
Proof.
  unfold deploy_phase, deploy_one. keeps_step; [|keeps_step].
  keeps_step. keeps_step; [apply deploy_keeps_commit|]. repeat keeps_step.
Qed.
End CommitAttr.
(** ** Deploying to one target *)

Lemma copy_calls_app o (l1 l2 : list Event) :
  copy_calls o (l1 ++ l2) = copy_calls o l1 ++ copy_calls o l2.
Proof. unfold copy_calls. apply omap_app. Qed.

Lemma copy_calls_none o (l : list Event) :
  Forall (fun e => is_copy_call e = false) l -> copy_calls o l = [].
Proof.
  induction 1 as [|e l He _ IH]; [done|].
  cbn. destruct e as [? []| | | | | | | | |]; try done.
Qed.

Lemma copy_calls_self o f src :
  copy_calls o [EvCall o (MCopyFile f src)] = [(f, src)].
Proof. cbn. by rewrite Nat.eqb_refl. Qed.

Section Deploy.
Context {R : Type}.
Variable ftp : FtpLib R.
Variable git : GitLib.

Lemma deploy_tree_log d tree config (w : World R) :
  exists evs,
    log (snd (Dir.deploy_tree ftp d tree config w)) = log w ++ evs /\
    Forall (fun e => is_diff e = false) evs /\
    (fst (Dir.deploy_tree ftp d tree config w) = Val tt ->
     copy_calls (oid d) evs =
       (fun p => (p, OsPath.join (cfg_path config) p)) <$> tree).
Proof.
  unfold Dir.deploy_tree. revert w.
  induction tree as [|p tree IH]; intros w; cbn [for_each].
  - exists []. rewrite app_nil_r. done.
  - unfold bind.
    destruct (copy_file_log ftp d p (OsPath.join (cfg_path config) p) w)
      as (evs1 & Hlog1 & Hlow).
    destruct (Dir.copy_file ftp d p _ w) as [[[]|e] w1]; cbn [fst snd] in *.
    + destruct (IH w1) as (evs2 & Hlog2 & Hnd & Hcalls).
      exists ((EvCall (oid d) (MCopyFile p (OsPath.join (cfg_path config) p)) :: evs1) ++ evs2).
      rewrite Hlog2, Hlog1, <- app_assoc. split; [done|]. split.
      * apply Forall_app. split; [|done]. constructor; [done|].
        eapply Forall_impl; [exact Hlow|]. intros []; done.
      * intros Hv.
        change (EvCall (oid d) (MCopyFile p (OsPath.join (cfg_path config) p)) :: evs1)
          with ([EvCall (oid d) (MCopyFile p (OsPath.join (cfg_path config) p))] ++ evs1).
        rewrite !copy_calls_app, (Hcalls Hv), copy_calls_self.
        rewrite (copy_calls_none _ evs1); [done|].
        eapply Forall_impl; [exact Hlow|]. intros []; done.
    + exists (EvCall (oid d) (MCopyFile p (OsPath.join (cfg_path config) p)) :: evs1).
      split; [done|]. split; [|done]. constructor; [done|].
      eapply Forall_impl; [exact Hlow|]. intros []; done.
Qed.

(** C5, as amended: a deploy to a target whose commit was never validated
    ([self.commit] is None), when it completes, has called [copy_file]
    exactly for the paths of the [ls_files] listing of the source tree, in
    order, each from its path under the source tree, and has asked for no
    diff.  The listing does not depend on the commit that is deployed. *)
Theorem hard_deploy_copies_ls_files d commit config (w w' : World R) :
  commit_attr w !! oid d = None ->
  Dir.deploy ftp git d commit config w = (Val true, w') ->
  exists listing evs,
    git_ls_files git (cfg_path config) = Val listing /\
    log w' = log w ++ evs /\
    copy_calls (oid d) evs =
      (fun p => (p, OsPath.join (cfg_path config) p)) <$> PyStr.split_nl listing /\
    Forall (fun e => is_diff e = false) evs.
Proof.
  intros Hnone Hrun. unfold Dir.deploy in Hrun.
  apply bind_inv_val in Hrun as ([] & w1 & Hemit & Hrun).
  apply bind_inv_val in Hrun as (last & w2 & Hget & Hrun).
  unfold emit in Hemit. injection Hemit as <-.
  unfold Dir.get_commit in Hget. cbn in Hget. rewrite Hnone in Hget.
  injection Hget as <- <-. cbn [is_None negb] in Hrun. cbv iota in Hrun.
  apply bind_inv_val in Hrun as ([] & w3 & Htree & Hrun).
  apply bind_inv_val in Htree as ([] & w4 & Hemit & Htree).
  unfold emit in Hemit. injection Hemit as <-.
  apply bind_inv_val in Htree as (listing & w5 & Hls & Htree).
  unfold lift_outcome in Hls. injection Hls as Hls <-.
  apply bind_inv_val in Hrun as (hex & w6 & Hhex & Hrun).
  unfold lift_outcome in Hhex. injection Hhex as Hhex <-.
  apply bind_inv_val in Hrun as ([] & w7 & Hwrite & Hrun).
  apply bind_inv_val in Hrun as ([] & w8 & Hdel & Hrun).
  injection Hrun as <-.
  exists listing.
  destruct (deploy_tree_log d (PyStr.split_nl listing) config
              (add_log (EvLsFiles (cfg_path config))
                 (add_log (EvCall (oid d) MDeploy) w))) as (evs1 & Hl1 & Hnd1 & Hc1).
  rewrite Htree in Hl1, Hc1. cbn [fst snd] in *.
  destruct (write_new_file_emits ftp d COMMIT_FILE hex w3) as (evs2 & Hl2 & Hw2).
  rewrite Hwrite in Hl2. cbn [snd] in Hl2.
  destruct (delete_file_emits ftp d LOCK_FILE w7) as (evs3 & Hl3 & Hw3).
  rewrite Hdel in Hl3. cbn [snd] in Hl3.
  exists ([EvCall (oid d) MDeploy; EvLsFiles (cfg_path config)] ++ evs1 ++ evs2 ++ evs3).
  split; [done|]. split; [|split].
  - rewrite Hl3, Hl2, Hl1. cbn. rewrite <- !app_assoc. done.
  - rewrite !copy_calls_app, (Hc1 eq_refl).
    rewrite (copy_calls_none _ evs2), (copy_calls_none _ evs3), !app_nil_r; [done| |].
    + eapply Forall_impl; [exact Hw3|]. intros [? []| | | | | | | | |]; done.
    + eapply Forall_impl; [exact Hw2|]. intros [? []| | | | | | | | |]; done.
  - apply Forall_app. split; [by repeat constructor|].
    apply Forall_app. split; [done|].
    apply Forall_app. split.
    + eapply Forall_impl; [exact Hw2|]. intros [? []| | | | | | | | |]; done.
    + eapply Forall_impl; [exact Hw3|]. intros [? []| | | | | | | | |]; done.
Qed.
Lemma mode_FTP_inv d :
  Dir.mode_is_FTP d = true -> connection_mode d = Some "FTP".
Proof.
  unfold Dir.mode_is_FTP. destruct (connection_mode d) as [m|]; [|done].
  by intros ->%String.eqb_eq.
Qed.

Lemma write_new_file_local d f s (w w' : World R) :
  connection_mode d = None ->
  Dir.write_new_file ftp d f s w = (Val tt, w') ->
  files w' = <[OsPath.join (path d) f := s]> (files w) /\ dirs w' = dirs w.
Proof.
  intros Hmode. unfold Dir.write_new_file. rewrite Hmode.
  unfold bind, emit, print, Fs.open_w, Fs.write. cbn.
  destruct (_ || _); [done|]. cbn. intros [= <-]. cbn.
  by rewrite insert_insert_eq.
Qed.

(** after [delete_file] of the lock marker on the local transport there
    is no lock marker *)
Lemma delete_lock_local d (w w' : World R) :
  connection_mode d = None ->
  Dir.delete_file ftp d LOCK_FILE w = (Val tt, w') ->
  files w' = delete (OsPath.join (path d) LOCK_FILE) (files w) /\
  dirs w' = dirs w /\
  Fs.exists_ w' (OsPath.join (path d) LOCK_FILE) = false.
Proof.
  intros Hmode. rewrite delete_file_unfold. cbn zeta.
  unfold Dir._check_file_exists, Dir.mode_falsy. rewrite Hmode.
  unfold Fs.path_exists, bind, ret. cbn. rewrite !exists_add_log.
  destruct (Fs.exists_ w (OsPath.join (path d) LOCK_FILE)) eqn:Hex.
  - rewrite ?exists_add_log, ?Hex. unfold Fs.remove. cbn.
    destruct (bool_decide _) eqn:Hdir; [done|].
    destruct (files w !! _) eqn:Hfile; [|done]. intros [= <-]. cbn.
    split; [done|]. split; [done|]. apply not_exists. cbn.
    rewrite lookup_delete_eq. split; [done|]. by apply bool_decide_eq_false in Hdir.
  - intros [= <-]. cbn. apply not_exists in Hex as [Hf Hd].
    rewrite delete_id by done. split; [done|]. split; [done|].
    by apply not_exists.
Qed.

(** what a [write_new_file] that returns has asked of the server *)
Lemma write_new_file_ftp_run d f s (w w' : World R) :
  Dir.mode_is_FTP d = true ->
  Dir.write_new_file ftp d f s w = (Val tt, w') ->
  exists h r1 cmds,
    handle_attr w !! oid d = Some h /\ handle_attr w' = handle_attr w /\
    enters ftp h (path d) (OsPath.join (path d) (OsPath.dirname f)) (remote w) r1 cmds /\
    ftp_storbinary ftp h ("STOR " +:+ OsPath.basename f) s r1 = (Val tt, remote w') /\
    log w' = log w ++ [EvCall (oid d) (MWriteNewFile f s)] ++ (EvFtp h <$> cmds)
               ++ [EvFtp h (CStor ("STOR " +:+ OsPath.basename f) s)].
Proof.
  intros Hmode%mode_FTP_inv. unfold Dir.write_new_file.
  rewrite Hmode, String.eqb_refl. cbv zeta.
  unfold Dir.cwd_or_mkd, try_except, bind, emit, print, Dir.get_handle, Dir.ftp_call, ret.
  cbn.
  destruct (handle_attr w !! oid d) as [h|] eqn:Hh; [|done]. cbn.
  destruct (ftp_cwd ftp h (path d) (remote w)) as [[[]|x] r1] eqn:Hcwd; cbn.
  - rewrite Hh. cbn.
    destruct (ftp_storbinary ftp h _ s r1) as [[[]|x] r2] eqn:Hstor; [|done].
    intros [= <-]. cbn. exists h, r1, [CCwd (path d)].
    split; [done|]. split; [done|]. split; [by left|]. split; [done|].
    by rewrite <- !app_assoc.
  - destruct x as [msg| | | | | |]; try done. cbn. rewrite Hh. cbn.
    destruct (ftp_mkd ftp h _ r1) as [[[]|x] r2] eqn:Hmkd; [|done]. cbn.
    rewrite Hh. cbn.
    destruct (ftp_cwd ftp h _ r2) as [[[]|x] r3] eqn:Hcwd2; [|done]. cbn.
    rewrite Hh. cbn.
    destruct (ftp_storbinary ftp h _ s r3) as [[[]|x] r4] eqn:Hstor; [|done].
    intros [= <-]. cbn.
    exists h, r3, [CCwd (path d); CMkd (OsPath.join (path d) (OsPath.dirname f));
                   CCwd (OsPath.join (path d) (OsPath.dirname f))].
    split; [done|]. split; [done|]. split.
    { right. by exists msg, r1, r2. }
    split; [done|]. by rewrite <- !app_assoc.
Qed.




(** C7, as amended: the deploy loop has no handler.  When the targets
    before [d] were deployed and the deploy of [d] raises, the loop over
    all the targets raises the same exception in the same world: nothing
    is attempted on the targets after [d].  The only report is the line
    printed after a deploy that returned. *)
Theorem deploy_loop_stops_at_failure commit config pre d post (w w1 w2 : World R) e :
  for_each pre (deploy_one ftp git commit config) w = (Val tt, w1) ->
  Dir.deploy ftp git d commit config w1 = (Exc e, w2) ->
  for_each (pre ++ d :: post) (deploy_one ftp git commit config) w = (Exc e, w2) /\
  (forall d' w3 w4,
     Dir.deploy ftp git d' commit config w3 = (Val true, w4) ->
     deploy_one ftp git commit config d' w3 =
       (Val tt, add_out ("Deployed successfully to  " +:+ path d') w4)).
Proof.
  intros Hpre Hd. split.
  - rewrite for_each_app. rewrite (bind_val _ _ _ _ _ Hpre). cbn [for_each].
    apply bind_exc. unfold deploy_one. by apply bind_exc.
  - intros d' w3 w4 Hok. unfold deploy_one. by rewrite (bind_val _ _ _ _ _ Hok).
Qed.
End Deploy.
(** ** The lock phase *)

Section LockPhase.
Context {R : Type}.
Variable ftp : FtpLib R.
Variable git : GitLib.

Lemma write_new_file_local_log d f s (w w' : World R) :
  connection_mode d = None ->
  Dir.write_new_file ftp d f s w = (Val tt, w') ->
  log w' = log w ++ [EvCall (oid d) (MWriteNewFile f s); EvFsWrite (OsPath.join (path d) f)].
Proof.
  intros Hmode. unfold Dir.write_new_file. rewrite Hmode.
  unfold bind, emit, print, Fs.open_w, Fs.write. cbn.
  destruct (_ || _); [done|]. cbn. intros [= <-]. cbn.
  by rewrite <- app_assoc.
Qed.

(** a lock that succeeded called [lock] and, locally, wrote the marker *)
Lemma lock_true_log d (w w' : World R) :
  Dir.lock ftp d w = (Val true, w') ->
  exists evs,
    log w' = log w ++ evs /\
    EvCall (oid d) MLock ∈ evs /\
    (connection_mode d = None -> EvFsWrite (lock_path d) ∈ evs).
Proof.
  unfold Dir.lock, bind at 1, emit, try_except.
  set (w1 := add_log (EvCall (oid d) MLock) w).
  destruct ((Dir.write_new_file ftp d LOCK_FILE "locked";; ret true) w1)
    as [[b|e] w2] eqn:Hw.
  - intros [= -> ->].
    apply bind_inv_val in Hw as ([] & w3 & Hwrite & [= <-]).
    destruct (write_new_file_emits ftp d LOCK_FILE "locked" w1) as (evs & Hlog & _).
    rewrite Hwrite in Hlog. cbn [snd] in Hlog.
    exists (EvCall (oid d) MLock :: evs). split; [|split].
    + rewrite Hlog. unfold w1. cbn. by rewrite <- app_assoc.
    + apply list_elem_of_here.
    + intros Hmode. apply list_elem_of_further.
      rewrite (write_new_file_local_log d _ _ _ _ Hmode Hwrite) in Hlog.
      apply app_inv_head in Hlog as <-.
      apply list_elem_of_further, list_elem_of_here.
  - destruct (is_IOError e); [|done]. unfold bind, print, ret. done.
Qed.

(** every target ends in exactly one of the three lists *)
Lemma lock_one_cases acc d (w w' : World R) acc' :
  lock_one ftp acc d w = (Val acc', w') ->
  (acc' = add_locked acc d /\
   exists evs, log w' = log w ++ evs /\ EvCall (oid d) MLock ∈ evs /\
               (connection_mode d = None -> EvFsWrite (lock_path d) ∈ evs)) \/
  (acc' = add_already acc d /\ exists evs, log w' = log w ++ evs) \/
  (acc' = add_cannot acc d /\ exists evs, log w' = log w ++ evs).
Proof.
  intros Hrun.
  destruct (lock_one_emits ftp acc d w) as (evs0 & Hlog0 & _).
  rewrite Hrun in Hlog0. cbn [snd] in Hlog0.
  unfold lock_one in Hrun.
  apply bind_inv_val in Hrun as (connected & w1 & Hconn & Hrun).
  destruct connected; cbn [negb] in Hrun; cbv iota in Hrun.
  2:{ injection Hrun as <- <-. right. right. split; [done|]. by exists evs0. }
  apply bind_inv_val in Hrun as (is_locked & w2 & Hchk & Hrun).
  destruct is_locked.
  { injection Hrun as <- <-. right. left. split; [done|]. by exists evs0. }
  apply bind_inv_val in Hrun as (ok & w3 & Hlock & Hrun).
  destruct ok.
  2:{ injection Hrun as <- <-. right. right. split; [done|]. by exists evs0. }
  injection Hrun as <- <-. left. split; [done|].
  destruct (lock_true_log d w2 w3 Hlock) as (evs3 & Hlog3 & Hin & Hfs).
  assert (exists evs1, log w1 = log w ++ evs1) as [evs1 Hlog1].
  { assert (emits (fun _ => true) (try_except (Dir.connect ftp d ;; ret true) is_Exception
              (fun e => print (exn_message e) ;; ret false) : M R bool)) as Hem.
    { repeat emits_step. eapply emits_weaken; [|apply connect_emits]. done. }
    destruct (Hem w) as (evs1 & Hl & _). rewrite Hconn in Hl. by exists evs1. }
  destruct (check_locked_emits ftp d w1) as (evs2 & Hlog2 & _).
  rewrite Hchk in Hlog2. cbn [snd] in Hlog2.
  exists (evs1 ++ evs2 ++ evs3). split; [|split].
  - rewrite Hlog3, Hlog2, Hlog1. by rewrite <- !app_assoc.
  - rewrite !elem_of_app. auto.
  - intros Hmode. specialize (Hfs Hmode). rewrite !elem_of_app. auto.
Qed.

(** when nothing was already locked and everything could be locked, all
    the targets are in the locked list, and each was locked in turn *)
Lemma lock_loop_cases ds acc (w w' : World R) acc' :
  for_fold ds acc (lock_one ftp) w = (Val acc', w') ->
  exists la aa ca evs,
    locked_dirs acc' = locked_dirs acc ++ la /\
    already_locked_dirs acc' = already_locked_dirs acc ++ aa /\
    cannot_lock acc' = cannot_lock acc ++ ca /\
    log w' = log w ++ evs /\
    (aa = [] -> ca = [] ->
     la = ds /\
     forall d, d ∈ ds ->
       EvCall (oid d) MLock ∈ evs /\
       (connection_mode d = None -> EvFsWrite (lock_path d) ∈ evs)).
Proof.
  revert acc w. induction ds as [|d ds IH]; intros acc w; cbn [for_fold].
  - intros [= <- <-]. exists [], [], [], []. rewrite !app_nil_r.
    do 4 (split; [done|]). intros _ _. split; [done|].
    intros d Hd. by apply elem_of_nil in Hd.
  - intros Hrun. apply bind_inv_val in Hrun as (acc1 & w1 & Hone & Hrest).
    destruct (IH _ _ Hrest) as (la & aa & ca & evs & Hl & Ha & Hc & Hlog & Hall).
    destruct (lock_one_cases _ _ _ _ _ Hone)
      as [[-> (evs1 & Hlog1 & Hin & Hfs)]|[[-> (evs1 & Hlog1)]|[-> (evs1 & Hlog1)]]];
      cbn in Hl, Ha, Hc.
    + exists (d :: la), aa, ca, (evs1 ++ evs).
      rewrite Hl, Ha, Hc, Hlog, Hlog1, <- !app_assoc.
      do 4 (split; [done|]). intros Haa Hca.
      destruct (Hall Haa Hca) as [-> Hds]. split; [done|].
      intros d' [->|Hd]%elem_of_cons.
      * split; [rewrite elem_of_app; auto|].
        intros Hm. specialize (Hfs Hm). rewrite elem_of_app. auto.
      * destruct (Hds _ Hd) as [Hin' Hfs']. split; [rewrite elem_of_app; auto|].
        intros Hm. specialize (Hfs' Hm). rewrite elem_of_app. auto.
    + exists la, (d :: aa), ca, (evs1 ++ evs).
      rewrite Hl, Ha, Hc, Hlog, Hlog1, <- !app_assoc.
      do 4 (split; [done|]). intros Haa. discriminate.
    + exists la, aa, (d :: ca), (evs1 ++ evs).
      rewrite Hl, Ha, Hc, Hlog, Hlog1, <- !app_assoc.
      do 4 (split; [done|]). intros _ Hca. discriminate.
Qed.
End LockPhase.
(** ** The lock phase on the local transport: locking and rolling back *)

Lemma locks_added_lookup ds f locked f1 k v :
  locks_added ds f locked f1 -> f !! k = Some v -> f1 !! k = Some v.
Proof.
  induction 1 as [f|f d locked f1 Hnone _ _ IH]; [done|].
  intros Hk. apply IH. rewrite lookup_insert_ne; [done|]. congruence.
Qed.

Lemma locks_added_delete ds f locked f1 k v :
  locks_added ds f locked f1 -> f !! k = Some v ->
  locks_added ds (delete k f) locked (delete k f1).
Proof.
  induction 1 as [f|f d locked f1 Hnone Hdir _ IH]; intros Hk; [constructor|].
  assert (lock_path d <> k) as Hne by congruence.
  constructor; [by rewrite lookup_delete_ne | done |].
  rewrite <- delete_insert_ne by done. apply IH.
  by rewrite lookup_insert_ne.
Qed.

Lemma locks_added_exists ds f locked f1 k :
  locks_added ds f locked f1 -> is_Some (f !! k) -> is_Some (f1 !! k).
Proof. intros H [v Hv]. exists v. eapply locks_added_lookup; eauto. Qed.

Section LocalLocking.
Context {R : Type}.
Variable ftp : FtpLib R.
Variable git : GitLib.

Lemma lock_one_local acc d (w : World R) :
  connection_mode d = None ->
  exists acc' w',
    lock_one ftp acc d w = (Val acc', w') /\ dirs w' = dirs w /\
    ((Fs.exists_ w (lock_path d) = true /\ acc' = add_already acc d /\
      files w' = files w) \/
     (Fs.exists_ w (lock_path d) = false /\ acc' = add_cannot acc d /\
      files w' = files w) \/
     (Fs.exists_ w (lock_path d) = false /\ acc' = add_locked acc d /\
      files w' = <[lock_path d := "locked"]> (files w))).
Proof.
  intros Hmode.
  unfold lock_one, Dir.connect, Dir.check_locked, Dir._check_file_exists,
    Dir.lock, Dir.write_new_file.
  rewrite Hmode.
  unfold bind, try_except, emit, print, ret, Fs.path_exists, Fs.open_w, Fs.write.
  cbn. rewrite !exists_add_log. fold (lock_path d).
  rewrite ?bad_name_lock_path.
  destruct (Fs.exists_ w (lock_path d)) eqn:Hex; cbn.
  - eexists _, _. split; [done|]. cbn. split; [done|]. left. done.
  - change (Fs.parent_ok _ (lock_path d)) with (Fs.parent_ok w (lock_path d)).
    apply not_exists in Hex as Hex'. destruct Hex' as [Hf Hd].
    rewrite (bool_decide_eq_false_2 _ Hd). cbn.
    destruct (Fs.parent_ok w (lock_path d)); cbn.
    + eexists _, _. split; [done|]. cbn. split; [done|]. right. right.
      rewrite insert_insert_eq. done.
    + eexists _, _. split; [done|]. cbn. split; [done|]. right. left. done.
Qed.

(** the lock loop on local targets: the markers are added one after the
    other, and a target that was locked at the start is found locked *)
Lemma local_lock_loop ds acc (w : World R) :
  (forall d, d ∈ ds -> connection_mode d = None) ->
  exists acc' w' la aa ca,
    for_fold ds acc (lock_one ftp) w = (Val acc', w') /\
    dirs w' = dirs w /\
    locked_dirs acc' = locked_dirs acc ++ la /\
    already_locked_dirs acc' = already_locked_dirs acc ++ aa /\
    cannot_lock acc' = cannot_lock acc ++ ca /\
    locks_added (dirs w) (files w) la (files w') /\
    (forall d, d ∈ la -> connection_mode d = None) /\
    (forall d, d ∈ ds -> Fs.exists_ w (lock_path d) = true -> aa <> []).
Proof.
  revert acc w. induction ds as [|d ds IH]; intros acc w Hloc; cbn [for_fold].
  - exists acc, w, [], [], []. rewrite !app_nil_r.
    do 5 (split; [done|]). split; [constructor|].
    split; intros d Hd; by apply elem_of_nil in Hd.
  - destruct (lock_one_local acc d w) as (acc1 & w1 & Hone & Hd1 & Hcases).
    { apply Hloc. apply list_elem_of_here. }
    destruct (IH acc1 w1) as (acc' & w' & la & aa & ca & Hrest & Hd' & Hl & Ha & Hc & Hadd & Hla & Hfound).
    { intros d' Hd'. apply Hloc. by apply list_elem_of_further. }
    rewrite (bind_val _ _ _ _ _ Hone).
    destruct Hcases as [(Hex & -> & Hf)|[(Hex & -> & Hf)|(Hex & -> & Hf)]];
      cbn in Hl, Ha, Hc.
    + exists acc', w', la, (d :: aa), ca.
      rewrite Hl, Ha, Hc, <- !app_assoc, Hd', Hd1. do 5 (split; [done|]).
      rewrite Hd1, Hf in Hadd. split; [done|]. split; [done|]. done.
    + exists acc', w', la, aa, (d :: ca).
      rewrite Hl, Ha, Hc, <- !app_assoc, Hd', Hd1. do 5 (split; [done|]).
      rewrite Hd1, Hf in Hadd. split; [done|]. split; [done|].
      intros d' [->|Hin]%elem_of_cons Hex'; [congruence|].
      apply (Hfound d' Hin). unfold Fs.exists_ in *. by rewrite Hf, Hd1.
    + exists acc', w', (d :: la), aa, ca.
      rewrite Hl, Ha, Hc, <- !app_assoc, Hd', Hd1. do 5 (split; [done|]).
      apply not_exists in Hex as [Hnone Hnd].
      rewrite Hd1, Hf in Hadd. split; [by constructor|]. split.
      * intros d' [->|Hin]%elem_of_cons; [|by apply Hla].
        apply Hloc, list_elem_of_here.
      * intros d' [->|Hin]%elem_of_cons Hex'.
        { exfalso. assert (Fs.exists_ w (lock_path d) = false) by (by apply not_exists).
          congruence. }
        apply (Hfound d' Hin). unfold Fs.exists_ in *. rewrite Hf, Hd1.
        apply orb_true_iff in Hex' as [Hfile|Hdir]; apply orb_true_iff; [left|by right].
        apply bool_decide_eq_true in Hfile. apply bool_decide_eq_true.
        destruct (decide (lock_path d = lock_path d')) as [->|Hne].
        -- rewrite lookup_insert_eq. eauto.
        -- by rewrite lookup_insert_ne.
Qed.
Lemma dir_abort_local d (w : World R) v :
  connection_mode d = None ->
  files w !! lock_path d = Some v ->
  lock_path d ∉ dirs w ->
  exists w',
    Dir.abort ftp d w = (Val tt, w') /\
    files w' = delete (lock_path d) (files w) /\ dirs w' = dirs w.
Proof.
  intros Hmode Hfile Hdir.
  unfold Dir.abort. rewrite Hmode. unfold bind at 1, emit. unfold bind at 1.
  rewrite delete_file_unfold. cbn zeta.
  unfold Dir._check_file_exists, Dir.mode_falsy. rewrite Hmode.
  unfold Fs.path_exists, bind, ret, Fs.remove. fold (lock_path d).
  cbn. rewrite !exists_add_log, (exists_file w _ _ Hfile). cbn.
  rewrite (bool_decide_eq_false_2 _ Hdir), Hfile. cbn.
  eexists. split; [done|]. done.
Qed.

(** aborting the targets this run locked removes the markers it wrote *)
Lemma abort_all_local locked f (w : World R) :
  locks_added (dirs w) f locked (files w) ->
  (forall d, d ∈ locked -> connection_mode d = None) ->
  exists w',
    for_each locked (Dir.abort ftp) w = (Val tt, w') /\
    files w' = f /\ dirs w' = dirs w.
Proof.
  revert f w. induction locked as [|d locked IH]; intros f w Hadd Hloc.
  - inversion Hadd; subst. by exists w.
  - inversion Hadd as [|? ? ? Hnone Hdir Hrest]; subst.
    assert (files w !! lock_path d = Some "locked") as Hfile.
    { eapply locks_added_lookup; [exact Hrest|]. by rewrite lookup_insert_eq. }
    destruct (dir_abort_local d w _ (Hloc d (list_elem_of_here _ _)) Hfile Hdir)
      as (w1 & Hab & Hf1 & Hd1).
    destruct (IH f w1) as (w' & Hrun & Hf' & Hd').
    { rewrite Hd1, Hf1.
      rewrite <- (delete_insert_id f (lock_path d) "locked") at 1 by done.
      eapply locks_added_delete; [exact Hrest|]. by rewrite lookup_insert_eq. }
    { intros d' Hd'. apply Hloc. by apply list_elem_of_further. }
    exists w'. cbn [for_each]. rewrite (bind_val _ _ _ _ _ Hab).
    split; [done|]. split; [done|]. congruence.
Qed.

(** On the local transport a target found locked makes the lock phase give
    up and leaves the file system as it was. *)
Lemma lock_dirs_local_rollback config (w : World R) d0 :
  (forall d, d ∈ cfg_dirs config -> connection_mode d = None) ->
  d0 ∈ cfg_dirs config ->
  Fs.exists_ w (lock_path d0) = true ->
  exists w',
    lock_dirs ftp config w = (Val None, w') /\
    files w' = files w /\ dirs w' = dirs w.
Proof.
  intros Hloc Hd0 Hex. unfold lock_dirs.
  destruct (local_lock_loop (cfg_dirs config) (MkLockLists [] [] []) w Hloc)
    as (acc & w1 & la & aa & ca & Hloop & Hd1 & Hl & Ha & Hc & Hadd & Hla & Hfound).
  cbn in Hl, Ha, Hc. rewrite (bind_val _ _ _ _ _ Hloop).
  assert ((0 <? length (already_locked_dirs acc))%nat = true) as ->.
  { rewrite Ha. specialize (Hfound d0 Hd0 Hex). destruct aa; [done|]. done. }
  rewrite Hl. rewrite <- Hd1 in Hadd.
  destruct (abort_all_local la (files w) w1 Hadd Hla) as (w2 & Hab & Hf2 & Hd2).
  unfold abort. unfold bind. rewrite Hab. cbn.
  eexists. split; [done|]. cbn. split; [done|]. congruence.
Qed.

Lemma parse_args_pure args acc (w : World R) :
  snd (for_fold args acc parse_arg w) = w.
Proof.
  revert acc. induction args as [|a args IH]; intros acc; cbn [for_fold]; [done|].
  unfold bind, parse_arg. destruct (PyStr.first_char a) as [c|]; [|done].
  destruct (String.eqb c "-"); cbn; apply IH.
Qed.

(** the run of such a configuration ends without a deploy and without a
    trace in the local file system *)
Lemma main_local_locked_target args j config (w : World R) d0 :
  Config_Details j = Val config ->
  (forall d, d ∈ cfg_dirs config -> connection_mode d = None) ->
  d0 ∈ cfg_dirs config ->
  Fs.exists_ w (lock_path d0) = true ->
  exists x w' evs,
    main ftp git args (Val j) w = (Exc x, w') /\
    files w' = files w /\ dirs w' = dirs w /\
    log w' = log w ++ evs /\
    Forall (fun e => is_deploy_call e = false) evs.
Proof.
  intros Hconf Hloc Hd0 Hex. unfold main. unfold bind at 1.
  pose proof (parse_args_pure args ([], None) w) as Hp.
  destruct (for_fold args ([], None) parse_arg w) as [[parsed|x] w0];
    cbn [snd] in Hp; subst w0.
  2:{ exists x, w, []. rewrite app_nil_r. done. }
  unfold bind at 1, try_except, lift_outcome. cbn. rewrite Hconf. cbn.
  destruct (lock_dirs_local_rollback config w d0 Hloc Hd0 Hex) as (w' & Hlock & Hf & Hd).
  rewrite (bind_val _ _ _ _ _ Hlock).
  destruct (lock_dirs_emits ftp config w) as (evs & Hlog & Hfp).
  rewrite Hlock in Hlog. cbn [snd] in Hlog.
  exists SystemExit, w', evs. do 4 (split; [done|]).
  eapply Forall_impl; [exact Hfp|]. intros [? []| | | | | | | | |]; done.
Qed.
End LocalLocking.
(** ** The main program *)

(** the first event of a kind splits a log in one way only *)
Lemma first_split_unique (P : Event -> bool) l1 x l2 l1' x' l2' :
  l1 ++ x :: l2 = l1' ++ x' :: l2' ->
  Forall (fun e => P e = false) l1 -> Forall (fun e => P e = false) l1' ->
  P x = true -> P x' = true ->
  l1 = l1' /\ x = x' /\ l2 = l2'.
Proof.
  revert l1'. induction l1 as [|a l1 IH]; intros [|a' l1'] Heq H1 H1' Hx Hx'; cbn in Heq.
  - by injection Heq as -> ->.
  - injection Heq as -> _. apply Forall_cons in H1' as [Ha _]. congruence.
  - injection Heq as -> _. apply Forall_cons in H1 as [Ha _]. congruence.
  - injection Heq as -> Heq. apply Forall_cons in H1 as [_ H1].
    apply Forall_cons in H1' as [_ H1'].
    destruct (IH _ Heq H1 H1' Hx Hx') as (-> & -> & ->). done.
Qed.

Lemma no_event_of_kind (P : Event -> bool) (l evs l1 l2 : list Event) x :
  l ++ evs = l ++ l1 ++ x :: l2 ->
  Forall (fun e => P e = false) evs -> P x = true -> False.
Proof.
  intros ->%app_inv_head Hall Hx.
  apply Forall_app in Hall as [_ Hall]. apply Forall_cons in Hall as [Hx' _]. congruence.
Qed.

Section Main.
Context {R : Type}.
Variable ftp : FtpLib R.
Variable git : GitLib.

Lemma emits_nothing {A} (m : M R A) w :
  emits (fun _ => false) m -> log (snd (m w)) = log w.
Proof.
  intros Hm. destruct (Hm w) as (evs & -> & Hall).
  destruct Hall as [|e evs He _]; [by rewrite app_nil_r | done].
Qed.

Lemma parse_args_emits args acc :
  emits (R:=R) (fun _ => false) (for_fold args acc parse_arg).
Proof. unfold parse_arg. repeat emits_step. Qed.

Lemma deploy_one_emits commit config d :
  emits in_deploy (deploy_one ftp git commit config d).
Proof.
  unfold deploy_one. emits_step; [apply deploy_emits|]. repeat emits_step.
Qed.

Lemma deploy_phase_emits commit config :
  emits in_deploy (deploy_phase ftp git commit config).
Proof.
  unfold deploy_phase. emits_step; [|emits_step].
  emits_step. apply deploy_one_emits.
Qed.

Lemma validate_phase_emits flags config locked repo :
  emits in_validation (validate_phase ftp git flags config locked repo).
Proof.
  unfold validate_phase, exit. emits_step; [|emits_step].
  emits_step; [apply check_dirs_configured_emits|]. repeat emits_step.
Qed.

Lemma resolved_phase_emits flags config locked repo commit :
  emits (fun _ => true) (resolved_phase ftp git flags config locked repo commit).
Proof.
  unfold resolved_phase. emits_step.
  { emits_step; [|emits_step]. emits_step; [|emits_step].
    eapply emits_weaken; [|apply abort_emits]. done. }
  emits_step.
  - eapply emits_weaken; [|apply validate_phase_emits]. done.
  - eapply emits_weaken; [|apply deploy_phase_emits]. done.
Qed.

Lemma starts_with_emit {A} e (m : M R A) :
  emits (fun _ => true) m -> starts_with e (emit e ;; m).
Proof.
  intros Hm w. destruct (emits_after_emit _ e m Hm w) as (evs & Hlog & _). eauto.
Qed.

Lemma starts_with_bind {A B} e (m : M R A) (k : A -> M R B) :
  starts_with e m -> (forall a, emits (fun _ => true) (k a)) -> starts_with e (bind m k).
Proof.
  intros Hm Hk w. unfold bind. destruct (Hm w) as (evs & Hlog).
  destruct (m w) as [[a|x] w1]; cbn in *; [|eauto].
  destruct (Hk a w1) as (evs' & Hlog' & _).
  exists (evs ++ evs'). rewrite Hlog', Hlog. by rewrite <- app_assoc.
Qed.

Lemma abort_starts d0 rest msg :
  starts_with (EvCall (oid d0) MAbort) (abort ftp (d0 :: rest) msg).
Proof.
  unfold abort. apply starts_with_bind; [|intros; repeat emits_step].
  cbn [for_each]. apply starts_with_bind.
  - unfold Dir.abort. apply starts_with_emit. emits_step.
    + eapply emits_weaken; [|apply delete_file_emits]. done.
    + repeat emits_step.
  - intros _. emits_step. eapply emits_weaken; [|apply dir_abort_emits]. done.
Qed.
Lemma abort_then_exit ds msg (w : World R) :
  exists x w',
    (abort ftp ds msg ;; exit : M R unit) w = (Exc x, w') /\
    exists evs, log w' = log w ++ evs /\
                Forall (fun e => in_lock_phase e = true) evs.
Proof.
  destruct (abort_emits ftp ds msg w) as (evs & Hlog & Hfp).
  unfold bind, exit, raise.
  destruct (abort ftp ds msg w) as [[b|x] w1]; cbn [snd] in Hlog; eauto 10.
Qed.

(** a lock phase that returns a list locked every configured target *)
Lemma lock_dirs_some config l (w w' : World R) :
  lock_dirs ftp config w = (Val (Some l), w') ->
  l = cfg_dirs config /\
  exists evs,
    log w' = log w ++ evs /\
    Forall (fun e => in_lock_phase e = true) evs /\
    forall d, d ∈ cfg_dirs config ->
      EvCall (oid d) MLock ∈ evs /\
      (connection_mode d = None -> EvFsWrite (lock_path d) ∈ evs).
Proof.
  intros Hrun.
  destruct (lock_dirs_emits ftp config w) as (evs & Hlog & Hfp).
  rewrite Hrun in Hlog. cbn [snd] in Hlog.
  unfold lock_dirs in Hrun.
  apply bind_inv_val in Hrun as (acc & w1 & Hloop & Hrun).
  destruct (lock_loop_cases ftp _ _ _ _ _ Hloop)
    as (la & aa & ca & evs1 & Hl & Ha & Hc & Hlog1 & Hall).
  cbn in Hl, Ha, Hc.
  destruct (0 <? length (already_locked_dirs acc))%nat eqn:Hna.
  { apply bind_inv_val in Hrun as (? & ? & _ & [=]). }
  destruct (0 <? length (cannot_lock acc))%nat eqn:Hnc.
  { apply bind_inv_val in Hrun as (? & ? & _ & [=]). }
  injection Hrun as <- <-.
  assert (aa = []) as Haa.
  { rewrite Ha in Hna. destruct aa; [done|]. cbn in Hna. done. }
  assert (ca = []) as Hca.
  { rewrite Hc in Hnc. destruct ca; [done|]. cbn in Hnc. done. }
  destruct (Hall Haa Hca) as [-> Hds]. split; [done|].
  exists evs. split; [done|]. split; [done|].
  rewrite Hlog1 in Hlog. apply app_inv_head in Hlog as <-. done.
Qed.

(** The revision is resolved after the lock phase: what a run that
    resolves the revision to deploy has logged before, and how it goes on
    when the resolution returns something that is not a commit. *)
Lemma resolution_after_lock_calls args conf (w : World R) l1 rev l2 :
  log (snd (main ftp git args conf w)) = log w ++ l1 ++ EvResolve rev :: l2 ->
  Forall (fun e => is_resolve e = false) l1 ->
  exists j config,
    conf = Val j /\ Config_Details j = Val config /\
    cfg_dirs config <> [] /\
    (forall d, d ∈ cfg_dirs config ->
       EvCall (oid d) MLock ∈ l1 /\
       (connection_mode d = None -> EvFsWrite (lock_path d) ∈ l1)) /\
    (forall repo c,
       git_Repo git (cfg_path config) = Val repo ->
       match rev with
       | Some r => git_commit git repo r
       | None => git_head_commit git repo
       end = Val c ->
       class_is_Commit c = false ->
       exists d0 l3, head (cfg_dirs config) = Some d0 /\
                     l2 = EvCall (oid d0) MAbort :: l3).
Proof.
  intros Hlog Hfirst. unfold main in Hlog. unfold bind at 1 in Hlog.
  pose proof (emits_nothing _ w (parse_args_emits args ([], None))) as Hp.
  destruct (for_fold args ([], None) parse_arg w) as [[[flags commit_id]|x] w0];
    cbn [fst snd] in *.
  2:{ exfalso. rewrite Hp in Hlog. rewrite <- (app_nil_r (log w)) in Hlog at 1.
      eapply (no_event_of_kind is_resolve); eauto. }
  unfold bind at 1 in Hlog. unfold try_except in Hlog.
  destruct conf as [j|x]; cbn in Hlog.
  2:{ exfalso. destruct (is_IOError x); cbn in Hlog;
        rewrite Hp in Hlog; rewrite <- (app_nil_r (log w)) in Hlog at 1;
        eapply (no_event_of_kind is_resolve); eauto. }
  destruct (Config_Details j) as [config|x] eqn:Hconf; cbn in Hlog.
  2:{ exfalso. destruct (is_IOError x); cbn in Hlog;
        rewrite Hp in Hlog; rewrite <- (app_nil_r (log w)) in Hlog at 1;
        eapply (no_event_of_kind is_resolve); eauto. }
  exists j, config. split; [done|]. split; [done|].
  unfold bind at 1 in Hlog.
  destruct (lock_dirs_emits ftp config w0) as (evs1 & Hl1 & Hfp1).
  rewrite Hp in Hl1.
  assert (Forall (fun e => is_resolve e = false) evs1) as Hnr1.
  { eapply Forall_impl; [exact Hfp1|]. intros [? []| | | | | | | | |]; done. }
  destruct (lock_dirs ftp config w0) as [[[[|d0 rest]|]|x] w1] eqn:Hlock;
    cbn [fst snd] in *;
    try (exfalso; unfold exit, raise in Hlog; cbn [snd] in Hlog; rewrite Hl1 in Hlog;
         eapply (no_event_of_kind is_resolve); eauto; fail).
  destruct (lock_dirs_some _ _ _ _ Hlock) as (Hdirs & evs1' & Hl1' & _ & Hlocks).
  rewrite Hp, Hl1 in Hl1'. apply app_inv_head in Hl1' as <-.
  unfold locked_phase in Hlog. unfold bind at 1, emit in Hlog.
  unfold bind at 1 in Hlog. unfold lift_outcome at 1 in Hlog.
  destruct (git_Repo git (cfg_path config)) as [repo|x] eqn:Hrepo.
  2:{ exfalso. cbn in Hlog. rewrite Hl1, <- app_assoc in Hlog.
      eapply (no_event_of_kind is_resolve); [exact Hlog| |done].
      apply Forall_app. split; [done|]. by repeat constructor. }
  unfold bind at 1 in Hlog.
  destruct (class_is_Repo repo) eqn:Hcls; cbn [negb] in Hlog; cbv iota in Hlog.
  2:{ exfalso.
      destruct (abort_then_exit (d0 :: rest)
                  ("No repository found at " +:+ cfg_path config +:+ newline +:+ "Aborting.")
                  (add_log (EvRepo (cfg_path config)) w1))
        as (x & w2 & Hab & evs2 & Hl2 & Hfp2).
      rewrite Hab in Hlog. cbn [snd] in Hlog. rewrite Hl2 in Hlog. cbn in Hlog.
      rewrite Hl1, <- !app_assoc in Hlog.
      eapply (no_event_of_kind is_resolve); [exact Hlog| |done].
      apply Forall_app. split; [done|]. constructor; [done|].
      eapply Forall_impl; [exact Hfp2|]. intros [? []| | | | | | | | |]; done. }
  unfold ret at 1 in Hlog. cbv beta iota in Hlog.
  unfold bind at 1, emit in Hlog. cbv beta iota in Hlog.
  set (w3 := add_log (EvResolve commit_id) (add_log (EvRepo (cfg_path config)) w1)) in *.
  assert (log w3 = log w ++ (evs1 ++ [EvRepo (cfg_path config)]) ++ [EvResolve commit_id])
    as Hl3.
  { unfold w3. cbn. rewrite Hl1. by rewrite <- !app_assoc. }
  set (tail := (commit <- match commit_id with
                          | Some r => lift_outcome (git_commit git repo r)
                          | None => lift_outcome (git_head_commit git repo)
                          end ;;
                resolved_phase ftp git flags config (d0 :: rest) repo commit) : M R unit) in *.
  assert (emits (fun _ => true) tail) as Htail.
  { unfold tail. emits_step; [repeat emits_step|]. apply resolved_phase_emits. }
  destruct (Htail w3) as (evs4 & Hl4 & _).
  rewrite Hl4, Hl3 in Hlog. rewrite <- !app_assoc in Hlog.
  apply app_inv_head in Hlog. cbn in Hlog.
  change (evs1 ++ EvRepo (cfg_path config) :: EvResolve commit_id :: evs4)
    with (evs1 ++ [EvRepo (cfg_path config)] ++ EvResolve commit_id :: evs4) in Hlog.
  rewrite app_assoc in Hlog.
  apply (first_split_unique is_resolve) in Hlog as (<- & [= <-] & <-); try done.
  2:{ apply Forall_app. split; [done|]. by repeat constructor. }
  split; [by rewrite <- Hdirs|]. split.
  - intros d Hd. destruct (Hlocks d Hd) as [Hin Hfs]. rewrite elem_of_app. split; [auto|].
    intros Hm. rewrite elem_of_app. auto.
  - intros repo' c Hrepo' Hres Hnc. assert (repo' = repo) as -> by congruence.
    exists d0. rewrite <- Hdirs. cbn [head].
    assert (starts_with (EvCall (oid d0) MAbort)
              (resolved_phase ftp git flags config (d0 :: rest) repo c)) as Hst.
    { unfold resolved_phase. rewrite Hnc. cbn [negb].
      apply starts_with_bind.
      - apply starts_with_bind; [apply abort_starts | intros; emits_step].
      - intros _. emits_step.
        + eapply emits_weaken; [|apply validate_phase_emits]. done.
        + eapply emits_weaken; [|apply deploy_phase_emits]. done. }
    destruct (Hst w3) as (l3 & Hl5).
    assert (tail w3 = resolved_phase ftp git flags config (d0 :: rest) repo c w3) as Ht.
    { unfold tail, bind, lift_outcome. destruct commit_id; by rewrite Hres. }
    rewrite Ht, Hl5 in Hl4. apply app_inv_head in Hl4 as <-. eauto.
Qed.
End Main.
(** ** The phases of a run *)

Section Phases.
Context {R : Type}.
Variable ftp : FtpLib R.
Variable git : GitLib.

Lemma connect_supported d (w w' : World R) :
  Dir.connect ftp d w = (Val tt, w') -> supported d.
Proof.
  unfold Dir.connect, supported, Dir.mode_is_FTP.
  destruct (connection_mode d) as [m|]; [|by left].
  destruct (String.eqb m "FTP"); [by right|].
  intros Hrun. apply bind_inv_val in Hrun as (? & ? & _ & [=]).
Qed.

Lemma lock_one_supported acc d (w w' : World R) acc' :
  lock_one ftp acc d w = (Val acc', w') ->
  cannot_lock acc' = cannot_lock acc -> supported d.
Proof.
  unfold lock_one. intros Hrun Hsame.
  apply bind_inv_val in Hrun as (connected & w1 & Hconn & Hrun).
  destruct connected; cbn [negb] in Hrun; cbv iota in Hrun.
  - unfold try_except in Hconn.
    destruct ((Dir.connect ftp d ;; ret true) w) as [[b|x] w2] eqn:Hc.
    + apply bind_inv_val in Hc as ([] & w3 & Hc & _). eapply connect_supported, Hc.
    + destruct (is_Exception x); [|done]. unfold bind, print, ret in Hconn. done.
  - injection Hrun as <- _. cbn in Hsame.
    apply (f_equal length) in Hsame. rewrite length_app in Hsame. cbn in Hsame. lia.
Qed.

Lemma lock_loop_supported ds acc (w w' : World R) acc' :
  for_fold ds acc (lock_one ftp) w = (Val acc', w') ->
  cannot_lock acc' = cannot_lock acc ->
  forall d, d ∈ ds -> supported d.
Proof.
  revert acc w. induction ds as [|d ds IH]; intros acc w Hrun Hsame d' Hd'.
  - by apply elem_of_nil in Hd'.
  - cbn [for_fold] in Hrun.
    apply bind_inv_val in Hrun as (acc1 & w1 & Hone & Hrest).
    destruct (lock_loop_cases ftp _ _ _ _ _ Hrest) as (la & aa & ca & evs & _ & _ & Hc & _).
    destruct (lock_one_cases ftp _ _ _ _ _ Hone) as [[E _]|[[E _]|[E _]]];
      subst acc1; cbn in Hc.
    + apply elem_of_cons in Hd' as [->|Hd'].
      * eapply lock_one_supported; [exact Hone|done].
      * eapply (IH _ _ Hrest); [|done]. rewrite Hc in Hsame |- *.
        cbn. rewrite <- (app_nil_r (cannot_lock acc)) in Hsame at 2.
        apply app_inv_head in Hsame as ->. by rewrite app_nil_r.
    + apply elem_of_cons in Hd' as [->|Hd'].
      * eapply lock_one_supported; [exact Hone|done].
      * eapply (IH _ _ Hrest); [|done]. rewrite Hc in Hsame |- *.
        cbn. rewrite <- (app_nil_r (cannot_lock acc)) in Hsame at 2.
        apply app_inv_head in Hsame as ->. by rewrite app_nil_r.
    + exfalso. rewrite Hc, <- app_assoc in Hsame.
      rewrite <- (app_nil_r (cannot_lock acc)) in Hsame at 2.
      apply app_inv_head in Hsame. done.
Qed.

(** a lock phase that returns a list connected to every configured target *)
Lemma lock_dirs_supported config l (w w' : World R) :
  lock_dirs ftp config w = (Val (Some l), w') ->
  forall d, d ∈ cfg_dirs config -> supported d.
Proof.
  unfold lock_dirs. intros Hrun.
  apply bind_inv_val in Hrun as (acc & w1 & Hloop & Hrun).
  destruct (0 <? length (already_locked_dirs acc))%nat.
  { apply bind_inv_val in Hrun as (? & ? & _ & [=]). }
  destruct (0 <? length (cannot_lock acc))%nat eqn:Hnc.
  { apply bind_inv_val in Hrun as (? & ? & _ & [=]). }
  eapply lock_loop_supported; [exact Hloop|]. cbn.
  destruct (cannot_lock acc); [done|]. cbn in Hnc. done.
Qed.

(** A run either stops before it resolves the revision, with nothing but
    the lock phase and its abort behind it, or has locked every configured
    target and goes on from the resolution. *)
Lemma main_cases args conf (w : World R) :
  (exists x w' evs,
     main ftp git args conf w = (Exc x, w') /\
     log w' = log w ++ evs /\
     Forall (fun e => before_resolution e = true) evs /\
     commit_attr w' = commit_attr w) \/
  (exists flags commit_id j config w1 evs1 repo,
     for_fold args ([], None) parse_arg w = (Val (flags, commit_id), w) /\
     conf = Val j /\ Config_Details j = Val config /\
     lock_dirs ftp config w = (Val (Some (cfg_dirs config)), w1) /\
     cfg_dirs config <> [] /\
     log w1 = log w ++ evs1 /\
     Forall (fun e => in_lock_phase e = true) evs1 /\
     commit_attr w1 = commit_attr w /\
     git_Repo git (cfg_path config) = Val repo /\
     main ftp git args conf w =
       resolve_and_run ftp git flags commit_id config repo
         (add_log (EvResolve commit_id) (add_log (EvRepo (cfg_path config)) w1))).
Proof.
  remember (main ftp git args conf w) as r eqn:Hr.
  unfold main in Hr. unfold bind at 1 in Hr.
  pose proof (parse_args_pure args ([], None) w) as Hp.
  destruct (for_fold args ([], None) parse_arg w) as [[[flags commit_id]|x] w0] eqn:Hparse;
    cbn [fst snd] in *; subst w0.
  2:{ left. exists x, w, []. rewrite app_nil_r. done. }
  unfold bind at 1, try_except in Hr.
  destruct conf as [j|x]; cbn in Hr.
  2:{ left. destruct (is_IOError x); cbn in Hr; subst r;
        eexists _, _, []; rewrite app_nil_r; done. }
  destruct (Config_Details j) as [config|x] eqn:Hconf; cbn in Hr.
  2:{ left. destruct (is_IOError x); cbn in Hr; subst r;
        eexists _, _, []; rewrite app_nil_r; done. }
  unfold bind at 1 in Hr.
  destruct (lock_dirs_emits ftp config w) as (evs1 & Hl1 & Hfp1).
  pose proof (lock_dirs_keeps_commit ftp config w) as Hk1.
  assert (Forall (fun e => before_resolution e = true) evs1) as Hbr1.
  { eapply Forall_impl; [exact Hfp1|]. emits_incl. }
  destruct (lock_dirs ftp config w) as [[[[|d0 rest]|]|x] w1] eqn:Hlock;
    cbn [fst snd] in *;
    try (left; unfold exit, raise in Hr; subst r; eexists _, _, evs1; done).
  destruct (lock_dirs_some ftp _ _ _ _ Hlock) as (Hdirs & _).
  unfold locked_phase in Hr. unfold bind at 1, emit in Hr. unfold bind at 1 in Hr.
  unfold lift_outcome at 1 in Hr.
  destruct (git_Repo git (cfg_path config)) as [repo|x] eqn:Hrepo.
  2:{ left. subst r. exists x, (add_log (EvRepo (cfg_path config)) w1),
               (evs1 ++ [EvRepo (cfg_path config)]).
      split; [done|]. cbn. rewrite Hl1, <- app_assoc. split; [done|]. split; [|done].
      apply Forall_app. split; [done|]. by repeat constructor. }
  unfold bind at 1 in Hr.
  destruct (class_is_Repo repo) eqn:Hcls; cbn [negb] in Hr; cbv iota in Hr.
  2:{ left.
      destruct (abort_then_exit ftp (d0 :: rest)
                  ("No repository found at " +:+ cfg_path config +:+ newline +:+ "Aborting.")
                  (add_log (EvRepo (cfg_path config)) w1))
        as (x & w2 & Hab & evs2 & Hl2 & Hfp2).
      rewrite Hab in Hr. subst r.
      exists x, w2, (evs1 ++ [EvRepo (cfg_path config)] ++ evs2).
      split; [done|]. split; [|split].
      - rewrite Hl2. cbn. rewrite Hl1, <- !app_assoc. done.
      - apply Forall_app. split; [done|]. constructor; [done|].
        eapply Forall_impl; [exact Hfp2|]. emits_incl.
      - assert (keeps commit_attr (abort ftp (d0 :: rest)
                  ("No repository found at " +:+ cfg_path config +:+ newline +:+ "Aborting.")
                  ;; exit : M R unit)) as Hk.
        { keeps_step; [apply abort_keeps_commit | unfold exit; keeps_step]. }
        specialize (Hk (add_log (EvRepo (cfg_path config)) w1)).
        rewrite Hab in Hk. cbn in Hk. congruence. }
  right. exists flags, commit_id, j, config, w1, evs1, repo.
  unfold resolve_and_run. rewrite <- Hdirs. do 9 (split; [done|]).
  unfold ret at 1 in Hr. cbv beta iota in Hr. unfold bind at 1, emit in Hr.
  cbv beta iota in Hr. exact Hr.
Qed.
Lemma no_such_event (fp P : Event -> bool) (evs : list Event) :
  Forall (fun e => fp e = true) evs ->
  (forall e, fp e = true -> P e = false) ->
  Exists (fun e => P e = true) evs -> False.
Proof.
  intros Hall Hsub (e & Hin & He)%Exists_exists.
  rewrite Forall_forall in Hall. specialize (Hsub e (Hall e Hin)). congruence.
Qed.

(** deploy is called only in a run whose lock phase connected to every
    configured target *)
Lemma main_deploys_only_connected args conf (w : World R) evs :
  log (snd (main ftp git args conf w)) = log w ++ evs ->
  Exists (fun e => is_deploy_call e = true) evs ->
  exists j config,
    conf = Val j /\ Config_Details j = Val config /\
    forall d, d ∈ cfg_dirs config -> supported d.
Proof.
  intros Hlog Hdep.
  destruct (main_cases args conf w)
    as [(x & w' & evs' & Hrun & Hl & Hfp & _)|
        (flags & cid & j & config & w1 & evs1 & repo & _ & -> & Hconf & Hlock & _)].
  - exfalso. rewrite Hrun in Hlog. cbn [snd] in Hlog. rewrite Hl in Hlog.
    apply app_inv_head in Hlog as ->.
    eapply (no_such_event before_resolution is_deploy_call); [exact Hfp| |exact Hdep].
    emits_incl.
  - exists j, config. do 2 (split; [done|]). eapply lock_dirs_supported, Hlock.
Qed.

(** with "-h" nothing is validated and no [self.commit] is assigned *)
Lemma hard_resolved_phase flags config locked repo commit :
  existsb (String.eqb "h") flags = true ->
  keeps commit_attr (resolved_phase ftp git flags config locked repo commit) /\
  emits (fun e => negb (is_validate_call e))
        (resolved_phase ftp git flags config locked repo commit).
Proof.
  intros Hh. unfold resolved_phase, validate_phase. rewrite Hh. cbn [negb]. split.
  - keeps_step.
    { keeps_step; [|keeps_step]. keeps_step; [apply abort_keeps_commit|keeps_step]. }
    keeps_step; [keeps_step|apply deploy_phase_keeps_commit].
  - emits_step.
    { emits_step; [|emits_step]. emits_step; [|emits_step].
      eapply emits_weaken; [|apply abort_emits]. emits_incl. }
    emits_step; [emits_step|].
    eapply emits_weaken; [|apply deploy_phase_emits]. emits_incl.
Qed.

Lemma hard_run_never_validates args conf (w : World R) flags commit_id :
  fst (for_fold args ([], None) parse_arg w) = Val (flags, commit_id) ->
  existsb (String.eqb "h") flags = true ->
  commit_attr (snd (main ftp git args conf w)) = commit_attr w /\
  exists evs,
    log (snd (main ftp git args conf w)) = log w ++ evs /\
    Forall (fun e => is_validate_call e = false) evs.
Proof.
  intros Hparse Hh.
  destruct (main_cases args conf w)
    as [(x & w' & evs' & Hrun & Hl & Hfp & Hk)|
        (flags' & cid & j & config & w1 & evs1 & repo & Hp & _ & _ & _ & _ & Hl1 & Hfp1
           & Hk1 & _ & Hrun)].
  - rewrite Hrun. cbn [snd]. split; [done|]. exists evs'. split; [done|].
    eapply Forall_impl; [exact Hfp|]. emits_incl.
  - rewrite Hp in Hparse. injection Hparse as -> ->.
    rewrite Hrun. unfold resolve_and_run.
    set (w3 := add_log (EvResolve commit_id) (add_log (EvRepo (cfg_path config)) w1)).
    set (pick := match commit_id with
                 | Some rev => lift_outcome (git_commit git repo rev)
                 | None => lift_outcome (git_head_commit git repo)
                 end : M R PyObj).
    assert (keeps commit_attr pick) as Hkp by (unfold pick; repeat keeps_step).
    assert (emits (fun e => negb (is_validate_call e)) pick) as Hep
      by (unfold pick; repeat emits_step).
    split.
    + etrans; [|exact Hk1].
      apply (keeps_bind commit_attr pick _ Hkp
               (fun c => proj1 (hard_resolved_phase flags config (cfg_dirs config) repo c Hh)) w3).
    + destruct (emits_bind _ pick _ Hep
                  (fun c => proj2 (hard_resolved_phase flags config (cfg_dirs config) repo c Hh)) w3)
        as (evs' & Hl' & Hfp').
      exists (evs1 ++ [EvRepo (cfg_path config); EvResolve commit_id] ++ evs').
      split.
      * etrans; [exact Hl'|]. unfold w3. cbn. rewrite Hl1, <- !app_assoc. done.
      * apply Forall_app. split.
        { eapply Forall_impl; [exact Hfp1|]. emits_incl. }
        constructor; [done|]. constructor; [done|].
        eapply Forall_impl; [exact Hfp'|]. intros e He. cbn beta in He. by destruct (is_validate_call e).
Qed.

(** without "-h" deploy is called only after the check of the recorded
    commits has returned True *)
Lemma deploy_needs_validation flags config locked repo commit (w : World R) evs :
  existsb (String.eqb "h") flags = false ->
  log (snd (resolved_phase ftp git flags config locked repo commit w)) = log w ++ evs ->
  Exists (fun e => is_deploy_call e = true) evs ->
  exists w0 w1, check_dirs_configured ftp git config locked repo w0 = (Val true, w1).
Proof.
  intros Hh Hlog Hdep. unfold resolved_phase, validate_phase in Hlog.
  rewrite Hh in Hlog. cbn [negb] in Hlog.
  set (pre := (if negb (class_is_Commit commit)
               then abort ftp locked ("Invalid local commit for deploy" +:+ newline) ;; ret tt
               else ret tt) : M R unit) in *.
  assert (emits in_lock_phase pre) as Hpre.
  { unfold pre. emits_step; [|emits_step]. emits_step; [apply abort_emits|emits_step]. }
  unfold bind at 1 in Hlog. destruct (Hpre w) as (evs0 & Hl0 & Hfp0).
  destruct (pre w) as [[[]|x] w0]; cbn [snd] in *.
  2:{ exfalso. rewrite Hl0 in Hlog. apply app_inv_head in Hlog as ->.
      eapply (no_such_event in_lock_phase is_deploy_call); [exact Hfp0| |exact Hdep].
      emits_incl. }
  unfold bind at 1 in Hlog. unfold bind at 1 in Hlog.
  destruct (check_dirs_configured_emits ftp git config locked repo w0) as (evs1 & Hl1 & Hfp1).
  destruct (check_dirs_configured ftp git config locked repo w0) as [[[]|x] w1] eqn:Hchk;
    cbn [snd negb] in *.
  - eauto.
  - exfalso. unfold exit, raise in Hlog. cbn in Hlog.
    rewrite Hl1, Hl0, <- app_assoc in Hlog. apply app_inv_head in Hlog as <-.
    eapply (no_such_event (fun e => in_validation e) is_deploy_call);
      [| |exact Hdep].
    + apply Forall_app. split; [|done].
      eapply Forall_impl; [exact Hfp0|]. emits_incl.
    + emits_incl.
  - exfalso. cbn in Hlog.
    rewrite Hl1, Hl0, <- app_assoc in Hlog. apply app_inv_head in Hlog as <-.
    eapply (no_such_event (fun e => in_validation e) is_deploy_call);
      [| |exact Hdep].
    + apply Forall_app. split; [|done].
      eapply Forall_impl; [exact Hfp0|]. emits_incl.
    + emits_incl.
Qed.
End Phases.
(** ** The targets are locked when the revision is resolved *)

Section Resolution.
Context {R : Type}.
Variable ftp : FtpLib R.
Variable git : GitLib.

Lemma lock_one_locking acc d : emits in_locking (lock_one ftp acc d).
Proof.
  unfold lock_one, Dir.connect, Dir.check_locked, Dir._check_file_exists, Dir.lock,
    Dir.write_new_file, Dir.cwd_or_mkd.
  repeat emits_step.
Qed.

Lemma lock_one_remote_keeps_files acc d m :
  connection_mode d = Some m -> keeps files (lock_one ftp acc d).
Proof.
  intros Hm.
  unfold lock_one, Dir.connect, Dir.check_locked, Dir._check_file_exists, Dir.lock,
    Dir.write_new_file, Dir.cwd_or_mkd.
  rewrite Hm. repeat keeps_step.
Qed.

(** a lock that succeeded on a server had its store accepted *)
Lemma lock_true_store d (w w' : World R) :
  Dir.mode_is_FTP d = true ->
  Dir.lock ftp d w = (Val true, w') ->
  exists h evs,
    log w' = log w ++ evs /\
    EvFtp h (CStor ("STOR " +:+ LOCK_FILE) "locked") ∈ evs.
Proof.
  intros Hftp. unfold Dir.lock, bind at 1, emit, try_except.
  set (w1 := add_log (EvCall (oid d) MLock) w).
  destruct ((Dir.write_new_file ftp d LOCK_FILE "locked";; ret true) w1)
    as [[b|e] w2] eqn:Hw.
  - intros [= -> ->].
    apply bind_inv_val in Hw as ([] & w3 & Hwrite & [= <-]).
    destruct (write_new_file_ftp_run ftp d _ _ _ _ Hftp Hwrite)
      as (h & r1 & cmds & _ & _ & _ & _ & Hlog).
    exists h. eexists. split.
    + rewrite Hlog. unfold w1. cbn [log add_log]. rewrite <- !app_assoc. reflexivity.
    + rewrite !elem_of_app. right. right. right. apply list_elem_of_here.
  - destruct (is_IOError e); [|done]. unfold bind, print, ret. done.
Qed.

Lemma add_locked_neq acc d :
  add_already acc d <> add_locked acc d /\ add_cannot acc d <> add_locked acc d.
Proof.
  split; intros H; apply (f_equal (fun a => length (locked_dirs a))) in H;
    cbn in H; rewrite length_app in H; cbn in H; lia.
Qed.

(** one turn of the lock loop: no marker that is held is lost, and a
    target that joins the locked list holds its marker *)
Lemma lock_one_held acc d (w w' : World R) acc' :
  lock_one ftp acc d w = (Val acc', w') ->
  exists evs,
    log w' = log w ++ evs /\
    (forall k, files w !! k = Some "locked" -> files w' !! k = Some "locked") /\
    (acc' = add_locked acc d ->
     (connection_mode d = None -> files w' !! lock_path d = Some "locked") /\
     (Dir.mode_is_FTP d = true ->
      exists h, EvFtp h (CStor ("STOR " +:+ LOCK_FILE) "locked") ∈ evs)).
Proof.
  intros Hrun.
  destruct (lock_one_emits ftp acc d w) as (evs0 & Hlog0 & _).
  rewrite Hrun in Hlog0. cbn [snd] in Hlog0.
  exists evs0. split; [done|].
  destruct (connection_mode d) as [m|] eqn:Hm.
  - pose proof (lock_one_remote_keeps_files acc d m Hm w) as Hk.
    rewrite Hrun in Hk. cbn [snd] in Hk. rewrite Hk. split; [done|].
    intros ->. split; [done|]. intros Hftp.
    unfold lock_one in Hrun.
    apply bind_inv_val in Hrun as (connected & w1 & Hconn & Hrun).
    destruct connected; cbn [negb] in Hrun; cbv iota in Hrun.
    2:{ exfalso. apply (f_equal (fun r => match fst r with
                                        | Val a => length (locked_dirs a)
                                        | Exc _ => 0%nat
                                        end)) in Hrun. cbn in Hrun.
        rewrite length_app in Hrun. cbn in Hrun. lia. }
    apply bind_inv_val in Hrun as (is_locked & w2 & Hchk & Hrun).
    destruct is_locked.
    { exfalso. apply (f_equal (fun r => match fst r with
                                        | Val a => length (locked_dirs a)
                                        | Exc _ => 0%nat
                                        end)) in Hrun. cbn in Hrun.
      rewrite length_app in Hrun. cbn in Hrun. lia. }
    apply bind_inv_val in Hrun as (ok & w3 & Hlock & Hrun).
    destruct ok.
    2:{ exfalso. apply (f_equal (fun r => match fst r with
                                        | Val a => length (locked_dirs a)
                                        | Exc _ => 0%nat
                                        end)) in Hrun. cbn in Hrun.
        rewrite length_app in Hrun. cbn in Hrun. lia. }
    unfold ret in Hrun. apply (f_equal snd) in Hrun. cbn in Hrun. subst w'.
    destruct (lock_true_store d w2 w3 Hftp Hlock) as (h & evs3 & Hlog3 & Hin).
    assert (exists evs1, log w1 = log w ++ evs1) as [evs1 Hlog1].
    { assert (emits (fun _ => true) (try_except (Dir.connect ftp d ;; ret true) is_Exception
                (fun e => print (exn_message e) ;; ret false) : M R bool)) as Hem.
      { repeat emits_step. eapply emits_weaken; [|apply connect_emits]. done. }
      destruct (Hem w) as (evs1 & Hl & _). rewrite Hconn in Hl. by exists evs1. }
    destruct (check_locked_emits ftp d w1) as (evs2 & Hlog2 & _).
    rewrite Hchk in Hlog2. cbn [snd] in Hlog2.
    rewrite Hlog3, Hlog2, Hlog1, <- !app_assoc in Hlog0.
    apply app_inv_head in Hlog0 as <-.
    exists h. rewrite !elem_of_app. auto.
  - destruct (lock_one_local ftp acc d w Hm) as (acc1 & w1 & Hone & _ & Hcases).
    rewrite Hone in Hrun. injection Hrun as -> ->.
    destruct Hcases as [(_ & -> & Hf)|[(_ & -> & Hf)|(_ & -> & Hf)]]; rewrite Hf.
    + split; [done|]. intros Hacc. by destruct (add_locked_neq acc d) as [[] _].
    + split; [done|]. intros Hacc. by destruct (add_locked_neq acc d) as [_ []].
    + split.
      * intros k Hk. destruct (decide (k = lock_path d)) as [->|Hne].
        -- apply lookup_insert_eq.
        -- by rewrite lookup_insert_ne.
      * intros _. split; [intros _; apply lookup_insert_eq|].
        unfold Dir.mode_is_FTP. by rewrite Hm.
Qed.

Lemma same_list_app {X} (l l1 l2 : list X) : (l ++ l1) ++ l2 = l -> l1 = [] /\ l2 = [].
Proof.
  rewrite <- app_assoc. intros H. rewrite <- (app_nil_r l) in H at 2.
  apply app_inv_head in H. by apply app_eq_nil in H.
Qed.

(** the lock loop: when no target was found locked and none failed, every
    target holds its marker at the end *)
Lemma lock_loop_held ds acc (w w' : World R) acc' :
  for_fold ds acc (lock_one ftp) w = (Val acc', w') ->
  exists evs,
    log w' = log w ++ evs /\
    (forall k, files w !! k = Some "locked" -> files w' !! k = Some "locked") /\
    (already_locked_dirs acc' = already_locked_dirs acc ->
     cannot_lock acc' = cannot_lock acc ->
     forall d, d ∈ ds ->
       (connection_mode d = None -> files w' !! lock_path d = Some "locked") /\
       (Dir.mode_is_FTP d = true ->
        exists h, EvFtp h (CStor ("STOR " +:+ LOCK_FILE) "locked") ∈ evs)).
Proof.
  revert acc w. induction ds as [|d ds IH]; intros acc w; cbn [for_fold].
  - intros [= <- <-]. exists []. rewrite app_nil_r. split; [done|]. split; [done|].
    intros _ _ d Hd. by apply elem_of_nil in Hd.
  - intros Hrun. apply bind_inv_val in Hrun as (acc1 & w1 & Hone & Hrest).
    destruct (IH _ _ Hrest) as (evs & Hlog & Hmono & Hall).
    destruct (lock_one_held _ _ _ _ _ Hone) as (evs1 & Hlog1 & Hmono1 & Hheld).
    exists (evs1 ++ evs). split; [by rewrite Hlog, Hlog1, <- app_assoc|].
    split; [auto|]. intros Ha Hc.
    destruct (lock_loop_cases ftp _ _ _ _ _ Hrest)
      as (la & aa & ca & evs' & _ & Ha' & Hc' & _).
    destruct (lock_one_cases ftp _ _ _ _ _ Hone) as [[E _]|[[E _]|[E _]]]; subst acc1;
      cbn in Ha', Hc'.
    + assert (aa = []) as ->.
      { rewrite Ha' in Ha. rewrite <- (app_nil_r (already_locked_dirs acc)) in Ha at 2.
        by apply app_inv_head in Ha. }
      assert (ca = []) as ->.
      { rewrite Hc' in Hc. rewrite <- (app_nil_r (cannot_lock acc)) in Hc at 2.
        by apply app_inv_head in Hc. }
      rewrite app_nil_r in Ha', Hc'.
      destruct (Hheld eq_refl) as [Hfile Hstor].
      intros d' [->|Hd']%elem_of_cons.
      * split; [auto|]. intros Hftp. destruct (Hstor Hftp) as [h Hin].
        exists h. rewrite elem_of_app. auto.
      * destruct (Hall Ha' Hc' d' Hd') as [Hfile' Hstor']. split; [done|].
        intros Hftp. destruct (Hstor' Hftp) as [h Hin].
        exists h. rewrite elem_of_app. auto.
    + exfalso. rewrite Ha' in Ha. by apply same_list_app in Ha as [? _].
    + exfalso. rewrite Hc' in Hc. by apply same_list_app in Hc as [? _].
Qed.

(** a lock phase that returns a list has done nothing but lock, and
    leaves every configured target with its marker *)
Lemma lock_dirs_held config l (w w' : World R) :
  lock_dirs ftp config w = (Val (Some l), w') ->
  exists evs,
    log w' = log w ++ evs /\
    Forall (fun e => in_locking e = true) evs /\
    forall d, d ∈ cfg_dirs config ->
      (connection_mode d = None -> files w' !! lock_path d = Some "locked") /\
      (Dir.mode_is_FTP d = true ->
       exists h, EvFtp h (CStor ("STOR " +:+ LOCK_FILE) "locked") ∈ evs).
Proof.
  intros Hrun. unfold lock_dirs in Hrun.
  apply bind_inv_val in Hrun as (acc & w1 & Hloop & Hrun).
  destruct (0 <? length (already_locked_dirs acc))%nat eqn:Hna.
  { apply bind_inv_val in Hrun as (? & ? & _ & [=]). }
  destruct (0 <? length (cannot_lock acc))%nat eqn:Hnc.
  { apply bind_inv_val in Hrun as (? & ? & _ & [=]). }
  injection Hrun as _ <-.
  destruct (lock_loop_held _ _ _ _ _ Hloop) as (evs & Hlog & _ & Hall).
  exists evs. split; [done|]. split.
  - assert (emits in_locking (for_fold (cfg_dirs config) (MkLockLists [] [] [])
                                        (lock_one ftp) : M R LockLists)) as Hem
      by (emits_step; apply lock_one_locking).
    destruct (Hem w) as (evs' & Hlog' & Hfp). rewrite Hloop in Hlog'. cbn [snd] in Hlog'.
    rewrite Hlog in Hlog'. by apply app_inv_head in Hlog' as <-.
  - apply Hall; cbn.
    + destruct (already_locked_dirs acc); [done|]. cbn in Hna. done.
    + destruct (cannot_lock acc); [done|]. cbn in Hnc. done.
Qed.

Lemma in_locking_quiet (e : Event) :
  in_locking e = true -> is_removal e = false /\ is_abort_call e = false.
Proof. destruct e as [? []| | | | | | | | |? []]; done. Qed.

(** C3, as amended: the revision is resolved after the lock phase, while
    the targets are locked.  In a run that resolves the revision to
    deploy, every configured target has been locked before: [lock] was
    called on it and, on the local transport, its lock marker was
    written.  Up to the resolution the run has done nothing but lock and
    open the repository: it has called no [abort] and removed no file,
    locally or on a server.  The lock phase has returned every
    configured target, and in the world it left every local target holds
    its marker, with the contents "locked", and every target on a
    server has had the store of its marker accepted.  When the resolution
    raises, the run ends with that error in that very world, the two
    events of the repository and of the resolution added to its log: the
    markers stay.  When what the resolution returns is not a commit, the
    run goes on with the abort of the locked targets, the first
    configured target first. *)
Theorem resolution_follows_locking args conf (w : World R) l1 rev l2 :
  log (snd (main ftp git args conf w)) = log w ++ l1 ++ EvResolve rev :: l2 ->
  Forall (fun e => is_resolve e = false) l1 ->
  exists j config,
    conf = Val j /\ Config_Details j = Val config /\
    cfg_dirs config <> [] /\
    (forall d, d ∈ cfg_dirs config ->
       EvCall (oid d) MLock ∈ l1 /\
       (connection_mode d = None -> EvFsWrite (lock_path d) ∈ l1)) /\
    (forall repo c,
       git_Repo git (cfg_path config) = Val repo ->
       match rev with
       | Some r => git_commit git repo r
       | None => git_head_commit git repo
       end = Val c ->
       class_is_Commit c = false ->
       exists d0 l3, head (cfg_dirs config) = Some d0 /\
                     l2 = EvCall (oid d0) MAbort :: l3) /\
    Forall (fun e => is_removal e = false /\ is_abort_call e = false) l1 /\
    exists locking w1,
      l1 = locking ++ [EvRepo (cfg_path config)] /\
      Forall (fun e => in_locking e = true) locking /\
      lock_dirs ftp config w = (Val (Some (cfg_dirs config)), w1) /\
      log w1 = log w ++ locking /\
      (forall d, d ∈ cfg_dirs config ->
         (connection_mode d = None -> files w1 !! lock_path d = Some "locked") /\
         (Dir.mode_is_FTP d = true ->
          exists h, EvFtp h (CStor ("STOR " +:+ LOCK_FILE) "locked") ∈ locking)) /\
      (forall repo x,
         git_Repo git (cfg_path config) = Val repo ->
         match rev with
         | Some r => git_commit git repo r
         | None => git_head_commit git repo
         end = Exc x ->
         main ftp git args conf w =
           (Exc x, add_log (EvResolve rev) (add_log (EvRepo (cfg_path config)) w1))).
Proof.
  intros Hlog Hfirst.
  destruct (resolution_after_lock_calls ftp git args conf w l1 rev l2 Hlog Hfirst)
    as (j & config & Hconf & Hdetails & Hne & Hcalls & Habort).
  exists j, config. do 5 (split; [done|]).
  destruct (main_cases ftp git args conf w)
    as [(x & w' & evs' & Hrun & Hl & Hfp & _)|
        (flags & cid & j' & config' & w1 & evs1 & repo & _ & Hconf' & Hdetails' & Hlock
           & _ & Hl1 & _ & _ & Hrepo & Hrun)].
  { exfalso. rewrite Hrun in Hlog. cbn [snd] in Hlog. rewrite Hl in Hlog.
    eapply (no_event_of_kind is_resolve); [exact Hlog| |done].
    eapply Forall_impl; [exact Hfp|]. emits_incl. }
  assert (j' = j) as -> by congruence. assert (config' = config) as -> by congruence.
  destruct (lock_dirs_held _ _ _ _ Hlock) as (locking & Hl1' & Hfp & Hheld).
  rewrite Hl1 in Hl1'. apply app_inv_head in Hl1' as ->.
  set (w3 := add_log (EvResolve cid) (add_log (EvRepo (cfg_path config)) w1)) in *.
  assert (emits (fun _ => true) (resolve_and_run ftp git flags cid config repo)) as Htail.
  { unfold resolve_and_run. emits_step; [repeat emits_step|]. apply resolved_phase_emits. }
  destruct (Htail w3) as (evs4 & Hl4 & _).
  assert (l1 = locking ++ [EvRepo (cfg_path config)] /\ rev = cid) as [-> ->].
  { rewrite Hrun, Hl4 in Hlog. unfold w3 in Hlog. cbn [log add_log] in Hlog.
    rewrite Hl1, <- !app_assoc in Hlog. apply app_inv_head in Hlog. cbn in Hlog.
    change (locking ++ EvRepo (cfg_path config) :: EvResolve cid :: evs4)
      with (locking ++ [EvRepo (cfg_path config)] ++ EvResolve cid :: evs4) in Hlog.
    rewrite app_assoc in Hlog. symmetry in Hlog.
    apply (first_split_unique is_resolve) in Hlog as (-> & [= ->] & _); try done.
    apply Forall_app. split; [|by repeat constructor].
    eapply Forall_impl; [exact Hfp|]. intros e He.
    destruct e as [? []| | | | | | | | |? []]; done. }
  split.
  { apply Forall_app. split; [|by repeat constructor].
    eapply Forall_impl; [exact Hfp|]. apply in_locking_quiet. }
  exists locking, w1. do 5 (split; [done|]).
  intros repo' x Hrepo' Hres. assert (repo' = repo) as -> by congruence.
  rewrite Hrun. unfold resolve_and_run, bind, lift_outcome.
  destruct cid; by rewrite Hres.
Qed.
End Resolution.

(** ** The command line and the configuration *)

Section CommandLine.
Context {R : Type}.
Variable ftp : FtpLib R.
Variable git : GitLib.

Lemma flags_of_cons a args :
  flags_of (a :: args) =
    if is_flag a then PyStr.tail a :: flags_of args else flags_of args.
Proof. unfold flags_of. cbn [List.filter]. by destruct (is_flag a). Qed.

Lemma revision_of_cons a args :
  revision_of (a :: args) =
    from_option Some (if is_flag a then None else PyStr.first_char a)
                (revision_of args).
Proof.
  unfold revision_of. cbn [omap list_omap].
  destruct (is_flag a) eqn:E; [by destruct (last _)|].
  destruct (PyStr.first_char a) as [c|]; [|by destruct (last _)].
  rewrite last_cons. by destruct (last _).
Qed.

Lemma parse_args_from args fl rv (w : World R) :
  Forall (fun a => a <> "") args ->
  for_fold args (fl, rv) parse_arg w =
    (Val (fl ++ flags_of args,
          from_option Some rv (revision_of args)), w).
Proof.
  intros Hne. revert fl rv.
  induction Hne as [|a args Ha _ IH]; intros fl rv.
  - unfold flags_of, revision_of. cbn. unfold ret. by rewrite (app_nil_r fl).
  - cbn [for_fold]. unfold bind.
    rewrite flags_of_cons, revision_of_cons.
    destruct a as [|c a]; [done|].
    unfold parse_arg at 1, is_flag. cbn [PyStr.first_char fst snd PyStr.tail].
    destruct (String.eqb (String c "") "-") eqn:E; unfold ret; rewrite IH.
    + rewrite <- app_assoc. by destruct (revision_of args).
    + by destruct (revision_of args).
Qed.

Lemma parse_args_val args (w : World R) :
  Forall (fun a => a <> "") args ->
  for_fold args ([], None) parse_arg w = (Val (flags_of args, revision_of args), w).
Proof.
  intros Hne. rewrite parse_args_from by done. cbn [app]. by destruct (revision_of args).
Qed.

Lemma revision_one_char args r :
  revision_of args = Some r -> String.length r = 1.
Proof.
  unfold revision_of. intros H. apply last_Some_elem_of in H.
  apply list_elem_of_omap in H as (a & _ & Ha).
  destruct (is_flag a); [done|]. destruct a; [done|]. by injection Ha as <-.
Qed.

(** X1: the loop over the command line, in closed form.  When no
    argument is the empty string, the loop leaves the world alone and
    returns as flags the arguments that start with a dash, in order and
    without their dash, and as revision the first character of the last
    argument that does not start with a dash (None when there is none):
    a revision given on the command line is cut to one character. *)
Theorem parse_args_closed_form args (w : World R) :
  Forall (fun a => a <> "") args ->
  for_fold args ([], None) parse_arg w = (Val (flags_of args, revision_of args), w) /\
  (forall r, revision_of args = Some r -> String.length r = 1).
Proof.
  intros Hne. split; [by apply parse_args_val | apply revision_one_char].
Qed.

Lemma parse_args_empty_arg args acc (w : World R) :
  "" ∈ args -> for_fold args acc parse_arg w = (Exc IndexError, w).
Proof.
  revert acc. induction args as [|a args IH]; intros acc Hin.
  - by apply elem_of_nil in Hin.
  - cbn [for_fold]. unfold bind.
    destruct a as [|c a].
    + reflexivity.
    + apply elem_of_cons in Hin as [Hin|Hin]; [done|].
      unfold parse_arg at 1. cbn [PyStr.first_char].
      destruct (String.eqb _ _); unfold ret; by apply IH.
Qed.

(** X2: an empty command-line argument stops the run at once.  [arg[0]]
    raises IndexError on it, before the configuration is read: the run
    ends with that exception and the world is untouched, nothing is
    printed, locked or logged. *)
Theorem main_empty_argument args conf (w : World R) :
  "" ∈ args -> main ftp git args conf w = (Exc IndexError, w).
Proof.
  intros Hin. unfold main. apply bind_exc. by apply parse_args_empty_arg.
Qed.

(** X4: a configuration that cannot be read.  When opening or parsing
    the file raises IOError, or a key is missing, the run prints the
    message of the error and then the line about the configuration file
    and exits; it changes nothing else and logs no call.  An error of
    another class (the ValueError of a malformed JSON text) is not
    caught: the run ends with it and prints nothing. *)
Theorem main_config_error args conf (w : World R) :
  Forall (fun a => a <> "") args ->
  (forall msg,
     conf = Exc (IOError msg) \/
     (exists j, conf = Val j /\ Config_Details j = Exc (IOError msg)) ->
     main ftp git args conf w =
       (Exc SystemExit,
        add_out "Unable to read git_deply.config. Aborting." (add_out msg w))) /\
  (forall e, conf = Exc e -> is_IOError e = false ->
     main ftp git args conf w = (Exc e, w)).
Proof.
  intros Hne. pose proof (parse_args_val args w Hne) as Hparse.
  split.
  - intros msg Hconf. unfold main. rewrite (bind_val _ _ _ _ _ Hparse).
    unfold bind, try_except, lift_outcome, print, exit, raise.
    destruct Hconf as [->|(j & -> & ->)]; reflexivity.
  - intros e -> He. unfold main. rewrite (bind_val _ _ _ _ _ Hparse).
    unfold bind, try_except, lift_outcome.
    destruct e; try discriminate; reflexivity.
Qed.

(** X5: a configuration without targets.  With an empty list of targets
    [lock_dirs] returns the empty list, which is false in the test that
    follows: the run exits without a message, having opened no
    repository and changed nothing. *)
Theorem main_no_targets args j config (w : World R) :
  Forall (fun a => a <> "") args ->
  Config_Details j = Val config ->
  cfg_dirs config = [] ->
  main ftp git args (Val j) w = (Exc SystemExit, w).
Proof.
  intros Hne Hconf Hnil. pose proof (parse_args_val args w Hne) as Hparse.
  unfold main. rewrite (bind_val _ _ _ _ _ Hparse).
  unfold bind at 1. unfold try_except, bind at 1, lift_outcome. rewrite Hconf.
  unfold lock_dirs. rewrite Hnil. reflexivity.
Qed.
End CommandLine.

(** ** The configuration *)

Lemma imap_omap_targets (ts : list JTarget) (k : nat) :
  Forall (fun t => is_Some (jt_path t)) ts ->
  let ds := omap (fun '(i, t) =>
                    match jt_path t with
                    | Some p => Some (Directory_init i p (jt_mode t) (jt_auth t))
                    | None => None
                    end) (imap (fun i t => (k + i, t)) ts) in
  Forall2 (fun t d => jt_path t = Some (path d) /\
                      connection_mode d = PyStr.upper <$> jt_mode t) ts ds /\
  oid <$> ds = seq k (length ts).
Proof.
  intros Hall. revert k. induction Hall as [|t ts [p Hp] _ IH]; intros k; cbn zeta.
  - split; [constructor | reflexivity].
  - rewrite imap_cons. cbn [omap list_omap]. rewrite Hp.
    specialize (IH (S k)). cbn zeta in IH.
    rewrite (imap_ext _ (fun i t => (S k + i, t))) by (intros; cbn; f_equal; lia).
    destruct IH as [IH1 IH2]. split.
    + constructor; [|exact IH1]. by rewrite Nat.add_0_r.
    + cbn [fmap list_fmap length seq]. rewrite Nat.add_0_r. f_equal. exact IH2.
Qed.

Lemma no_path_errors (ts : list JTarget) :
  omap (fun t => match jt_path t with
                 | Some _ => None
                 | None => Some "path missing"
                 end) ts = [] ->
  Forall (fun t => is_Some (jt_path t)) ts.
Proof.
  induction ts as [|t ts IH]; [constructor|]. cbn.
  destruct (jt_path t) as [p|] eqn:E; cbn; [|done].
  intros H. constructor; [by eexists | by apply IH].
Qed.

Lemma some_path_error (ts : list JTarget) x l :
  omap (fun t => match jt_path t with
                 | Some _ => None
                 | None => Some "path missing"
                 end) ts = x :: l ->
  exists t, t ∈ ts /\ jt_path t = None.
Proof.
  intros H.
  assert (x ∈ omap (fun t => match jt_path t with
                 | Some _ => None
                 | None => Some "path missing"
                 end) ts) as Hin by (rewrite H; apply list_elem_of_here).
  apply list_elem_of_omap in Hin as (t & Ht & Hx).
  exists t. split; [done|]. by destruct (jt_path t).
Qed.

(** X3: what [Config_Details] accepts.  It returns a configuration
    exactly when the "path" and "targets" keys are there and every target
    has a "path": the targets then become the directories, one object
    each, in order, with their paths, and with their modes in upper case
    (so "ftp" and "FTP" name the same mode).  Otherwise it raises IOError,
    a single target without a path being enough. *)
Theorem Config_Details_cases (j : JConfig) :
  match Config_Details j with
  | Val config =>
      exists ts,
        j_path j = Some (cfg_path config) /\ j_targets j = Some ts /\
        Forall2 (fun t d => jt_path t = Some (path d) /\
                            connection_mode d = PyStr.upper <$> jt_mode t)
                ts (cfg_dirs config) /\
        NoDup (oid <$> cfg_dirs config)
  | Exc e =>
      is_IOError e = true /\
      (j_path j = None \/ j_targets j = None \/
       exists ts t, j_targets j = Some ts /\ t ∈ ts /\ jt_path t = None)
  end.
Proof.
  unfold Config_Details.
  destruct (j_path j) as [p|] eqn:Ep; destruct (j_targets j) as [ts|] eqn:Et;
    cbn [app]; try (split; [reflexivity | tauto]).
  - destruct (omap _ ts) as [|x l] eqn:Eerr.
    + apply no_path_errors in Eerr.
      destruct (imap_omap_targets ts 0 Eerr) as [H1 H2]. cbn zeta in *.
      exists ts. cbn [cfg_path cfg_dirs default from_option].
      repeat split; [exact H1|].
      change (imap pair ts) with (imap (fun i t => (0 + i, t)) ts).
      rewrite H2. apply NoDup_seq.
    + apply some_path_error in Eerr as (t & Ht & Hp).
      split; [reflexivity|]. right. right. by exists ts, t.
Qed.

(** ** The methods of Directory on the local transport *)

Lemma drop_last_snoc (s : string) (c : ascii) :
  PyStr.drop_last (s +:+ String c "") = s.
Proof.
  induction s as [|x s IH]; [done|].
  change (String x s +:+ String c "") with (String x (s +:+ String c "")).
  cbn [PyStr.drop_last]. rewrite IH.
  destruct s; reflexivity.
Qed.

Section LocalMethods.
Context {R : Type}.
Variable ftp : FtpLib R.
Variable git : GitLib.

(** X6: [lock] on a local target never raises.  It returns True after
    writing "locked" to the lock marker, and False, with no file
    changed, exactly when the marker cannot be created: its path is a
    directory, or the directory to hold it does not exist.  The
    directories are as before in both cases. *)
Theorem lock_local d (w : World R) :
  connection_mode d = None ->
  exists b w',
    Dir.lock ftp d w = (Val b, w') /\
    (b = false <-> lock_path d ∈ dirs w \/ Fs.parent_ok w (lock_path d) = false) /\
    files w' = (if b then <[lock_path d := "locked"]> (files w) else files w) /\
    dirs w' = dirs w.
Proof.
  intros Hmode. unfold Dir.lock, Dir.write_new_file. rewrite Hmode.
  unfold bind, try_except, emit, print, ret, Fs.open_w, Fs.write.
  cbn. fold (lock_path d). rewrite bad_name_lock_path. cbn [orb].
  change (Fs.parent_ok _ (lock_path d)) with (Fs.parent_ok w (lock_path d)).
  destruct (decide (lock_path d ∈ dirs w)) as [Hin|Hout].
  - rewrite (bool_decide_eq_true_2 _ Hin). cbn.
    eexists false, _. split; [done|]. cbn. split; [|done]. split; auto.
  - rewrite (bool_decide_eq_false_2 _ Hout). cbn.
    destruct (Fs.parent_ok w (lock_path d)) eqn:Hp; cbn.
    + eexists true, _. split; [done|]. cbn. rewrite insert_insert_eq.
      split; [|done]. split; [done|]. intros [?|?]; done.
    + eexists false, _. split; [done|]. cbn. split; [|done]. split; auto.
Qed.

(** X7: [abort] on a local target removes the lock marker and nothing
    else, whether or not the marker is there; a second [abort] changes
    nothing.  When the path of the marker is a directory, [os.remove]
    raises and [abort] ends with OSError. *)
Theorem dir_abort_local_marker d (w : World R) :
  connection_mode d = None ->
  (lock_path d ∉ dirs w ->
   exists w',
     Dir.abort ftp d w = (Val tt, w') /\
     files w' = delete (lock_path d) (files w) /\ dirs w' = dirs w /\
     files (snd (Dir.abort ftp d w')) = files w') /\
  (lock_path d ∈ dirs w -> fst (Dir.abort ftp d w) = Exc OSError).
Proof.
  intros Hmode.
  assert (forall w0 : World R, lock_path d ∉ dirs w0 ->
            exists w', Dir.abort ftp d w0 = (Val tt, w') /\
                       files w' = delete (lock_path d) (files w0) /\
                       dirs w' = dirs w0) as Hone.
  { intros w0 Hdir.
    unfold Dir.abort. rewrite Hmode. unfold bind at 1, emit. unfold bind at 1.
    rewrite delete_file_unfold. cbn zeta.
    unfold Dir._check_file_exists, Dir.mode_falsy. rewrite Hmode.
    unfold Fs.path_exists, bind, ret, Fs.remove. fold (lock_path d).
    cbn. rewrite !exists_add_log.
    destruct (Fs.exists_ w0 (lock_path d)) eqn:Hex; cbn.
    - rewrite (bool_decide_eq_false_2 _ Hdir).
      destruct (files w0 !! lock_path d) as [v|] eqn:Hfile.
      + eexists. split; [done|]. done.
      + exfalso. assert (Fs.exists_ w0 (lock_path d) = false) by (by apply not_exists).
        congruence.
    - apply not_exists in Hex as [Hnone _].
      eexists. split; [done|]. cbn. by rewrite delete_id. }
  split.
  - intros Hdir. destruct (Hone w Hdir) as (w' & Hab & Hf & Hd).
    exists w'. do 3 (split; [done|]).
    destruct (Hone w') as (w'' & Hab' & Hf' & _); [by rewrite Hd|].
    rewrite Hab'. cbn [snd]. rewrite Hf', Hf. by rewrite delete_delete_eq.
  - intros Hdir. unfold Dir.abort. rewrite Hmode. unfold bind at 1, emit. unfold bind at 1.
    rewrite delete_file_unfold. cbn zeta.
    unfold Dir._check_file_exists, Dir.mode_falsy. rewrite Hmode.
    unfold Fs.path_exists, bind, ret, Fs.remove. fold (lock_path d).
    cbn. rewrite !exists_add_log.
    assert (Fs.exists_ w (lock_path d) = true) as ->.
    { unfold Fs.exists_. rewrite (bool_decide_eq_true_2 (_ ∈ _) Hdir). apply orb_true_r. }
    cbn. by rewrite (bool_decide_eq_true_2 _ Hdir).
Qed.



(** X9: a [copy_file] whose source is missing, in a world where every
    file goes by one canonical name and for a source and a destination
    written in that form.  On a local target the destination is opened
    for writing first: when its directory exists and the source cannot
    be opened, [copy_file] raises IOError and leaves the destination
    empty, whatever it held before. *)
Theorem copy_file_missing_source abs d f src (w : World R) :
  connection_mode d = None ->
  one_name abs w ->
  let p := OsPath.join (path d) f in
  canonical abs p = true -> canonical abs src = true ->
  files w !! src = None -> src <> p ->
  OsPath.dirname p ∈ dirs w -> p ∉ dirs w ->
  exists msg w',
    Dir.copy_file ftp d f src w = (Exc (IOError msg), w') /\
    files w' = <[p := ""]> (files w) /\ dirs w' = dirs w /\
    map_Forall (fun q _ => canonical abs q = true) (files w').
Proof.
  intros Hmode [Hfiles _] p Hcan _ Hsrc Hne Hdir Hp.
  unfold Dir.copy_file. rewrite Hmode. cbn zeta. fold p.
  unfold bind, emit, Fs.path_exists, Fs.open_w, Fs.read, ret.
  cbn. rewrite exists_add_log.
  assert (Fs.exists_ w (OsPath.dirname p) = true) as ->.
  { unfold Fs.exists_. rewrite (bool_decide_eq_true_2 (_ ∈ _) Hdir). apply orb_true_r. }
  cbn. rewrite (canonical_not_bad abs p Hcan). rewrite (bool_decide_eq_false_2 _ Hp).
  change (Fs.parent_ok _ p) with (Fs.parent_ok w p).
  assert (Fs.parent_ok w p = true) as ->.
  { unfold Fs.parent_ok. rewrite (bool_decide_eq_true_2 _ Hdir). apply orb_true_r. }
  cbn. rewrite lookup_insert_ne by done. rewrite Hsrc.
  eexists _, _. split; [done|]. split; [done|]. split; [done|].
  cbn. by apply map_Forall_insert_2.
Qed.

(** X10: a rename in a diff does nothing on a local target.
    [rename_file] has an empty local branch, so a diff made of renames
    is walked without an error and leaves every file and directory of
    the target as it was: the renamed file is neither moved nor
    copied. *)
Theorem deploy_diff_renames_local d diff config (w : World R) :
  connection_mode d = None ->
  Forall (fun item => deleted_file item = false /\ is_rename item = true) diff ->
  exists w',
    Dir.deploy_diff ftp d diff config w = (Val tt, w') /\
    files w' = files w /\ dirs w' = dirs w.
Proof.
  intros Hmode Hall. unfold Dir.deploy_diff. revert w.
  induction Hall as [|item diff [Hdel Hren] _ IH]; intros w; cbn [for_each].
  - by exists w.
  - unfold is_rename in Hren. rewrite Hdel, Hren.
    unfold Dir.rename_file at 1. rewrite Hmode.
    unfold bind at 1. unfold bind at 1, emit, ret.
    destruct (IH (add_log (EvCall (oid d)
                    (MRenameFile (default "" (rename_from item))
                                 (default "" (rename_to item)))) w))
      as (w' & Hrun & Hf & Hd).
    exists w'. done.
Qed.

(** X11: [check_valid_commit] on a local target.  Without a commit
    marker it answers False and resolves nothing.  With one, it asks
    the repository for the contents of the marker without their last
    character, so for a marker that ends in a line break, for the
    identifier before it; it keeps what the repository returns in
    [self.commit] and answers by it: a true value for a commit, a false
    one for anything else, and the exception when the resolution
    raises. *)
Theorem check_valid_commit_on_local d repo (w : World R) :
  connection_mode d = None ->
  (Fs.exists_ w (OsPath.join (path d) COMMIT_FILE) = false ->
   fst (Dir.check_valid_commit ftp git d repo w) = Val (PyBool false) /\
   commit_attr (snd (Dir.check_valid_commit ftp git d repo w)) = commit_attr w) /\
  (forall rev c,
     files w !! OsPath.join (path d) COMMIT_FILE = Some (rev +:+ String c "") ->
     match git_commit git repo rev with
     | Val o =>
         (exists answer,
            fst (Dir.check_valid_commit ftp git d repo w) = Val answer /\
            py_truthy answer = class_is_Commit o) /\
         commit_attr (snd (Dir.check_valid_commit ftp git d repo w)) !! oid d = Some o
     | Exc x => fst (Dir.check_valid_commit ftp git d repo w) = Exc x
     end).
Proof.
  intros Hmode. destruct (check_valid_commit_local ftp git d repo w Hmode) as [Habs Hpres].
  split.
  - intros Hno. rewrite (Habs Hno). done.
  - intros rev c Hfile. specialize (Hpres _ Hfile). rewrite drop_last_snoc in Hpres.
    destruct (git_commit git repo rev) as [o|x]; [|done].
    destruct Hpres as [-> Hattr]. split; [|done].
    eexists. split; [done|].
    destruct o as [|b|?|?|t h]; cbn; try done; by destruct b || by destruct t.
Qed.
End LocalMethods.

(** ** The lock phase, all or nothing *)

Section LockAll.
Context {R : Type}.
Variable ftp : FtpLib R.
Variable git : GitLib.

(** X12: what [lock_dirs] returns.  When it returns a list, the list is
    the configured targets, all of them and in order; on the way every
    target was connected through a mode [connect] accepts (none, or
    FTP), [lock] was called on every target (on a local one the marker
    was written), and nothing but the calls of the lock phase
    happened. *)
Theorem lock_dirs_returns_all config l (w w' : World R) :
  lock_dirs ftp config w = (Val (Some l), w') ->
  l = cfg_dirs config /\
  (forall d, d ∈ cfg_dirs config -> supported d) /\
  exists evs,
    log w' = log w ++ evs /\
    Forall (fun e => in_lock_phase e = true) evs /\
    forall d, d ∈ cfg_dirs config ->
      EvCall (oid d) MLock ∈ evs /\
      (connection_mode d = None -> EvFsWrite (lock_path d) ∈ evs).
Proof.
  intros Hrun.
  destruct (lock_dirs_some ftp config l w w' Hrun) as [Hl Hevs].
  split; [exact Hl|]. split; [|exact Hevs].
  exact (lock_dirs_supported ftp config l w w' Hrun).
Qed.

(** X13: the lock phase on local targets is all or nothing and never
    raises.  Either it returns None and the files and directories are
    exactly as before it started (the markers it wrote are removed
    again), or it returns all the configured targets and the files are
    those from before with one marker "locked" added per target, each
    at a path where there was nothing. *)
Theorem lock_dirs_local_all_or_nothing config (w : World R) :
  (forall d, d ∈ cfg_dirs config -> connection_mode d = None) ->
  exists r w',
    lock_dirs ftp config w = (Val r, w') /\ dirs w' = dirs w /\
    match r with
    | None => files w' = files w
    | Some l =>
        l = cfg_dirs config /\
        locks_added (dirs w) (files w) (cfg_dirs config) (files w')
    end.
Proof.
  intros Hloc. unfold lock_dirs.
  destruct (local_lock_loop ftp (cfg_dirs config) (MkLockLists [] [] []) w Hloc)
    as (acc & w1 & la & aa & ca & Hloop & Hd1 & Hl & Ha & Hc & Hadd & Hla & _).
  cbn in Hl, Ha, Hc.
  destruct (lock_loop_cases ftp _ _ _ _ _ Hloop)
    as (la' & aa' & ca' & evs & Hl' & Ha' & Hc' & _ & Hall).
  cbn in Hl', Ha', Hc'.
  rewrite (bind_val _ _ _ _ _ Hloop).
  assert (forall msg, exists w2,
            (abort ftp (locked_dirs acc) msg ;; ret None
               : M R (option (list Directory))) w1 = (Val None, w2) /\
            dirs w2 = dirs w /\ files w2 = files w) as Hroll.
  { intros msg. rewrite Hl. rewrite <- Hd1 in Hadd.
    destruct (abort_all_local ftp la (files w) w1 Hadd Hla) as (w2 & Hab & Hf2 & Hd2).
    unfold abort, bind. rewrite Hab. cbn.
    eexists. split; [done|]. cbn. split; [congruence|done]. }
  destruct (already_locked_dirs acc) as [|a0 arest] eqn:Ea.
  2:{ cbn [length Nat.ltb Nat.leb].
      destruct (Hroll (unable_message (a0 :: arest))) as (w2 & Hrun & Hd2 & Hf2).
      exists None, w2. done. }
  destruct (cannot_lock acc) as [|c0 crest] eqn:Ec.
  2:{ cbn [length Nat.ltb Nat.leb].
      destruct (Hroll (unable_message (c0 :: crest))) as (w2 & Hrun & Hd2 & Hf2).
      exists None, w2. done. }
  cbn [length Nat.ltb Nat.leb]. unfold ret.
  exists (Some (locked_dirs acc)), w1. split; [done|]. split; [done|].
  destruct Hall as [Hds _]; [congruence..|].
  assert (la = cfg_dirs config) as <- by congruence.
  split; [done|]. exact Hadd.
Qed.

(** X14: a run on local targets of which one is already locked.  Such
    a run exits before it opens the repository: it deploys nothing, and
    the local files and directories are exactly as before the run, the
    markers written for the other targets included. *)
Theorem main_local_rollback args j config (w : World R) d0 :
  Forall (fun a => a <> "") args ->
  Config_Details j = Val config ->
  (forall d, d ∈ cfg_dirs config -> connection_mode d = None) ->
  d0 ∈ cfg_dirs config ->
  Fs.exists_ w (lock_path d0) = true ->
  exists w' evs,
    main ftp git args (Val j) w = (Exc SystemExit, w') /\
    files w' = files w /\ dirs w' = dirs w /\
    log w' = log w ++ evs /\
    Forall (fun e => in_lock_phase e = true) evs.
Proof.
  intros Hne Hconf Hloc Hd0 Hex.
  pose proof (parse_args_val args w Hne) as Hparse.
  unfold main. rewrite (bind_val _ _ _ _ _ Hparse).
  unfold bind at 1, try_except, lift_outcome. cbn. rewrite Hconf. cbn.
  destruct (lock_dirs_local_rollback ftp config w d0 Hloc Hd0 Hex) as (w' & Hlock & Hf & Hd).
  rewrite (bind_val _ _ _ _ _ Hlock).
  destruct (lock_dirs_emits ftp config w) as (evs & Hlog & Hfp).
  rewrite Hlock in Hlog. cbn [snd] in Hlog.
  exists w', evs. done.
Qed.

Lemma check_valid_commit_keeps_fs d repo :
  keeps (fun w : World R => (files w, dirs w)) (Dir.check_valid_commit ftp git d repo).
Proof.
  unfold Dir.check_valid_commit, Dir._check_file_exists,
    Dir._read_root_dir_file_contents.
  repeat keeps_step; done.
Qed.

Lemma check_loop_keeps_fs ds acc repo :
  keeps (fun w : World R => (files w, dirs w)) (for_fold ds acc (check_one ftp git repo)).
Proof.
  keeps_step. unfold check_one. keeps_step; [apply check_valid_commit_keeps_fs|].
  repeat keeps_step.
Qed.

(** X15: a failed check of the recorded commits rolls the locks back.
    On local targets, when [check_dirs_configured] returns, the
    directories are as before; if it returns True no file has changed,
    and if it returns False the files are those from before the lock
    phase: every lock marker this run wrote is removed. *)
Theorem check_dirs_configured_local config locked repo f (w w' : World R) b :
  (forall d, d ∈ locked -> connection_mode d = None) ->
  locks_added (dirs w) f locked (files w) ->
  check_dirs_configured ftp git config locked repo w = (Val b, w') ->
  dirs w' = dirs w /\ files w' = (if b then files w else f).
Proof.
  intros Hloc Hadd Hrun. unfold check_dirs_configured in Hrun.
  apply bind_inv_val in Hrun as (missing & w1 & Hloop & Hrun).
  pose proof (check_loop_keeps_fs (cfg_dirs config) [] repo w) as Hk.
  rewrite Hloop in Hk. cbn [snd] in Hk. injection Hk as Hf1 Hd1.
  destruct (0 <? length missing)%nat.
  - rewrite <- Hd1, <- Hf1 in Hadd.
    destruct (abort_all_local ftp locked f w1 Hadd Hloc) as (w2 & Hab & Hf2 & Hd2).
    unfold abort, bind in Hrun. rewrite Hab in Hrun. cbn in Hrun.
    injection Hrun as <- <-. cbn. split; congruence.
  - unfold ret in Hrun. injection Hrun as <- <-. done.
Qed.

(** what one check does to [self.commit] *)
Lemma check_valid_commit_attr d repo (w w' : World R) v :
  Dir.check_valid_commit ftp git d repo w = (Val v, w') ->
  (forall o, o <> oid d -> commit_attr w' !! o = commit_attr w !! o) /\
  if py_truthy v
  then exists c, commit_attr w' !! oid d = Some (PyCommit c)
  else commit_attr w' !! oid d = commit_attr w !! oid d \/
       exists c, commit_attr w' !! oid d = Some c.
Proof.
  intros Hrun. unfold Dir.check_valid_commit in Hrun.
  apply bind_inv_val in Hrun as ([] & w1 & Hemit & Hrun).
  unfold emit in Hemit. injection Hemit as <-.
  apply bind_inv_val in Hrun as (present & w2 & Hpres & Hrun).
  pose proof (check_file_exists_frame ftp d COMMIT_FILE
                (add_log (EvCall (oid d) MCheckValidCommit) w)) as Hframe.
  rewrite Hpres in Hframe. cbn [snd] in Hframe.
  destruct Hframe as (_ & _ & Hc2 & _). cbn in Hc2.
  destruct present; cbn [negb] in Hrun; cbv iota in Hrun.
  2:{ unfold ret in Hrun. injection Hrun as <- <-. cbn. split; [by rewrite Hc2|].
      left. by rewrite Hc2. }
  apply bind_inv_val in Hrun as (commit_id & w3 & Hread & Hrun).
  assert (keeps commit_attr (Dir._read_root_dir_file_contents ftp d COMMIT_FILE)) as Hk
    by (unfold Dir._read_root_dir_file_contents; repeat keeps_step).
  specialize (Hk w2). rewrite Hread in Hk. cbn [snd] in Hk.
  apply bind_inv_val in Hrun as ([] & w4 & Hemit & Hrun).
  unfold emit in Hemit. injection Hemit as <-.
  apply bind_inv_val in Hrun as (c & w5 & Hres & Hrun).
  unfold lift_outcome in Hres. injection Hres as Hres <-.
  apply bind_inv_val in Hrun as ([] & w6 & Hset & Hrun).
  unfold Dir.set_commit in Hset. injection Hset as <-.
  apply bind_inv_val in Hrun as (c' & w7 & Hget & Hrun).
  unfold Dir.get_commit in Hget. cbn in Hget. rewrite lookup_insert_eq in Hget.
  injection Hget as <- <-. unfold ret in Hrun. injection Hrun as <- <-.
  cbn. rewrite Hk, Hc2. split.
  - intros o Ho. by rewrite lookup_insert_ne.
  - rewrite lookup_insert_eq.
    destruct (py_truthy (py_and c (PyBool (class_is_Commit c)))) eqn:Ht.
    + destruct c as [|b|?|c0|t h]; cbn in Ht; try done; [by destruct b|eauto|by destruct t].
    + right. eauto.
Qed.

(** a check loop that reports no target has left a commit in each *)
Lemma check_loop_valid ds acc repo (w w' : World R) acc' :
  for_fold ds acc (check_one ftp git repo) w = (Val acc', w') ->
  acc' = [] ->
  acc = [] /\
  (forall o c, commit_attr w !! o = Some (PyCommit c) ->
     exists c', commit_attr w' !! o = Some (PyCommit c')) /\
  (forall d, d ∈ ds -> exists c, commit_attr w' !! oid d = Some (PyCommit c)).
Proof.
  revert acc w. induction ds as [|d ds IH]; intros acc w Hrun Hnil; cbn [for_fold] in Hrun.
  - injection Hrun as <- <-. split; [done|]. split; [eauto|].
    intros d Hd. by apply elem_of_nil in Hd.
  - apply bind_inv_val in Hrun as (acc1 & w1 & Hone & Hrest).
    destruct (IH _ _ Hrest Hnil) as (Hacc1 & Hkeep & Hall).
    unfold check_one in Hone.
    apply bind_inv_val in Hone as (v & w2 & Hchk & Hone).
    destruct (check_valid_commit_attr d repo w w2 v Hchk) as [Hother Hown].
    destruct (py_truthy v); cbn [negb] in Hone; cbv iota in Hone;
      unfold ret in Hone; injection Hone as <- <-.
    2:{ by destruct acc. }
    destruct Hown as [c Hc].
    split; [done|]. split.
    + intros o c0 Ho. destruct (decide (o = oid d)) as [->|Hne].
      * by apply (Hkeep _ c).
      * apply (Hkeep o c0). by rewrite Hother.
    + intros d' [->|Hd']%elem_of_cons; [by apply (Hkeep _ c) | by apply Hall].
Qed.

(** X24: what a check of the recorded commits that returned True has
    left behind.  After [check_dirs_configured] has returned True,
    [self.commit] of every configured target is a commit object, the
    one the repository gave for the target's commit marker: every
    deploy that follows takes the diff from it. *)
Theorem validation_records_commits config locked repo (w w' : World R) :
  check_dirs_configured ftp git config locked repo w = (Val true, w') ->
  forall d, d ∈ cfg_dirs config ->
    exists c, commit_attr w' !! oid d = Some (PyCommit c).
Proof.
  intros Hrun. unfold check_dirs_configured in Hrun.
  apply bind_inv_val in Hrun as (missing & w1 & Hloop & Hrun).
  destruct missing as [|d0 missing].
  - cbn in Hrun. unfold ret in Hrun. injection Hrun as <-.
    by destruct (check_loop_valid _ _ _ _ _ _ Hloop eq_refl) as (_ & _ & Hall).
  - cbn [length Nat.ltb Nat.leb] in Hrun. unfold abort in Hrun.
    apply bind_inv_val in Hrun as ([] & w2 & _ & Hrun).
    apply bind_inv_val in Hrun as ([] & w3 & _ & Hrun). done.
Qed.

(** the [abort] of a target logs its own call, and then no call of [abort] *)
Lemma dir_abort_log d (w : World R) :
  exists evs,
    log (snd (Dir.abort ftp d w)) = log w ++ EvCall (oid d) MAbort :: evs /\
    Forall (fun e => in_abort_body e = true) evs.
Proof.
  unfold Dir.abort. apply emits_after_emit.
  emits_step.
  - eapply emits_weaken; [|apply delete_file_emits]. emits_incl.
  - repeat emits_step.
Qed.

Lemma dir_abort_keeps_out d : keeps (R:=R) out (Dir.abort ftp d).
Proof.
  unfold Dir.abort, Dir.delete_file, Dir.check_locked, Dir._check_file_exists.
  repeat keeps_step.
Qed.

Lemma abort_loop_calls ds (w w' : World R) :
  for_each ds (Dir.abort ftp) w = (Val tt, w') ->
  out w' = out w /\
  exists evs,
    log w' = log w ++ evs /\ List.filter is_abort_call evs = abort_calls ds.
Proof.
  revert w. induction ds as [|d ds IH]; intros w Hrun; cbn [for_each] in Hrun.
  - injection Hrun as <-. split; [done|]. exists []. by rewrite app_nil_r.
  - apply bind_inv_val in Hrun as ([] & w1 & Hone & Hrest).
    destruct (IH _ Hrest) as (Ho2 & evs2 & Hl2 & Hf2).
    destruct (dir_abort_log d w) as (evs1 & Hl1 & Hfp1).
    pose proof (dir_abort_keeps_out d w) as Ho1.
    rewrite Hone in Hl1, Ho1. cbn [snd] in Hl1, Ho1.
    split; [congruence|].
    exists ((EvCall (oid d) MAbort :: evs1) ++ evs2).
    split; [by rewrite Hl2, Hl1, <- app_assoc|].
    rewrite List.filter_app. cbn [List.filter is_abort_call]. rewrite Hf2.
    assert (List.filter is_abort_call evs1 = []) as ->; [|done].
    clear -Hfp1. induction Hfp1 as [|e evs He _ IH]; [done|].
    cbn. unfold in_abort_body in He. destruct (is_abort_call e); [|done].
    by rewrite andb_false_r in He.
Qed.

(** X25: a roll-back stops at the first target whose [abort] raises.
    The module-level [abort] has no handler: when the targets before
    [d] were aborted and the [abort] of [d] raises, the whole call ends
    with that exception in that world.  Nothing has been printed, the
    message included, and [abort] was called on the targets up to [d]
    only: the targets after [d] keep their locks. *)
Theorem abort_stops_at_failure pre d post msg (w w1 w2 : World R) e :
  for_each pre (Dir.abort ftp) w = (Val tt, w1) ->
  Dir.abort ftp d w1 = (Exc e, w2) ->
  abort ftp (pre ++ d :: post) msg w = (Exc e, w2) /\
  out w2 = out w /\
  exists evs,
    log w2 = log w ++ evs /\
    List.filter is_abort_call evs = abort_calls (pre ++ [d]).
Proof.
  intros Hpre Hd. split; [|split].
  - unfold abort. apply bind_exc. rewrite for_each_app.
    rewrite (bind_val _ _ _ _ _ Hpre). cbn [for_each]. by apply bind_exc.
  - destruct (abort_loop_calls pre w w1 Hpre) as [Ho1 _].
    pose proof (dir_abort_keeps_out d w1) as Ho2. rewrite Hd in Ho2. cbn [snd] in Ho2.
    congruence.
  - destruct (abort_loop_calls pre w w1 Hpre) as (_ & evs1 & Hl1 & Hf1).
    destruct (dir_abort_log d w1) as (evs2 & Hl2 & Hfp2).
    rewrite Hd in Hl2. cbn [snd] in Hl2.
    exists (evs1 ++ EvCall (oid d) MAbort :: evs2).
    split; [by rewrite Hl2, Hl1, <- app_assoc|].
    rewrite List.filter_app. cbn [List.filter is_abort_call]. rewrite Hf1.
    unfold abort_calls. rewrite fmap_app. cbn. f_equal. f_equal.
    clear -Hfp2. induction Hfp2 as [|e0 evs He _ IH]; [done|].
    cbn. unfold in_abort_body in He. destruct (is_abort_call e0); [|done].
    by rewrite andb_false_r in He.
Qed.
End LockAll.

(** ** Whole runs *)

Lemma split_after_prefix (P : Event -> bool) (l1 l2 a b : list Event) x :
  l1 ++ x :: l2 = a ++ b ->
  Forall (fun e => P e = false) a -> P x = true ->
  exists c, l1 = a ++ c /\ b = c ++ x :: l2.
Proof.
  revert l1. induction a as [|y a IH]; intros l1 Heq Hall Hx.
  - exists l1. done.
  - apply Forall_cons in Hall as [Hy Hall].
    destruct l1 as [|z l1]; cbn in Heq.
    + injection Heq as -> _. congruence.
    + injection Heq as -> Heq.
      destruct (IH l1 Heq Hall Hx) as (c & -> & ->). by exists c.
Qed.

Lemma flags_of_h (args : list string) :
  existsb (String.eqb "h") (flags_of args) = true <-> "-h" ∈ args.
Proof.
  unfold flags_of. rewrite existsb_exists. split.
  - intros (x & Hin & Hx%String.eqb_eq). subst x.
    apply list_elem_of_In, list_elem_of_fmap in Hin as (a & Ha & Hin).
    apply list_elem_of_In, filter_In in Hin as [Hin Hflag].
    apply list_elem_of_In in Hin.
    unfold is_flag in Hflag. destruct a as [|c a]; [done|].
    cbn [PyStr.first_char PyStr.tail] in Hflag, Ha.
    apply String.eqb_eq in Hflag. injection Hflag as ->. by subst a.
  - intros Hin. exists "h". split; [|done].
    apply list_elem_of_In, list_elem_of_fmap. exists "-h". split; [done|].
    apply list_elem_of_In, filter_In. split; [by apply list_elem_of_In | done].
Qed.

Section WholeRuns.
Context {R : Type}.
Variable ftp : FtpLib R.
Variable git : GitLib.

(** the flags of a command line that was parsed *)
Lemma parse_args_inv args (w w' : World R) flags commit_id :
  for_fold args ([], None) parse_arg w = (Val (flags, commit_id), w') ->
  flags = flags_of args /\ commit_id = revision_of args.
Proof.
  intros Hparse. destruct (decide ("" ∈ args)) as [Hin|Hout].
  - rewrite (parse_args_empty_arg args _ w Hin) in Hparse. done.
  - rewrite parse_args_val in Hparse.
    + by injection Hparse as <- <- _.
    + apply Forall_forall. intros a Ha ->. done.
Qed.

(** X16: "-h" skips the check of the recorded commits.  In a run with
    "-h" among its arguments [check_valid_commit] is never called and
    no [self.commit] is assigned: every target is deployed as if
    nothing had been deployed to it before. *)
Theorem hard_run_skips_validation args conf (w : World R) :
  "-h" ∈ args ->
  commit_attr (snd (main ftp git args conf w)) = commit_attr w /\
  exists evs,
    log (snd (main ftp git args conf w)) = log w ++ evs /\
    Forall (fun e => is_validate_call e = false) evs.
Proof.
  intros Hh.
  destruct (for_fold args ([], None) parse_arg w) as [[[flags cid]|x] w0] eqn:Hparse.
  - destruct (parse_args_inv _ _ _ _ _ Hparse) as [-> ->].
    apply (hard_run_never_validates ftp git args conf w (flags_of args) (revision_of args)).
    + by rewrite Hparse.
    + by apply flags_of_h.
  - pose proof (parse_args_pure args ([], None) w) as Hp. rewrite Hparse in Hp.
    cbn in Hp. subst w0.
    assert (main ftp git args conf w = (Exc x, w)) as ->
      by (unfold main; by apply bind_exc).
    cbn [snd]. split; [done|]. exists []. by rewrite app_nil_r.
Qed.

Lemma check_valid_commit_starts d repo :
  starts_with (EvCall (oid d) MCheckValidCommit) (Dir.check_valid_commit ftp git d repo).
Proof.
  unfold Dir.check_valid_commit. apply starts_with_emit.
  emits_step.
  { eapply emits_weaken; [|apply check_file_exists_emits]. done. }
  emits_step; [emits_step|]. emits_step.
  { eapply emits_weaken; [|apply read_root_emits]. done. }
  repeat emits_step.
Qed.

(** the check loop calls [check_valid_commit] on every target *)
Lemma check_loop_calls ds acc repo (w w' : World R) acc' :
  for_fold ds acc (check_one ftp git repo) w = (Val acc', w') ->
  exists evs,
    log w' = log w ++ evs /\
    Forall (fun e => in_validation e = true) evs /\
    forall d, d ∈ ds -> EvCall (oid d) MCheckValidCommit ∈ evs.
Proof.
  revert acc w. induction ds as [|d ds IH]; intros acc w Hrun; cbn [for_fold] in Hrun.
  - injection Hrun as <- <-. exists []. rewrite app_nil_r.
    split; [done|]. split; [done|]. intros d Hd. by apply elem_of_nil in Hd.
  - apply bind_inv_val in Hrun as (acc1 & w1 & Hone & Hrest).
    destruct (IH _ _ Hrest) as (evs2 & Hl2 & Hfp2 & Hin2).
    assert (starts_with (EvCall (oid d) MCheckValidCommit)
              (check_one ftp git repo acc d)) as Hst.
    { unfold check_one. apply starts_with_bind; [apply check_valid_commit_starts|].
      intros a. repeat emits_step. }
    assert (emits in_validation (check_one ftp git repo acc d)) as Hem.
    { unfold check_one. emits_step; [apply check_valid_commit_emits|]. repeat emits_step. }
    destruct (Hst w) as (evs1 & Hl1). destruct (Hem w) as (evs1' & Hl1' & Hfp1).
    rewrite Hone in Hl1, Hl1'. cbn [snd] in Hl1, Hl1'.
    assert (evs1' = EvCall (oid d) MCheckValidCommit :: evs1) as ->.
    { rewrite Hl1 in Hl1'. by apply app_inv_head in Hl1'. }
    exists ((EvCall (oid d) MCheckValidCommit :: evs1) ++ evs2).
    split; [by rewrite Hl2, Hl1, <- app_assoc|]. split; [by apply Forall_app|].
    intros d' [->|Hd']%elem_of_cons.
    + apply elem_of_app. left. apply list_elem_of_here.
    + apply elem_of_app. right. by apply Hin2.
Qed.

(** without "-h", what precedes a call of [deploy] in [resolved_phase] *)
Lemma checks_before_deploy flags config locked repo commit (w : World R) l1 o l2 :
  existsb (String.eqb "h") flags = false ->
  log (snd (resolved_phase ftp git flags config locked repo commit w))
    = log w ++ l1 ++ EvCall o MDeploy :: l2 ->
  forall d, d ∈ cfg_dirs config -> EvCall (oid d) MCheckValidCommit ∈ l1.
Proof.
  intros Hh Hlog. unfold resolved_phase, validate_phase in Hlog.
  rewrite Hh in Hlog. cbn [negb] in Hlog.
  assert (Exists (fun e => is_deploy_call e = true) (l1 ++ EvCall o MDeploy :: l2)) as Hdep.
  { apply Exists_app. right. by constructor. }
  set (pre := (if negb (class_is_Commit commit)
               then abort ftp locked ("Invalid local commit for deploy" +:+ newline) ;; ret tt
               else ret tt) : M R unit) in *.
  assert (emits in_lock_phase pre) as Hpre.
  { unfold pre. emits_step; [|emits_step]. emits_step; [apply abort_emits|emits_step]. }
  unfold bind at 1 in Hlog. destruct (Hpre w) as (evs0 & Hl0 & Hfp0).
  destruct (pre w) as [[[]|x] w0]; cbn [snd] in *.
  2:{ exfalso. rewrite Hl0 in Hlog. apply app_inv_head in Hlog as ->.
      eapply (no_such_event in_lock_phase is_deploy_call); [exact Hfp0| |exact Hdep].
      emits_incl. }
  unfold bind at 1 in Hlog. unfold bind at 1 in Hlog.
  destruct (check_dirs_configured_emits ftp git config locked repo w0) as (evs1 & Hl1 & Hfp1).
  assert (Forall (fun e => is_deploy_call e = false) (evs0 ++ evs1)) as Hnodep.
  { apply Forall_app. split.
    - eapply Forall_impl; [exact Hfp0|]. emits_incl.
    - eapply Forall_impl; [exact Hfp1|]. emits_incl. }
  destruct (check_dirs_configured ftp git config locked repo w0) as [[[]|x] w1] eqn:Hchk;
    cbn [snd negb] in *.
  - unfold check_dirs_configured in Hchk.
    apply bind_inv_val in Hchk as (missing & w2 & Hloop & Hchk).
    destruct (check_loop_calls _ _ _ _ _ _ Hloop) as (evs2 & Hl2 & _ & Hin2).
    destruct (0 <? length missing)%nat eqn:Hlen.
    { unfold abort in Hchk. apply bind_inv_val in Hchk as ([] & w3 & _ & Hchk).
      apply bind_inv_val in Hchk as ([] & w4 & _ & Hchk). done. }
    unfold ret in Hchk. injection Hchk as <-.
    assert (evs1 = evs2) as -> by (rewrite Hl2 in Hl1; by apply app_inv_head in Hl1).
    destruct (deploy_phase_emits ftp git commit config w2) as (evs3 & Hl3 & _).
    unfold ret at 1 in Hlog. cbv beta iota in Hlog.
    rewrite Hl3, Hl2, Hl0, <- !app_assoc in Hlog. apply app_inv_head in Hlog.
    rewrite app_assoc in Hlog. symmetry in Hlog.
    destruct (split_after_prefix is_deploy_call _ _ _ _ _ Hlog Hnodep eq_refl)
      as (c & -> & _).
    intros d Hd. apply elem_of_app. left. apply elem_of_app. right. by apply Hin2.
  - exfalso. unfold exit, raise in Hlog. cbn in Hlog.
    rewrite Hl1, Hl0, <- app_assoc in Hlog. apply app_inv_head in Hlog.
    rewrite <- Hlog in Hdep.
    eapply (no_such_event (fun e => negb (is_deploy_call e)) is_deploy_call);
      [| |exact Hdep].
    + eapply Forall_impl; [exact Hnodep|]. intros e ->. done.
    + intros e. by destruct (is_deploy_call e).
  - exfalso. cbn in Hlog.
    rewrite Hl1, Hl0, <- app_assoc in Hlog. apply app_inv_head in Hlog.
    rewrite <- Hlog in Hdep.
    eapply (no_such_event (fun e => negb (is_deploy_call e)) is_deploy_call);
      [| |exact Hdep].
    + eapply Forall_impl; [exact Hnodep|]. intros e ->. done.
    + intros e. by destruct (is_deploy_call e).
Qed.

(** X17: without "-h", no target is deployed before every target was
    checked.  In a run without "-h" among its arguments, every call of
    [deploy] comes after a call of [check_valid_commit] on each
    configured target: the check is not cut short, and
    one target that fails it stops the deploy of all. *)
Theorem deploy_after_all_checks args conf (w : World R) l1 o l2 :
  "-h" ∉ args ->
  log (snd (main ftp git args conf w)) = log w ++ l1 ++ EvCall o MDeploy :: l2 ->
  exists j config,
    conf = Val j /\ Config_Details j = Val config /\
    forall d, d ∈ cfg_dirs config -> EvCall (oid d) MCheckValidCommit ∈ l1.
Proof.
  intros Hh Hlog.
  assert (Exists (fun e => is_deploy_call e = true) (l1 ++ EvCall o MDeploy :: l2)) as Hdep.
  { apply Exists_app. right. by constructor. }
  destruct (main_cases ftp git args conf w)
    as [(x & w' & evs' & Hrun & Hl & Hfp & _)|
        (flags & cid & j & config & w1 & evs1 & repo & Hparse & -> & Hconf & _ & _ & Hl1
           & Hfp1 & _ & _ & Hrun)].
  - exfalso. rewrite Hrun in Hlog. cbn [snd] in Hlog. rewrite Hl in Hlog.
    apply app_inv_head in Hlog as ->.
    eapply (no_such_event before_resolution is_deploy_call); [exact Hfp| |exact Hdep].
    emits_incl.
  - exists j, config. do 2 (split; [done|]).
    destruct (parse_args_inv _ _ _ _ _ Hparse) as [-> ->].
    assert (existsb (String.eqb "h") (flags_of args) = false) as Hnoh.
    { destruct (existsb _ _) eqn:E; [|done]. by apply flags_of_h in E. }
    rewrite Hrun in Hlog. unfold resolve_and_run in Hlog.
    set (w3 := add_log (EvResolve (revision_of args))
                 (add_log (EvRepo (cfg_path config)) w1)) in *.
    assert (log w3 = log w ++ evs1 ++ [EvRepo (cfg_path config); EvResolve (revision_of args)])
      as Hl3 by (unfold w3; cbn; by rewrite Hl1, <- !app_assoc).
    assert (Forall (fun e => is_deploy_call e = false)
              (evs1 ++ [EvRepo (cfg_path config); EvResolve (revision_of args)])) as Hnodep.
    { apply Forall_app. split; [|by repeat constructor].
      eapply Forall_impl; [exact Hfp1|]. emits_incl. }
    unfold bind at 1 in Hlog.
    destruct (match revision_of args with
              | Some rev => lift_outcome (git_commit git repo rev)
              | None => lift_outcome (git_head_commit git repo)
              end w3) as [[commit|x] w4] eqn:Hpick.
    + assert (w4 = w3) as ->.
      { destruct (revision_of args); unfold lift_outcome in Hpick; by injection Hpick. }
      destruct (resolved_phase_emits ftp git (flags_of args) config (cfg_dirs config)
                  repo commit w3) as (evs4 & Hl4 & _).
      pose proof Hlog as Hsplit. rewrite Hl4, Hl3, <- app_assoc in Hsplit.
      apply app_inv_head in Hsplit. symmetry in Hsplit.
      destruct (split_after_prefix is_deploy_call _ _ _ _ _ Hsplit Hnodep eq_refl)
        as (c & -> & Hevs4).
      assert (log w ++ ((evs1 ++ [EvRepo (cfg_path config); EvResolve (revision_of args)])
                         ++ c) ++ EvCall o MDeploy :: l2
              = log w3 ++ c ++ EvCall o MDeploy :: l2) as Heq
        by (rewrite Hl3, <- !app_assoc; done).
      rewrite Heq in Hlog.
      intros d Hd. apply elem_of_app. right.
      by apply (checks_before_deploy _ _ _ _ _ _ _ _ _ Hnoh Hlog d Hd).
    + exfalso. assert (w4 = w3) as ->.
      { destruct (revision_of args); unfold lift_outcome in Hpick; by injection Hpick. }
      cbn [snd] in Hlog. rewrite Hl3 in Hlog. apply app_inv_head in Hlog.
      rewrite Hlog in Hnodep.
      eapply (no_such_event (fun e => negb (is_deploy_call e)) is_deploy_call);
        [| |exact Hdep].
      * eapply Forall_impl; [exact Hnodep|]. intros e ->. done.
      * intros e. by destruct (is_deploy_call e).
Qed.

(** X18: one target with a connection mode that [connect] does not
    accept stops the whole run.  When some configured target has a mode
    other than none and FTP (in upper case), no call of [deploy] is
    made on any target. *)
Theorem unsupported_mode_blocks_run args j config (w : World R) d0 :
  Config_Details j = Val config ->
  d0 ∈ cfg_dirs config ->
  ~ supported d0 ->
  exists evs,
    log (snd (main ftp git args (Val j) w)) = log w ++ evs /\
    Forall (fun e => is_deploy_call e = false) evs.
Proof.
  intros Hconf Hd0 Hbad.
  assert (emits (fun _ => true) (main ftp git args (Val j))) as Hem.
  { unfold main. emits_step.
    { eapply emits_weaken; [|apply parse_args_emits]. done. }
    emits_step; [repeat emits_step|].
    emits_step.
    { eapply emits_weaken; [|apply lock_dirs_emits]. done. }
    unfold exit, locked_phase.
    repeat (emits_step; try (unfold exit)); try reflexivity.
    all: try (eapply emits_weaken; [|apply abort_emits]; done).
    all: apply resolved_phase_emits. }
  destruct (Hem w) as (evs & Hlog & _). exists evs. split; [exact Hlog|].
  apply Forall_forall. intros e He.
  destruct (is_deploy_call e) eqn:Hdep; [exfalso|done].
  destruct (main_deploys_only_connected ftp git args (Val j) w evs Hlog)
    as (j' & config' & Hj & Hconf' & Hsup).
  { apply Exists_exists. eauto. }
  injection Hj as <-. rewrite Hconf in Hconf'. injection Hconf' as <-.
  apply Hbad, Hsup, Hd0.
Qed.

Lemma in_deploy_body_spec e :
  in_deploy e = true -> is_deploy_call e = false -> in_deploy_body e = true.
Proof. unfold in_deploy_body. by intros -> ->. Qed.

(** [deploy] logs its own call, and then no call of [deploy] *)
Lemma deploy_log d commit config (w : World R) :
  exists evs,
    log (snd (Dir.deploy ftp git d commit config w)) =
      log w ++ EvCall (oid d) MDeploy :: evs /\
    Forall (fun e => in_deploy_body e = true) evs.
Proof.
  unfold Dir.deploy. apply emits_after_emit.
  unfold Dir.deploy_diff, Dir.deploy_tree.
  assert (forall f src, emits in_deploy_body (Dir.copy_file ftp d f src)) as Hcopy.
  { intros f src w0. destruct (copy_file_log ftp d f src w0) as (evs & -> & Hall).
    eexists. split; [done|]. constructor; [done|].
    eapply Forall_impl; [exact Hall|]. emits_incl. }
  assert (forall f, emits in_deploy_body (Dir.delete_file ftp d f)) as Hdel.
  { intros f. eapply emits_weaken; [|apply delete_file_emits]. emits_incl. }
  emits_step; [emits_step|].
  emits_step.
  { emits_step.
    - emits_step; [emits_step|]. emits_step; [emits_step|]. emits_step.
      emits_step; [|emits_step].
      + apply Hdel.
      + unfold Dir.rename_file. repeat emits_step.
      + apply Hcopy.
    - emits_step; [emits_step|]. emits_step; [emits_step|]. emits_step.
      apply Hcopy. }
  emits_step; [emits_step|]. emits_step.
  { eapply emits_weaken; [|apply write_new_file_emits]. emits_incl. }
  emits_step; [|emits_step]. apply Hdel.
Qed.

Lemma filter_no_deploy (fp : Event -> bool) (evs : list Event) :
  (forall e, fp e = true -> is_deploy_call e = false) ->
  Forall (fun e => fp e = true) evs ->
  List.filter is_deploy_call evs = [].
Proof.
  intros Hsub Hall. induction Hall as [|e evs He _ IH]; [done|].
  cbn. by rewrite (Hsub e He).
Qed.

(** a deploy loop that completes calls [deploy] once per target, in order *)
Lemma deploy_loop_calls commit config ds (w w' : World R) :
  for_each ds (deploy_one ftp git commit config) w = (Val tt, w') ->
  exists evs,
    log w' = log w ++ evs /\
    List.filter is_deploy_call evs = deploy_calls ds.
Proof.
  revert w. induction ds as [|d ds IH]; intros w Hrun; cbn [for_each] in Hrun.
  - injection Hrun as <-. exists []. by rewrite app_nil_r.
  - apply bind_inv_val in Hrun as ([] & w1 & Hone & Hrest).
    destruct (IH _ Hrest) as (evs2 & Hl2 & Hf2).
    unfold deploy_one in Hone.
    apply bind_inv_val in Hone as (ok & w2 & Hdep & Hone).
    destruct (deploy_log d commit config w) as (evs1 & Hl1 & Hfp1).
    rewrite Hdep in Hl1. cbn [snd] in Hl1.
    assert (log w1 = log w2) as Hsame.
    { destruct ok; [unfold print in Hone | unfold ret in Hone]; by injection Hone as <-. }
    exists ((EvCall (oid d) MDeploy :: evs1) ++ evs2).
    split; [by rewrite Hl2, Hsame, Hl1, <- app_assoc|].
    rewrite List.filter_app. cbn [List.filter is_deploy_call].
    rewrite (filter_no_deploy in_deploy_body evs1), Hf2; [done| |done].
    intros e. unfold in_deploy_body. destruct (is_deploy_call e); [|done].
    by rewrite andb_false_r.
Qed.

(** X19: a run that completes.  When the main program returns, the
    configuration was read and has at least one target, every target
    was connected through a mode [connect] accepts, [deploy] was called
    exactly once on every configured target, in the order of the
    configuration, and the last line printed is "Done". *)
Theorem main_success args conf (w w' : World R) :
  main ftp git args conf w = (Val tt, w') ->
  exists j config evs,
    conf = Val j /\ Config_Details j = Val config /\
    cfg_dirs config <> [] /\
    (forall d, d ∈ cfg_dirs config -> supported d) /\
    log w' = log w ++ evs /\
    List.filter is_deploy_call evs = deploy_calls (cfg_dirs config) /\
    last (out w') = Some "Done".
Proof.
  intros Hmain.
  destruct (main_cases ftp git args conf w)
    as [(x & w0 & evs' & Hrun & _)|
        (flags & cid & j & config & w1 & evs1 & repo & Hparse & -> & Hconf & Hlock
           & Hne & Hl1 & Hfp1 & _ & _ & Hrun)].
  { rewrite Hrun in Hmain. done. }
  exists j, config. rewrite Hrun in Hmain. unfold resolve_and_run in Hmain.
  set (w3 := add_log (EvResolve cid) (add_log (EvRepo (cfg_path config)) w1)) in *.
  apply bind_inv_val in Hmain as (commit & w4 & Hpick & Hmain).
  assert (w4 = w3) as ->.
  { destruct cid; unfold lift_outcome in Hpick; by injection Hpick. }
  unfold resolved_phase in Hmain.
  apply bind_inv_val in Hmain as ([] & w5 & Hpre & Hmain).
  apply bind_inv_val in Hmain as ([] & w6 & Hval & Hmain).
  unfold deploy_phase in Hmain.
  apply bind_inv_val in Hmain as ([] & w7 & Hloop & Hdone).
  unfold print in Hdone. injection Hdone as <-.
  destruct (deploy_loop_calls _ _ _ _ _ Hloop) as (evs7 & Hl7 & Hf7).
  assert (emits in_lock_phase
            ((if negb (class_is_Commit commit)
              then abort ftp (cfg_dirs config)
                     ("Invalid local commit for deploy" +:+ newline) ;; ret tt
              else ret tt) : M R unit)) as Hempre.
  { emits_step; [|emits_step]. emits_step; [apply abort_emits|emits_step]. }
  destruct (Hempre w3) as (evs5 & Hl5 & Hfp5). rewrite Hpre in Hl5. cbn [snd] in Hl5.
  destruct (validate_phase_emits ftp git flags config (cfg_dirs config) repo w5)
    as (evs6 & Hl6 & Hfp6).
  rewrite Hval in Hl6. cbn [snd] in Hl6.
  exists (evs1 ++ [EvRepo (cfg_path config); EvResolve cid] ++ evs5 ++ evs6 ++ evs7).
  do 3 (split; [done|]). split; [exact (lock_dirs_supported ftp config _ _ _ Hlock)|].
  split; [|split].
  - cbn. rewrite Hl7, Hl6, Hl5. unfold w3. cbn. rewrite Hl1, <- !app_assoc. done.
  - rewrite !List.filter_app. cbn [List.filter is_deploy_call].
    rewrite (filter_no_deploy in_lock_phase evs1), (filter_no_deploy in_lock_phase evs5),
      (filter_no_deploy in_validation evs6), Hf7; [done|..]; try done; emits_incl.
  - cbn. apply last_snoc.
Qed.
End WholeRuns.

(** ** Deploying a diff, and the next run *)

Section DeployDiff.
Context {R : Type}.
Variable ftp : FtpLib R.
Variable git : GitLib.

(** what [deploy_diff] logs for an entry that it does not copy *)
Lemma not_copied_emits d item src :
  is_copied item = false ->
  emits (fun e => negb (is_copy_call e) && negb (is_ls_files e))
    (if deleted_file item then Dir.delete_file ftp d (a_path item)
     else if str_truthy (rename_from item) && str_truthy (rename_to item)
          then Dir.rename_file ftp d (default "" (rename_from item))
                               (default "" (rename_to item))
          else Dir.copy_file ftp d (a_path item) src).
Proof.
  unfold is_copied, is_rename. intros Hno.
  destruct (deleted_file item).
  - eapply emits_weaken; [|apply delete_file_emits]. emits_incl.
  - cbn in Hno. apply negb_false_iff in Hno. rewrite Hno.
    unfold Dir.rename_file. repeat emits_step.
Qed.

Lemma deploy_diff_log d diff config (w : World R) :
  exists evs,
    log (snd (Dir.deploy_diff ftp d diff config w)) = log w ++ evs /\
    Forall (fun e => is_ls_files e = false) evs /\
    (fst (Dir.deploy_diff ftp d diff config w) = Val tt ->
     copy_calls (oid d) evs =
       (fun item => (a_path item, OsPath.join (cfg_path config) (a_path item)))
         <$> List.filter is_copied diff).
Proof.
  unfold Dir.deploy_diff. revert w.
  induction diff as [|item diff IH]; intros w; cbn [for_each List.filter].
  - exists []. rewrite app_nil_r. done.
  - unfold bind. destruct (is_copied item) eqn:Hcop.
    + unfold is_copied, is_rename in Hcop. apply andb_true_iff in Hcop as [Hd Hr].
      apply negb_true_iff in Hd, Hr. rewrite Hd, Hr.
      destruct (copy_file_log ftp d (a_path item)
                  (OsPath.join (cfg_path config) (a_path item)) w)
        as (evs1 & Hlog1 & Hlow).
      destruct (Dir.copy_file ftp d (a_path item) _ w) as [[[]|e] w1]; cbn [fst snd] in *.
      * destruct (IH w1) as (evs2 & Hlog2 & Hnl & Hcalls).
        exists ((EvCall (oid d) (MCopyFile (a_path item)
                   (OsPath.join (cfg_path config) (a_path item))) :: evs1) ++ evs2).
        rewrite Hlog2, Hlog1, <- app_assoc. split; [done|]. split.
        -- apply Forall_app. split; [|done]. constructor; [done|].
           eapply Forall_impl; [exact Hlow|]. intros []; done.
        -- intros Hv.
           change (EvCall (oid d) (MCopyFile (a_path item)
                     (OsPath.join (cfg_path config) (a_path item))) :: evs1)
             with ([EvCall (oid d) (MCopyFile (a_path item)
                      (OsPath.join (cfg_path config) (a_path item)))] ++ evs1).
           rewrite !copy_calls_app, (Hcalls Hv), copy_calls_self.
           rewrite (copy_calls_none _ evs1); [done|].
           eapply Forall_impl; [exact Hlow|]. intros []; done.
      * eexists. split; [done|]. split; [|done]. constructor; [done|].
        eapply Forall_impl; [exact Hlow|]. intros []; done.
    + pose proof (not_copied_emits d item
                    (OsPath.join (cfg_path config) (a_path item)) Hcop) as Hem.
      set (m := if deleted_file item then _ else _) in *.
      destruct (Hem w) as (evs1 & Hlog1 & Hfp1).
      destruct (m w) as [[[]|e] w1]; cbn [fst snd] in *.
      * destruct (IH w1) as (evs2 & Hlog2 & Hnl & Hcalls).
        exists (evs1 ++ evs2). rewrite Hlog2, Hlog1, <- app_assoc.
        split; [done|]. split.
        -- apply Forall_app. split; [|done].
           eapply Forall_impl; [exact Hfp1|]. intros e He. cbn beta in He.
           apply andb_true_iff in He as [_ He]. by apply negb_true_iff in He.
        -- intros Hv. rewrite copy_calls_app, (Hcalls Hv).
           rewrite (copy_calls_none _ evs1); [done|].
           eapply Forall_impl; [exact Hfp1|]. intros e He. cbn beta in He.
           apply andb_true_iff in He as [He _]. by apply negb_true_iff in He.
      * exists evs1. split; [done|]. split; [|done].
        eapply Forall_impl; [exact Hfp1|]. intros e' He. cbn beta in He.
        apply andb_true_iff in He as [_ He]. by apply negb_true_iff in He.
Qed.

(** X20: a deploy to a target whose commit was validated.  When
    [self.commit] holds an object (anything but None), a deploy that
    completes has asked that object for its diff to the commit being
    deployed, has called [copy_file] exactly for the entries of the
    diff that are neither deletions nor renames, in order, each from
    its path under the source tree, and has not asked for the listing
    of the source tree. *)
Theorem deploy_with_recorded_commit d commit config (w w' : World R) last :
  commit_attr w !! oid d = Some last ->
  is_None last = false ->
  Dir.deploy ftp git d commit config w = (Val true, w') ->
  exists diff evs,
    git_diff git last commit = Val diff /\
    log w' = log w ++ evs /\
    copy_calls (oid d) evs =
      (fun item => (a_path item, OsPath.join (cfg_path config) (a_path item)))
        <$> List.filter is_copied diff /\
    Forall (fun e => is_ls_files e = false) evs.
Proof.
  intros Hlast Hsome Hrun. unfold Dir.deploy in Hrun.
  apply bind_inv_val in Hrun as ([] & w1 & Hemit & Hrun).
  apply bind_inv_val in Hrun as (last' & w2 & Hget & Hrun).
  unfold emit in Hemit. injection Hemit as <-.
  unfold Dir.get_commit in Hget. cbn in Hget. rewrite Hlast in Hget.
  injection Hget as <- <-. cbn [default from_option] in Hrun.
  rewrite Hsome in Hrun. cbn [negb] in Hrun. cbv iota in Hrun.
  apply bind_inv_val in Hrun as ([] & w3 & Hdiff & Hrun).
  apply bind_inv_val in Hdiff as ([] & w4 & Hemit & Hdiff).
  unfold emit in Hemit. injection Hemit as <-.
  apply bind_inv_val in Hdiff as (diff & w5 & Hgd & Hdiff).
  unfold lift_outcome in Hgd. injection Hgd as Hgd <-.
  apply bind_inv_val in Hrun as (hex & w6 & Hhex & Hrun).
  unfold lift_outcome in Hhex. injection Hhex as Hhex <-.
  apply bind_inv_val in Hrun as ([] & w7 & Hwrite & Hrun).
  apply bind_inv_val in Hrun as ([] & w8 & Hdel & Hrun).
  injection Hrun as <-.
  exists diff.
  destruct (deploy_diff_log d diff config
              (add_log EvDiff (add_log (EvCall (oid d) MDeploy) w)))
    as (evs1 & Hl1 & Hnl1 & Hc1).
  rewrite Hdiff in Hl1, Hc1. cbn [fst snd] in *.
  destruct (write_new_file_emits ftp d COMMIT_FILE hex w3) as (evs2 & Hl2 & Hw2).
  rewrite Hwrite in Hl2. cbn [snd] in Hl2.
  destruct (delete_file_emits ftp d LOCK_FILE w7) as (evs3 & Hl3 & Hw3).
  rewrite Hdel in Hl3. cbn [snd] in Hl3.
  exists ([EvCall (oid d) MDeploy; EvDiff] ++ evs1 ++ evs2 ++ evs3).
  split; [done|]. split; [|split].
  - rewrite Hl3, Hl2, Hl1. cbn. rewrite <- !app_assoc. done.
  - rewrite !copy_calls_app, (Hc1 eq_refl).
    rewrite (copy_calls_none _ evs2), (copy_calls_none _ evs3), !app_nil_r; [done| |].
    + eapply Forall_impl; [exact Hw3|]. intros [? []| | | | | | | | |]; done.
    + eapply Forall_impl; [exact Hw2|]. intros [? []| | | | | | | | |]; done.
  - apply Forall_app. split; [by repeat constructor|].
    apply Forall_app. split; [done|].
    apply Forall_app. split.
    + eapply Forall_impl; [exact Hw2|]. intros [? []| | | | | | | | |]; done.
    + eapply Forall_impl; [exact Hw3|]. intros [? []| | | | | | | | |]; done.
Qed.

(** the commit marker a local deploy leaves *)
Lemma deploy_local_marker d commit config (w w' : World R) :
  connection_mode d = None ->
  Dir.deploy ftp git d commit config w = (Val true, w') ->
  exists hex,
    py_hexsha commit = Val hex /\
    files w' !! OsPath.join (path d) COMMIT_FILE = Some hex.
Proof.
  intros Hmode Hrun. unfold Dir.deploy in Hrun.
  apply bind_inv_val in Hrun as ([] & w1 & _ & Hrun).
  apply bind_inv_val in Hrun as (last & w2 & _ & Hrun).
  apply bind_inv_val in Hrun as ([] & w3 & _ & Hrun).
  apply bind_inv_val in Hrun as (hex & w4 & Hhex & Hrun).
  unfold lift_outcome in Hhex. injection Hhex as Hhex <-.
  apply bind_inv_val in Hrun as ([] & w5 & Hwrite & Hrun).
  apply bind_inv_val in Hrun as ([] & w6 & Hdel & Hrun).
  injection Hrun as <-.
  exists hex. split; [done|].
  destruct (write_new_file_local ftp d _ _ _ _ Hmode Hwrite) as [Hf5 Hd5].
  destruct (delete_lock_local ftp d _ _ Hmode Hdel) as (Hf6 & Hd6 & Hex).
  rewrite Hf6, Hf5.
  rewrite lookup_delete_ne by apply lock_commit_paths_differ.
  by rewrite lookup_insert_eq.
Qed.

(** X21: what one run records, the next run reads cut short.  After a
    deploy to a local target has completed, [check_valid_commit] on
    that target asks the repository for the identifier of the deployed
    commit without its last character, and answers by what comes back:
    a true value for a commit, a false one for anything else, and the
    exception when the resolution raises. *)
Theorem deploy_then_check_valid_commit d commit config repo (w w' : World R) :
  connection_mode d = None ->
  Dir.deploy ftp git d commit config w = (Val true, w') ->
  exists hex,
    py_hexsha commit = Val hex /\
    match git_commit git repo (PyStr.drop_last hex) with
    | Val o =>
        exists answer,
          fst (Dir.check_valid_commit ftp git d repo w') = Val answer /\
          py_truthy answer = class_is_Commit o
    | Exc x => fst (Dir.check_valid_commit ftp git d repo w') = Exc x
    end.
Proof.
  intros Hmode Hrun.
  destruct (deploy_local_marker d commit config w w' Hmode Hrun) as (hex & Hhex & Hfile).
  exists hex. split; [done|].
  destruct (check_valid_commit_local ftp git d repo w' Hmode) as [_ Hpres].
  specialize (Hpres _ Hfile).
  destruct (git_commit git repo (PyStr.drop_last hex)) as [o|x]; [|done].
  destruct Hpres as [-> _]. eexists. split; [done|].
  destruct o as [|b|?|?|t h]; cbn; try done; by destruct b || by destruct t.
Qed.
End DeployDiff.

(** ** The FTP transport *)

Section FtpMethods.
Context {R : Type}.
Variable ftp : FtpLib R.
Variable git : GitLib.

(** X22: what a [connect] that returns has done on an FTP target.  The
    target has a host; a session to that host was opened and is kept in
    [self.handle]; and [login] was called on it exactly when the user
    or the password is missing, the session being opened with both
    otherwise.  Nothing else was sent. *)
Theorem connect_ftp_session d (w w' : World R) :
  Dir.mode_is_FTP d = true ->
  Dir.connect ftp d w = (Val tt, w') ->
  exists a hst h,
    auth d = Some a /\ host a = Some hst /\
    handle_attr w' !! oid d = Some h /\
    log w' = log w ++ EvCall (oid d) MConnect :: EvFtpOpen hst ::
               match user a, password a with
               | Some _, Some _ => []
               | _, _ => [EvFtp h CLogin]
               end.
Proof.
  intros Hftp%mode_FTP_inv. unfold Dir.connect. rewrite Hftp, String.eqb_refl.
  intros Hrun. apply bind_inv_val in Hrun as ([] & w1 & Hemit & Hrun).
  unfold emit in Hemit. injection Hemit as <-.
  destruct (auth d) as [a|]; [|done].
  destruct (host a) as [hst|] eqn:Hhost.
  2:{ apply bind_inv_val in Hrun as ([] & w2 & _ & Hrun). done. }
  exists a, hst.
  destruct (user a) as [u|]; [destruct (password a) as [p|]|];
    unfold bind, print, Dir.ftp_open, Dir.set_handle, Dir.get_handle, Dir.ftp_call in Hrun;
    cbn in Hrun;
    (destruct (ftp_FTP ftp hst _ (remote w)) as [[h|x] r] eqn:HF; cbn in Hrun; [|done]);
    rewrite ?lookup_insert_eq in Hrun; cbn in Hrun;
    try (destruct (ftp_login ftp h r) as [[[]|x] r'] eqn:HL; cbn in Hrun; [|done]);
    injection Hrun as <-; exists h; cbn; rewrite ?lookup_insert_eq, <- ?app_assoc; done.
Qed.

(** X23: the directory of a file copied over FTP is created only after
    an IOError.  [copy_file] changes to the directory of the file
    first.  When the server's answer to that raises anything but
    IOError (a permanent error reply is not one), [copy_file] ends with
    that exception and has sent nothing else: no directory is made and
    nothing is stored.  When it raises IOError, the next command is the
    creation of the directory. *)
Theorem copy_file_ftp_missing_directory d f src (w : World R) h contents e r1 :
  Dir.mode_is_FTP d = true ->
  handle_attr w !! oid d = Some h ->
  files w !! src = Some contents ->
  let p := OsPath.join (path d) (OsPath.dirname f) in
  ftp_cwd ftp h p (remote w) = (Exc e, r1) ->
  (is_IOError e = false ->
   fst (Dir.copy_file ftp d f src w) = Exc e /\
   log (snd (Dir.copy_file ftp d f src w)) =
     log w ++ [EvCall (oid d) (MCopyFile f src); EvFtp h (CCwd p)]) /\
  (is_IOError e = true ->
   exists evs,
     log (snd (Dir.copy_file ftp d f src w)) =
       log w ++ [EvCall (oid d) (MCopyFile f src); EvFtp h (CCwd p);
                 EvFtp h (CMkd p)] ++ evs).
Proof.
  intros Hftp%mode_FTP_inv Hh Hsrc p Hcwd.
  remember (Dir.copy_file ftp d f src w) as r eqn:Hr.
  unfold Dir.copy_file in Hr. rewrite Hftp, String.eqb_refl in Hr. cbv zeta in Hr.
  fold p in Hr.
  unfold bind at 1, emit in Hr. unfold bind at 1, Fs.read in Hr.
  cbn [files add_log] in Hr. rewrite Hsrc in Hr. unfold bind at 1 in Hr.
  unfold Dir.cwd_or_mkd, try_except in Hr.
  unfold bind at 1, Dir.get_handle at 1 in Hr. cbn [handle_attr add_log] in Hr.
  rewrite Hh in Hr. unfold Dir.ftp_call at 1 in Hr. cbn [remote add_log] in Hr.
  rewrite Hcwd in Hr.
  split; intros He; rewrite He in Hr.
  - subst r. split; [done|]. cbn. by rewrite <- app_assoc.
  - unfold ret at 1 in Hr. unfold bind at 1 in Hr. unfold bind at 1 in Hr.
    unfold Dir.get_handle at 1 in Hr. cbn [handle_attr set_remote add_log] in Hr.
    rewrite Hh in Hr.
    unfold bind at 1, Dir.ftp_call at 1 in Hr. cbn [remote set_remote add_log] in Hr.
    destruct (ftp_mkd ftp h p r1) as [[[]|x] r2].
    + set (w3 := set_remote r2 _) in Hr.
      assert (log w3 = log w ++ [EvCall (oid d) (MCopyFile f src); EvFtp h (CCwd p);
                                 EvFtp h (CMkd p)]) as Hl3
        by (unfold w3; cbn; by rewrite <- !app_assoc).
      assert (emits (fun _ => true)
                (h' <- Dir.get_handle d ;; Dir.ftp_call h' (CCwd p) (ftp_cwd ftp h' p))) as Hk1
        by repeat emits_step.
      assert (emits (fun _ => true)
                (h0 <- Dir.get_handle d ;;
                 Dir.ftp_call h0 (CStor ("STOR " +:+ OsPath.basename f) contents)
                   (ftp_storbinary ftp h0 ("STOR " +:+ OsPath.basename f) contents))) as Hk2
        by repeat emits_step.
      destruct (Hk1 w3) as (evs1 & Hl1 & _).
      destruct ((h' <- Dir.get_handle d ;; Dir.ftp_call h' (CCwd p) (ftp_cwd ftp h' p)) w3)
        as [[[]|x] w4]; cbn [snd] in *.
      * destruct (Hk2 w4) as (evs2 & Hl2 & _). exists (evs1 ++ evs2).
        subst r. rewrite Hl2, Hl1, Hl3. by rewrite <- !app_assoc.
      * exists evs1. subst r. cbn [snd]. rewrite Hl1, Hl3. by rewrite <- !app_assoc.
    + exists []. subst r. cbn. by rewrite <- !app_assoc.
Qed.
End FtpMethods.

Lemma stored_app (l1 l2 : list Event) : stored (l1 ++ l2) = stored l1 ++ stored l2.
Proof. unfold stored. apply omap_app. Qed.

Lemma stored_none (l : list Event) :
  Forall (fun e => is_stor e = false) l -> stored l = [].
Proof.
  induction 1 as [|e l He _ IH]; [done|].
  cbn. destruct e as [| | | | | | | | |? []]; try done.
Qed.

Section FtpStores.
Context {R : Type}.
Variable ftp : FtpLib R.
Variable git : GitLib.

(** what a [copy_file] that returns has sent to the server *)
Lemma copy_file_ftp_run d f src (w w' : World R) :
  Dir.mode_is_FTP d = true ->
  Dir.copy_file ftp d f src w = (Val tt, w') ->
  exists contents evs,
    files w !! src = Some contents /\
    files w' = files w /\
    log w' = log w ++ evs /\
    stored evs = [("STOR " +:+ OsPath.basename f, contents)].
Proof.
  intros Hftp%mode_FTP_inv Hrun. unfold Dir.copy_file in Hrun.
  rewrite Hftp, String.eqb_refl in Hrun. cbv zeta in Hrun.
  apply bind_inv_val in Hrun as ([] & w1 & Hemit & Hrun).
  unfold emit in Hemit. injection Hemit as <-.
  apply bind_inv_val in Hrun as (contents & w2 & Hread & Hrun).
  unfold Fs.read in Hread. cbn [files add_log] in Hread.
  destruct (files w !! src) as [c|] eqn:Hsrc; [|done]. injection Hread as <- <-.
  apply bind_inv_val in Hrun as ([] & w3 & Hcwd & Hrun).
  apply bind_inv_val in Hrun as (h & w4 & Hget & Hrun).
  unfold Dir.get_handle in Hget.
  destruct (handle_attr w3 !! oid d) as [h'|]; [|done]. injection Hget as <- <-.
  unfold Dir.ftp_call in Hrun.
  destruct (ftp_storbinary ftp h' _ _ (remote w3)) as [o r]. injection Hrun as -> <-.
  set (p := OsPath.join (path d) (OsPath.dirname f)) in *.
  assert (emits (fun e => negb (is_stor e)) (Dir.cwd_or_mkd ftp d p p false)) as Hem
    by (unfold Dir.cwd_or_mkd; repeat emits_step).
  assert (keeps files (Dir.cwd_or_mkd ftp d p p false)) as Hk
    by (unfold Dir.cwd_or_mkd; repeat keeps_step).
  destruct (Hem (add_log (EvCall (oid d) (MCopyFile f src)) w)) as (evs & Hlog & Hfp).
  specialize (Hk (add_log (EvCall (oid d) (MCopyFile f src)) w)).
  rewrite Hcwd in Hlog, Hk. cbn [snd] in Hlog, Hk.
  exists c, ([EvCall (oid d) (MCopyFile f src)] ++ evs ++
             [EvFtp h' (CStor ("STOR " +:+ OsPath.basename f) c)]).
  split; [done|]. split; [exact Hk|]. split.
  - cbn. rewrite Hlog. cbn. by rewrite <- !app_assoc.
  - rewrite !stored_app. cbn. rewrite (stored_none evs); [done|].
    eapply Forall_impl; [exact Hfp|]. intros e He. cbn beta in He.
    by apply negb_true_iff in He.
Qed.

(** X28: what a loop of copies sends to an FTP target.  When
    [deploy_tree] completes on an FTP target, the files stored on the
    server are, in the order of the tree, one per path of the tree: each
    under the base name of the path and with the contents of its
    source; no local file has changed. *)
Theorem deploy_tree_ftp_stores d tree config (w w' : World R) :
  Dir.mode_is_FTP d = true ->
  Dir.deploy_tree ftp d tree config w = (Val tt, w') ->
  files w' = files w /\
  exists evs,
    log w' = log w ++ evs /\
    Forall2 (fun p sent =>
               fst sent = "STOR " +:+ OsPath.basename p /\
               files w !! OsPath.join (cfg_path config) p = Some (snd sent))
            tree (stored evs).
Proof.
  intros Hftp. unfold Dir.deploy_tree. revert w.
  induction tree as [|p tree IH]; intros w Hrun; cbn [for_each] in Hrun.
  - injection Hrun as <-. split; [done|]. exists []. rewrite app_nil_r.
    split; [done|]. constructor.
  - apply bind_inv_val in Hrun as ([] & w1 & Hcopy & Hrest).
    destruct (copy_file_ftp_run d p _ w w1 Hftp Hcopy) as (c & evs1 & Hsrc & Hf1 & Hl1 & Hs1).
    destruct (IH w1 Hrest) as (Hf2 & evs2 & Hl2 & Hall).
    split; [congruence|]. exists (evs1 ++ evs2).
    split; [by rewrite Hl2, Hl1, <- app_assoc|].
    rewrite stored_app, Hs1. cbn [app]. constructor; [done|].
    eapply Forall2_impl; [exact Hall|]. intros q sent [Hcmd Hdata].
    split; [done|]. by rewrite <- Hf1.
Qed.
End FtpStores.

(** ** What a deploy leaves in a local target *)

Section LocalContents.
Context {R : Type}.
Variable ftp : FtpLib R.
Variable git : GitLib.





End LocalContents.
(** ** The statements on concrete runs *)

Module Runs.
Import Toy Scenario.

(** C1: targets "a" and "b" are local and "b" is locked by another run; the
    third target is on a server that refuses the change to its directory.
    The run locks "a", finds "b" locked, and stops with the server's error
    inside [check_locked]: no abort is run and the marker written in "a"
    stays. *)
Theorem lock_gate_crash_keeps_lock :
  files b_locked_world !! "b/.git_lock" = Some "locked" /\
  files b_locked_world !! "a/.git_lock" = None /\
  fst run_lock_gate = Exc (LibError "550") /\
  files (snd run_lock_gate) !! "a/.git_lock" = Some "locked" /\
  log (snd run_lock_gate) =
    [EvCall 0 MConnect; EvCall 0 MCheckLocked; EvCall 0 MLock;
     EvCall 0 (MWriteNewFile ".git_lock" "locked"); EvFsWrite "a/.git_lock";
     EvCall 1 MConnect; EvCall 1 MCheckLocked;
     EvCall 2 MConnect; EvFtpOpen example_host; EvFtp 0 CLogin;
     EvCall 2 MCheckLocked; EvFtp 0 (CCwd "/www")].
Proof. vm_compute. repeat split. Qed.

(** the same two local targets alone: the lock of "a" is rolled back *)
Example lock_gate_local_rollback :
  fst run_lock_gate_local = Exc SystemExit /\
  files (snd run_lock_gate_local) !! "a/.git_lock" = None /\
  map_to_list (files (snd run_lock_gate_local)) = map_to_list b_locked.
Proof. vm_compute. repeat split. Qed.



(** the same deploy to the FTP target, on a server that has the two
    directories: the marker is stored and the lock marker is gone *)
Example deploy_ftp_markers :
  fst run_ftp_hard = Val tt /\
  s_files (remote (snd run_ftp_hard)) !! "/www/.git_commit" = Some (hexsha c2) /\
  s_files (remote (snd run_ftp_hard)) !! "/www/.git_lock" = None.
Proof. vm_compute. repeat split. Qed.

(** C3, as the specification states it, fails: the revision "z" does not
    resolve, the run stops with the error of the resolution, and the lock
    marker of "www" has been written before and is still there. *)
Lemma resolution_after_locking_counterexample :
  files fresh !! "www/.git_lock" = None /\
  fst run_bad_revision = Exc (LibError "BadName") /\
  files (snd run_bad_revision) !! "www/.git_lock" = Some "locked" /\
  log (snd run_bad_revision) =
    [EvCall 0 MConnect; EvCall 0 MCheckLocked; EvCall 0 MLock;
     EvCall 0 (MWriteNewFile ".git_lock" "locked"); EvFsWrite "www/.git_lock";
     EvRepo "src"; EvResolve (Some "z")].
Proof. vm_compute. repeat split. Qed.

(** with a repository object that answers None for an unknown revision
    the run goes on with the abort; with one that raises, the run ends
    there and the marker of "www" stays *)
Lemma resolution_follows_locking_witness :
  log (snd (main ftp (toy_git true) ["zzz"] (conf [local_target "www"]) fresh)) =
    log fresh ++ lock_events_www ++ EvResolve (Some "z") :: abort_events_www /\
  EvFsWrite (lock_path www) ∈ lock_events_www /\
  (exists l3, abort_events_www = EvCall 0 MAbort :: l3) /\
  fst run_bad_revision = Exc (LibError "BadName") /\
  files (snd run_bad_revision) !! "www/.git_lock" = Some "locked".
Proof.
  assert (log (snd (main ftp (toy_git true) ["zzz"] (conf [local_target "www"]) fresh)) =
          log fresh ++ lock_events_www ++ EvResolve (Some "z") :: abort_events_www)
    as H by (vm_compute; reflexivity).
  split; [exact H|].
  destruct (resolution_follows_locking ftp (toy_git true) ["zzz"]
              (conf [local_target "www"]) fresh lock_events_www (Some "z")
              abort_events_www H)
    as (j & config & Hj & Hconf & _ & Hlocks & Habort & _).
  { repeat constructor. }
  injection Hj as <-. vm_compute in Hconf. injection Hconf as <-.
  split; [apply (Hlocks www); [apply list_elem_of_here | reflexivity]|].
  split.
  { destruct (Habort (PyRepo "src") PyNone) as (d0 & l3 & Hhead & Hl2);
      [reflexivity..|].
    injection Hhead as <-. exists l3. exact Hl2. }
  assert (log (snd run_bad_revision) =
          log fresh ++ lock_events_www ++ EvResolve (Some "z") :: [])
    as H2 by (vm_compute; reflexivity).
  destruct (resolution_follows_locking ftp git ["zzz"]
              (conf [local_target "www"]) fresh lock_events_www (Some "z") [] H2)
    as (j & config & Hj & Hconf & _ & _ & _ & _ & locking & w1 & _ & _ & _ & _
          & Hheld & Hexc).
  { repeat constructor. }
  injection Hj as <-. vm_compute in Hconf. injection Hconf as <-.
  specialize (Hexc (PyRepo "src") (LibError "BadName") eq_refl eq_refl).
  destruct (Hheld www (list_elem_of_here _ _)) as [Hfile _].
  specialize (Hfile eq_refl).
  unfold run_bad_revision. rewrite Hexc. split; [reflexivity|]. exact Hfile.
Defined.

(** C4: the identifier of [c2] written to the commit marker of "www" and
    read back has lost its last character. *)
Lemma commit_marker_read_witness :
  Dir.write_new_file ftp www COMMIT_FILE (hexsha c2) fresh = (Val tt, www_marked) /\
  Dir._read_root_dir_file_contents ftp www COMMIT_FILE www_marked =
    (Val "222222222222222222222222222222222222222", www_marked) /\
  String.length (hexsha c2) = 40 /\
  PyStr.drop_last (hexsha c2) <> hexsha c2.
Proof.
  assert (Dir.write_new_file ftp www COMMIT_FILE (hexsha c2) fresh = (Val tt, www_marked))
    as H by (vm_compute; reflexivity).
  split; [exact H|].
  destruct (commit_marker_read_drops_last_char ftp www (hexsha c2) fresh www_marked
              eq_refl H) as [Hread Hneq].
  split; [exact Hread|]. split; [reflexivity|]. apply Hneq. discriminate.
Defined.

(** C5, as the specification states it, fails: a hard deploy of [c1], which
    is not the commit checked out, copies the files that [ls_files] lists
    and not the files of [c1]. *)
Lemma hard_deploy_listing_counterexample :
  fst run_hard_c1 = Val tt /\
  files (snd run_hard_c1) !! "www/.git_commit" = Some (hexsha c1) /\
  fst <$> copy_calls 0 (log (snd run_hard_c1)) = ["a.txt"; "b/c.txt"] /\
  git_ls_tree git c1 = ["a.txt"; "old.txt"].
Proof. vm_compute. repeat split. Qed.

Lemma hard_deploy_copies_ls_files_witness :
  commit_attr www_locked !! oid www = None /\
  Dir.deploy ftp git www (PyCommit c1) config_www www_locked = (Val true, www_deployed_c1) /\
  exists evs,
    log www_deployed_c1 = log www_locked ++ evs /\
    copy_calls 0 evs = [("a.txt", "src/a.txt"); ("b/c.txt", "src/b/c.txt")].
Proof.
  assert (Dir.deploy ftp git www (PyCommit c1) config_www www_locked
          = (Val true, www_deployed_c1)) as H by (vm_compute; reflexivity).
  split; [reflexivity|]. split; [exact H|].
  destruct (hard_deploy_copies_ls_files ftp git www (PyCommit c1) config_www
              www_locked www_deployed_c1 eq_refl H)
    as (listing & evs & Hls & Hlog & Hcalls & _).
  injection Hls as <-. exists evs. split; [exact Hlog|]. exact Hcalls.
Defined.

(** C6: the commit marker is on the server, and the check raises. *)
Lemma check_valid_commit_ftp_raises_witness :
  Dir.mode_is_FTP ftp_www = true /\
  fst (Dir._check_file_exists ftp ftp_www COMMIT_FILE ftp_www_connected) = Val true /\
  fst (Dir.check_valid_commit ftp git ftp_www (PyRepo "src") ftp_www_connected)
    = Exc (AttributeError "Directory instance has no attribute '_read_to_buffer'").
Proof.
  split; [reflexivity|]. split; [vm_compute; reflexivity|].
  destruct (check_valid_commit_ftp_raises ftp git ftp_www (PyRepo "src")
              ftp_www_connected) as [e He];
    [reflexivity | vm_compute; reflexivity |].
  vm_compute. reflexivity.
Defined.

(** C7, as the specification states it, fails: the first target cannot
    take "a.txt", the run stops there, and the deploy of the second
    target is never called. *)
Lemma deploy_failure_stops_run_counterexample :
  fst run_blocked = Exc (IOError "") /\
  log (snd run_blocked) =
    [EvCall 0 MConnect; EvCall 0 MCheckLocked; EvCall 0 MLock;
     EvCall 0 (MWriteNewFile ".git_lock" "locked"); EvFsWrite "a/.git_lock";
     EvCall 1 MConnect; EvCall 1 MCheckLocked; EvCall 1 MLock;
     EvCall 1 (MWriteNewFile ".git_lock" "locked"); EvFsWrite "b/.git_lock";
     EvRepo "src"; EvResolve None;
     EvCall 0 MDeploy; EvLsFiles "src"; EvCall 0 (MCopyFile "a.txt" "src/a.txt")] /\
  out (snd run_blocked) = ["None"; "None"].
Proof. vm_compute. repeat split. Qed.

Lemma deploy_loop_stops_at_failure_witness :
  for_each [] (deploy_one ftp git (PyCommit c2) config_ab) ab_locked = (Val tt, ab_locked) /\
  Dir.deploy ftp git target_a (PyCommit c2) config_ab ab_locked = (Exc (IOError ""), ab_failed) /\
  for_each [target_a; target_b] (deploy_one ftp git (PyCommit c2) config_ab) ab_locked
    = (Exc (IOError ""), ab_failed).
Proof.
  assert (Dir.deploy ftp git target_a (PyCommit c2) config_ab ab_locked
          = (Exc (IOError ""), ab_failed)) as H by (vm_compute; reflexivity).
  split; [reflexivity|]. split; [exact H|].
  apply (deploy_loop_stops_at_failure ftp git (PyCommit c2) config_ab []
           target_a [target_b] ab_locked ab_locked ab_failed (IOError "") eq_refl H).
Defined.

(** C8, as the specification states it, fails: "old.txt" is not in the
    locked local target, and deleting it is not an error. *)
Lemma delete_missing_local_counterexample :
  files www_locked !! "www/old.txt" = None /\
  Fs.exists_ www_locked "www/.git_lock" = true /\
  Dir.delete_file ftp www "old.txt" www_locked =
    (Val tt, add_log (EvCall 0 MCheckLocked)
               (add_log (EvCall 0 (MDeleteFile "old.txt")) www_locked)).
Proof. vm_compute. repeat split. Qed.

Lemma delete_file_missing_file_witness :
  lock_marker ftp www fresh = Val false /\
  fst (Dir.delete_file ftp www LOCK_FILE fresh) = Val tt /\
  fst (Dir.delete_file ftp www "old.txt" www_locked) = Val tt /\
  fst (Dir.delete_file ftp ftp_www "old.txt" ftp_www_locked) = Exc (LibError "550").
Proof.
  split; [vm_compute; reflexivity|].
  destruct (delete_file_missing_file ftp www "old.txt" fresh) as (Habs & _).
  destruct (delete_file_missing_file ftp www "old.txt" www_locked) as (_ & Hloc & _).
  destruct (delete_file_missing_file ftp ftp_www "old.txt" ftp_www_locked)
    as (_ & _ & _ & Hftp).
  split; [apply Habs; vm_compute; reflexivity|].
  split; [apply Hloc; vm_compute; reflexivity|].
  eapply Hftp; vm_compute; reflexivity.
Defined.

(** C9: "a" is local and has no commit marker; the second target is on a
    server and has one.  The run locks both, and the check of the second
    raises: no abort is run, and both lock markers stay. *)
Theorem validation_crash_keeps_locks :
  files deployed_world !! "a/.git_commit" = None /\
  fst run_validation
    = Exc (AttributeError "Directory instance has no attribute '_read_to_buffer'") /\
  files (snd run_validation) !! "a/.git_lock" = Some "locked" /\
  s_files (remote (snd run_validation)) !! "/www/.git_lock" = Some "locked" /\
  List.filter is_validate_call (log (snd run_validation)) =
    [EvCall 0 MCheckValidCommit; EvCall 1 MCheckValidCommit] /\
  List.filter is_abort_call (log (snd run_validation)) = [].
Proof. vm_compute. repeat split. Qed.

(** C10 on a target without a lock marker, and on a missing file *)
Lemma delete_file_gated_on_lock_witness :
  lock_marker ftp www fresh_with_old = Val false /\
  files fresh_with_old !! "www/old.txt" = Some "O" /\
  fst (Dir.delete_file ftp www "old.txt" fresh_with_old) = Val tt /\
  files (snd (Dir.delete_file ftp www "old.txt" fresh_with_old)) = files fresh_with_old /\
  fst (Dir.delete_file ftp www "gone.txt" www_locked) = Val tt.
Proof.
  destruct (delete_file_gated_on_lock ftp www "old.txt" fresh_with_old) as [Hgate _].
  destruct (delete_file_gated_on_lock ftp www "gone.txt" www_locked) as [_ Hmiss].
  split; [vm_compute; reflexivity|]. split; [reflexivity|].
  destruct Hgate as (Hv & Hf & _); [vm_compute; reflexivity|].
  split; [exact Hv|]. split; [exact Hf|].
  apply Hmiss; [reflexivity | vm_compute; reflexivity].
Defined.
End Runs.

(** ** The further statements on concrete runs *)

Module MoreRuns.
Import Toy Scenario Cases.

(** the hypotheses on the targets of a configuration, one target at a time *)
Ltac each_target := apply Forall_forall; repeat constructor.

(** membership in a set of directories, by evaluation *)
Ltac by_evaluation :=
  match goal with
  | |- ?x ∉ ?X => apply (bool_decide_eq_false_1 (x ∈ X)); vm_compute; reflexivity
  | |- ?x ∈ ?X => apply (bool_decide_eq_true_1 (x ∈ X)); vm_compute; reflexivity
  end.

(** every file and directory of a scenario has a canonical relative name *)
Ltac names_canonical :=
  split;
  [ apply (bool_decide_eq_true_1 (map_Forall _ _))
  | apply (bool_decide_eq_true_1 (set_Forall _ _)) ];
  vm_compute; reflexivity.

(** two flags and two revisions: the last revision wins, cut to "d" *)
Lemma parse_args_closed_form_witness :
  for_fold ["-h"; "abc123"; "-v"; "def"] ([], None) parse_arg fresh
    = (Val (["h"; "v"], Some "d"), fresh).
Proof.
  destruct (parse_args_closed_form ["-h"; "abc123"; "-v"; "def"] fresh) as [H _].
  - repeat constructor; discriminate.
  - exact H.
Defined.

Lemma main_empty_argument_witness :
  main ftp git ["-h"; ""] (conf [local_target "www"]) fresh = (Exc IndexError, fresh).
Proof.
  apply (main_empty_argument ftp git ["-h"; ""] (conf [local_target "www"]) fresh).
  apply list_elem_of_further, list_elem_of_here.
Defined.

Lemma main_config_error_witness :
  main ftp git ["-h"] conf_no_path fresh =
    (Exc SystemExit,
     add_out "Unable to read git_deply.config. Aborting."
       (add_out "Parse errors : path missing" fresh)) /\
  main ftp git ["-h"] conf_not_json fresh =
    (Exc (PyException "No JSON object could be decoded"), fresh).
Proof.
  destruct (main_config_error ftp git ["-h"] conf_no_path fresh) as [Hio _].
  { repeat constructor; discriminate. }
  destruct (main_config_error ftp git ["-h"] conf_not_json fresh) as [_ Hother].
  { repeat constructor; discriminate. }
  split.
  - apply Hio. right. eexists. split; reflexivity.
  - apply Hother; reflexivity.
Defined.

Lemma main_no_targets_witness :
  main ftp git ["-h"] (conf []) fresh = (Exc SystemExit, fresh).
Proof.
  apply (main_no_targets ftp git ["-h"] (MkJConfig (Some repo_at) (Some []))
           (MkConfig repo_at []) fresh).
  - repeat constructor; discriminate.
  - reflexivity.
  - reflexivity.
Defined.

Lemma lock_local_witness :
  fst (Dir.lock ftp www fresh) = Val true /\
  files (snd (Dir.lock ftp www fresh)) = <["www/.git_lock" := "locked"]> (files fresh).
Proof.
  destruct (lock_local ftp www fresh eq_refl) as (b & w' & Hrun & _ & Hfiles & _).
  assert (fst (Dir.lock ftp www fresh) = Val true) as Htrue by (vm_compute; reflexivity).
  rewrite Hrun in Htrue |- *. cbn [fst snd] in *. injection Htrue as ->.
  split; [reflexivity | exact Hfiles].
Defined.

Lemma dir_abort_local_marker_witness :
  files www_locked !! "www/.git_lock" = Some "locked" /\
  fst (Dir.abort ftp www www_locked) = Val tt /\
  files (snd (Dir.abort ftp www www_locked)) = delete "www/.git_lock" (files www_locked).
Proof.
  destruct (dir_abort_local_marker ftp www www_locked eq_refl) as [Hgone _].
  destruct Hgone as (w' & Hrun & Hfiles & _); [by_evaluation|].
  rewrite Hrun. cbn [fst snd]. split; [reflexivity|]. split; [reflexivity | exact Hfiles].
Defined.


Lemma copy_file_missing_source_witness :
  files www_with_a !! "www/a.txt" = Some "OLD" /\
  files www_with_a !! "src/gone.txt" = None /\
  fst (Dir.copy_file ftp www "a.txt" "src/gone.txt" www_with_a) = Exc (IOError "") /\
  files (snd (Dir.copy_file ftp www "a.txt" "src/gone.txt" www_with_a))
    = <["www/a.txt" := ""]> (files www_with_a).
Proof.
  split; [reflexivity|]. split; [reflexivity|].
  destruct (copy_file_missing_source ftp false www "a.txt" "src/gone.txt" www_with_a)
    as (msg & w' & Hrun & Hfiles & _);
    [reflexivity | names_canonical | reflexivity | reflexivity | reflexivity
     | discriminate | by_evaluation | by_evaluation |].
  assert (fst (Dir.copy_file ftp www "a.txt" "src/gone.txt" www_with_a)
          = Exc (IOError "")) as Hexc by (vm_compute; reflexivity).
  split; [exact Hexc|]. rewrite Hrun. exact Hfiles.
Defined.

Lemma deploy_diff_renames_local_witness :
  fst (Dir.deploy_diff ftp www [rename_a] config_www www_with_a) = Val tt /\
  files (snd (Dir.deploy_diff ftp www [rename_a] config_www www_with_a))
    = files www_with_a.
Proof.
  destruct (deploy_diff_renames_local ftp www [rename_a] config_www www_with_a)
    as (w' & Hrun & Hfiles & _).
  - reflexivity.
  - repeat constructor.
  - rewrite Hrun. split; [reflexivity | exact Hfiles].
Defined.

(** a target without a commit marker, and a marker that names [c1] *)
Lemma check_valid_commit_on_local_witness :
  fst (Dir.check_valid_commit ftp git www (PyRepo "src") fresh) = Val (PyBool false) /\
  (exists answer,
     fst (Dir.check_valid_commit ftp git www (PyRepo "src") www_marked_c1) = Val answer /\
     py_truthy answer = true) /\
  commit_attr (snd (Dir.check_valid_commit ftp git www (PyRepo "src") www_marked_c1)) !! 0
    = Some (PyCommit c1).
Proof.
  destruct (check_valid_commit_on_local ftp git www (PyRepo "src") fresh eq_refl)
    as [Habsent _].
  destruct (check_valid_commit_on_local ftp git www (PyRepo "src") www_marked_c1 eq_refl)
    as [_ Hpresent].
  split; [apply Habsent; vm_compute; reflexivity|].
  exact (Hpresent (hexsha c1) PyStr.nl eq_refl).
Defined.

Lemma lock_dirs_returns_all_witness :
  fst (lock_dirs ftp config_www fresh) = Val (Some [www]) /\
  supported www /\
  exists evs,
    log (snd (lock_dirs ftp config_www fresh)) = log fresh ++ evs /\
    EvFsWrite "www/.git_lock" ∈ evs.
Proof.
  assert (lock_dirs ftp config_www fresh
          = (Val (Some [www]), snd (lock_dirs ftp config_www fresh))) as H
    by (vm_compute; reflexivity).
  destruct (lock_dirs_returns_all ftp config_www [www] fresh _ H)
    as (_ & Hsup & evs & Hlog & _ & Hlocks).
  split; [by rewrite H|]. split; [apply Hsup, list_elem_of_here|].
  exists evs. split; [exact Hlog|].
  apply (Hlocks www); [apply list_elem_of_here | reflexivity].
Defined.

(** "b" is locked by another run: the marker written in "a" is removed *)
Lemma lock_dirs_local_all_or_nothing_witness :
  Fs.exists_ b_locked_local "b/.git_lock" = true /\
  fst (lock_dirs ftp config_ab b_locked_local) = Val None /\
  files (snd (lock_dirs ftp config_ab b_locked_local)) = files b_locked_local.
Proof.
  split; [vm_compute; reflexivity|].
  assert (fst (lock_dirs ftp config_ab b_locked_local) = Val None) as Hnone
    by (vm_compute; reflexivity).
  split; [exact Hnone|].
  destruct (lock_dirs_local_all_or_nothing ftp config_ab b_locked_local)
    as (r & w' & Hrun & _ & Hcase); [each_target|].
  rewrite Hrun in Hnone |- *. cbn [fst snd] in *. injection Hnone as ->. exact Hcase.
Defined.

Lemma main_local_rollback_witness :
  Fs.exists_ b_locked_local "b/.git_lock" = true /\
  exists w',
    main ftp git ["-h"] (Val j_ab) b_locked_local = (Exc SystemExit, w') /\
    files w' = files b_locked_local.
Proof.
  split; [vm_compute; reflexivity|].
  destruct (main_local_rollback ftp git ["-h"] j_ab config_ab b_locked_local target_b)
    as (w' & evs & Hrun & Hfiles & _).
  - repeat constructor; discriminate.
  - reflexivity.
  - each_target.
  - apply list_elem_of_further, list_elem_of_here.
  - vm_compute; reflexivity.
  - exists w'. split; [exact Hrun | exact Hfiles].
Defined.

(** "www" is locked by this run and has no commit marker *)
Lemma check_dirs_configured_local_witness :
  fst (check_dirs_configured ftp git config_www [www] (PyRepo "src") www_locked)
    = Val false /\
  files (snd (check_dirs_configured ftp git config_www [www] (PyRepo "src") www_locked))
    = source_files.
Proof.
  assert (check_dirs_configured ftp git config_www [www] (PyRepo "src") www_locked
          = (Val false,
             snd (check_dirs_configured ftp git config_www [www] (PyRepo "src") www_locked)))
    as H by (vm_compute; reflexivity).
  assert (locks_added (dirs www_locked) source_files [www] (files www_locked)) as Hadd
    by (apply (locks_added_cons local_dirs source_files www [] _);
          [reflexivity | by_evaluation | apply locks_added_nil]).
  destruct (check_dirs_configured_local ftp git config_www [www] (PyRepo "src")
              source_files www_locked _ false ltac:(each_target) Hadd H) as [_ Hfiles].
  split; [by rewrite H | exact Hfiles].
Defined.

Lemma hard_run_skips_validation_witness :
  commit_attr (snd run_hard_c1) = commit_attr fresh /\
  exists evs,
    log (snd run_hard_c1) = log fresh ++ evs /\
    Forall (fun e => is_validate_call e = false) evs.
Proof.
  apply (hard_run_skips_validation ftp git ["1"; "-h"] (conf [local_target "www"]) fresh).
  apply list_elem_of_further, list_elem_of_here.
Defined.

Lemma deploy_after_all_checks_witness :
  log (snd run_checked) = log www_marked_c1 ++ checked_before ++ EvCall 0 MDeploy :: checked_after /\
  EvCall 0 MCheckValidCommit ∈ checked_before.
Proof.
  assert (log (snd run_checked)
          = log www_marked_c1 ++ checked_before ++ EvCall 0 MDeploy :: checked_after) as H
    by (vm_compute; reflexivity).
  split; [exact H|].
  destruct (deploy_after_all_checks ftp git [] (conf [local_target "www"]) www_marked_c1
              checked_before 0 checked_after)
    as (j & config & Hj & Hconf & Hchecks).
  - apply not_elem_of_nil.
  - exact H.
  - injection Hj as <-. vm_compute in Hconf. injection Hconf as <-.
    apply (Hchecks www). apply list_elem_of_here.
Defined.

Lemma unsupported_mode_blocks_run_witness :
  connection_mode sftp_b = Some "SFTP" /\
  exists evs,
    log (snd (main ftp git [] (Val j_sftp) fresh)) = log fresh ++ evs /\
    Forall (fun e => is_deploy_call e = false) evs.
Proof.
  split; [reflexivity|].
  apply (unsupported_mode_blocks_run ftp git [] j_sftp config_sftp fresh sftp_b).
  - reflexivity.
  - apply list_elem_of_further, list_elem_of_here.
  - intros [H|H]; discriminate.
Defined.

Lemma main_success_witness :
  fst run_checked = Val tt /\
  exists evs,
    log (snd run_checked) = log www_marked_c1 ++ evs /\
    List.filter is_deploy_call evs = [EvCall 0 MDeploy] /\
    last (out (snd run_checked)) = Some "Done".
Proof.
  assert (main ftp git [] (conf [local_target "www"]) www_marked_c1
          = (Val tt, snd run_checked)) as H by (vm_compute; reflexivity).
  split; [vm_compute; reflexivity|].
  destruct (main_success ftp git [] (conf [local_target "www"]) www_marked_c1 _ H)
    as (j & config & evs & Hj & Hconf & _ & _ & Hlog & Hcalls & Hdone).
  injection Hj as <-. vm_compute in Hconf. injection Hconf as <-.
  exists evs. split; [exact Hlog|]. split; [exact Hcalls | exact Hdone].
Defined.

(** the diff from [c1] to [c2] changes "a.txt", deletes "old.txt" and adds
    "b/c.txt" *)
Lemma deploy_with_recorded_commit_witness :
  commit_attr www_validated !! 0 = Some (PyCommit c1) /\
  exists evs,
    log (snd (Dir.deploy ftp git www (PyCommit c2) config_www www_validated))
      = log www_validated ++ evs /\
    copy_calls 0 evs = [("a.txt", "src/a.txt"); ("b/c.txt", "src/b/c.txt")].
Proof.
  split; [reflexivity|].
  assert (Dir.deploy ftp git www (PyCommit c2) config_www www_validated
          = (Val true, snd (Dir.deploy ftp git www (PyCommit c2) config_www www_validated)))
    as H by (vm_compute; reflexivity).
  destruct (deploy_with_recorded_commit ftp git www (PyCommit c2) config_www
              www_validated _ (PyCommit c1) eq_refl eq_refl H)
    as (diff & evs & Hdiff & Hlog & Hcalls & _).
  vm_compute in Hdiff. injection Hdiff as <-.
  exists evs. split; [exact Hlog | exact Hcalls].
Defined.

(** the marker left by the deploy of [c2] is read back without its last
    character, which still names [c2] *)
Lemma deploy_then_check_valid_commit_witness :
  Dir.deploy ftp git www (PyCommit c2) config_www www_locked = (Val true, www_deployed) /\
  exists answer,
    fst (Dir.check_valid_commit ftp git www (PyRepo "src") www_deployed) = Val answer /\
    py_truthy answer = true.
Proof.
  assert (Dir.deploy ftp git www (PyCommit c2) config_www www_locked
          = (Val true, www_deployed)) as H by (vm_compute; reflexivity).
  split; [exact H|].
  destruct (deploy_then_check_valid_commit ftp git www (PyCommit c2) config_www
              (PyRepo "src") www_locked www_deployed eq_refl H) as (hex & Hhex & Hcheck).
  injection Hhex as <-. exact Hcheck.
Defined.

Lemma connect_ftp_session_witness :
  exists h,
    handle_attr (snd (Dir.connect ftp ftp_www (world source_files local_dirs server_with_dirs)))
      !! 0 = Some h /\
    log (snd (Dir.connect ftp ftp_www (world source_files local_dirs server_with_dirs)))
      = [EvCall 0 MConnect; EvFtpOpen example_host; EvFtp h CLogin].
Proof.
  assert (Dir.connect ftp ftp_www (world source_files local_dirs server_with_dirs)
          = (Val tt, snd (Dir.connect ftp ftp_www
                            (world source_files local_dirs server_with_dirs)))) as H
    by (vm_compute; reflexivity).
  destruct (connect_ftp_session ftp ftp_www _ _ eq_refl H)
    as (a & hst & h & Ha & Hhst & Hh & Hlog).
  injection Ha as <-. injection Hhst as <-.
  exists h. split; [exact Hh | exact Hlog].
Defined.

(** the server has no "/www/b": it refuses, and nothing is created; a
    session that times out instead is followed by the creation *)
Lemma copy_file_ftp_missing_directory_witness :
  fst (Dir.copy_file ftp ftp_www "b/c.txt" "src/b/c.txt" ftp_www_connected)
    = Exc (LibError "550") /\
  log (snd (Dir.copy_file ftp ftp_www "b/c.txt" "src/b/c.txt" ftp_www_connected))
    = [EvCall 0 (MCopyFile "b/c.txt" "src/b/c.txt"); EvFtp 0 (CCwd "/www/b")] /\
  exists evs,
    log (snd (Dir.copy_file ftp_timeout ftp_www "b/c.txt" "src/b/c.txt" ftp_www_connected))
      = [EvCall 0 (MCopyFile "b/c.txt" "src/b/c.txt"); EvFtp 0 (CCwd "/www/b");
         EvFtp 0 (CMkd "/www/b")] ++ evs.
Proof.
  destruct (copy_file_ftp_missing_directory ftp ftp_www "b/c.txt" "src/b/c.txt"
              ftp_www_connected 0 "C" (LibError "550") server_connected)
    as [Hrefused _]; [reflexivity | reflexivity | reflexivity | vm_compute; reflexivity |].
  destruct (copy_file_ftp_missing_directory ftp_timeout ftp_www "b/c.txt" "src/b/c.txt"
              ftp_www_connected 0 "C" (IOError "timed out") server_connected)
    as [_ Htimeout]; [reflexivity | reflexivity | reflexivity | reflexivity |].
  destruct (Hrefused eq_refl) as [Hexc Hlog].
  split; [exact Hexc|]. split; [exact Hlog|]. exact (Htimeout eq_refl).
Defined.

(** the commit marker of "www" names [c1] *)
Lemma validation_records_commits_witness :
  fst (check_dirs_configured ftp git config_www [www] (PyRepo "src") www_marked_c1)
    = Val true /\
  exists c,
    commit_attr (snd (check_dirs_configured ftp git config_www [www] (PyRepo "src")
                        www_marked_c1)) !! 0 = Some (PyCommit c).
Proof.
  assert (check_dirs_configured ftp git config_www [www] (PyRepo "src") www_marked_c1
          = (Val true,
             snd (check_dirs_configured ftp git config_www [www] (PyRepo "src")
                    www_marked_c1))) as H by (vm_compute; reflexivity).
  split; [by rewrite H|].
  apply (validation_records_commits ftp git config_www [www] (PyRepo "src")
           www_marked_c1 _ H www).
  apply list_elem_of_here.
Defined.

(** the roll-back of "a" and "b" fails on "a": the lock of "b" stays *)
Lemma abort_stops_at_failure_witness :
  Dir.abort ftp target_a marker_is_dir
    = (Exc OSError, snd (Dir.abort ftp target_a marker_is_dir)) /\
  fst (abort ftp [target_a; target_b] "Aborting." marker_is_dir) = Exc OSError /\
  out (snd (abort ftp [target_a; target_b] "Aborting." marker_is_dir)) = [] /\
  files (snd (abort ftp [target_a; target_b] "Aborting." marker_is_dir)) !! "b/.git_lock"
    = Some "locked".
Proof.
  assert (Dir.abort ftp target_a marker_is_dir
          = (Exc OSError, snd (Dir.abort ftp target_a marker_is_dir))) as H
    by (vm_compute; reflexivity).
  split; [exact H|].
  destruct (abort_stops_at_failure ftp [] target_a [target_b] "Aborting."
              marker_is_dir marker_is_dir _ OSError eq_refl H) as (Hrun & Hout & _).
  cbn [app] in Hrun. rewrite Hrun. cbn [fst snd].
  split; [reflexivity|]. split; [exact Hout|]. vm_compute. reflexivity.
Defined.





Lemma deploy_tree_ftp_stores_witness :
  fst (Dir.deploy_tree ftp ftp_www ["a.txt"; "b/c.txt"] config_www ftp_www_ready) = Val tt /\
  files (snd (Dir.deploy_tree ftp ftp_www ["a.txt"; "b/c.txt"] config_www ftp_www_ready))
    = files ftp_www_ready /\
  stored (log (snd (Dir.deploy_tree ftp ftp_www ["a.txt"; "b/c.txt"] config_www
                      ftp_www_ready)))
    = [("STOR a.txt", "A2"); ("STOR c.txt", "C")].
Proof.
  assert (Dir.deploy_tree ftp ftp_www ["a.txt"; "b/c.txt"] config_www ftp_www_ready
          = (Val tt, snd (Dir.deploy_tree ftp ftp_www ["a.txt"; "b/c.txt"] config_www
                            ftp_www_ready))) as H by (vm_compute; reflexivity).
  split; [by rewrite H|].
  destruct (deploy_tree_ftp_stores ftp ftp_www ["a.txt"; "b/c.txt"] config_www
              ftp_www_ready _ eq_refl H) as [Hfiles _].
  split; [exact Hfiles|]. vm_compute. reflexivity.
Defined.
End MoreRuns.
